(** * LLM gateway: prompt building, validation, metrics and SSE relay

    A shallow embedding of the three FastAPI gateways under
    [apps/llm-api]: [app_ollama.py] (HTTP daemon backend),
    [app_onnx.py] (Optimum/ONNX Runtime backend, simulated streaming) and
    [app_onnx_genai.py] (ONNX Runtime GenAI backend).

    Conventions of the embedding:
    - a Python [str] is a list of Unicode code points;
    - a Python [float] that holds a time or a rate is a rational number
      (the guards and formulas of the code are kept, binary rounding of
      IEEE doubles is not modelled); the two handlers of [app_ollama.py]
      are embedded a second time in [Ollama64], with binary64 floats,
      unbounded integers and counts that may be [null], for the
      properties that depend on them;
    - a reading of [time.time()] is an input of the function that reads it;
    - a Python exception is a [Raise] outcome;
    - an outbound backend call is recorded in a call log. *)

From Stdlib Require Import ZArith QArith NArith List String Ascii Lia SpecFloat.
From stdpp Require Import base option list strings gmap.
Import ListNotations.

Open Scope Z_scope.

(** ** Python values *)

Module Py.

Definition codepoint := N.
Definition str := list codepoint.

(** An ASCII literal of the source as a [str]. *)
Definition lit (x : string) : str :=
  (fun a => N_of_ascii a) <$> list_ascii_of_string x.

(** The one-character string of a line feed. *)
Definition newline : str := [10%N].

(** [str.isspace] on one code point: the code points CPython treats as
    whitespace in [str.strip()] and [str.split()]. *)
Definition isspace (c : codepoint) : bool :=
  ((9 <=? c) && (c <=? 13) || (28 <=? c) && (c <=? 32)
   || (c =? 133) || (c =? 160) || (c =? 5760)
   || (8192 <=? c) && (c <=? 8202)
   || (c =? 8232) || (c =? 8233) || (c =? 8239) || (c =? 8287)
   || (c =? 12288))%N.

Fixpoint lstrip (s : str) : str :=
  match s with
  | [] => []
  | c :: r => if isspace c then lstrip r else s
  end.

Definition rstrip (s : str) : str := reverse (lstrip (reverse s)).

(** [s.strip()] *)
Definition strip (s : str) : str := rstrip (lstrip s).

(** [sep.join(parts)] *)
Fixpoint join (sep : str) (parts : list str) : str :=
  match parts with
  | [] => []
  | [p] => p
  | p :: ps => p ++ sep ++ join sep ps
  end.

(** [s.split()]: maximal runs of non-whitespace, in order. [cur] holds
    the current run, reversed. *)
Fixpoint split_from (cur : str) (s : str) : list str :=
  match s with
  | [] => match cur with [] => [] | _ => [reverse cur] end
  | c :: r =>
      if isspace c
      then match cur with
           | [] => split_from [] r
           | _ => reverse cur :: split_from [] r
           end
      else split_from (c :: cur) r
  end.

Definition split (s : str) : list str := split_from [] s.

(** [str.upper] on the ASCII letters; the gateway applies it to role
    names only, which are ASCII. *)
Definition upper_cp (c : codepoint) : codepoint :=
  (if (97 <=? c) && (c <=? 122) then c - 32 else c)%N.

Definition upper (s : str) : str := upper_cp <$> s.

(** Exceptions that the modelled code can raise. *)
Inductive Exn :=
| ZeroDivisionError
| ConnectError
| HTTPStatusError (status : Z)
| ReadError.

Inductive Outcome (A : Type) :=
| Return (a : A)
| Raise (e : Exn).
Arguments Return {A} a.
Arguments Raise {A} e.

Definition bind {A B} (m : Outcome A) (k : A -> Outcome B) : Outcome B :=
  match m with
  | Return a => k a
  | Raise e => Raise e
  end.

(** Comparisons of floats. *)
Definition Qgtb (a b : Q) : bool := negb (Qle_bool a b).

(** [a / b] on numbers: raises on a zero divisor. *)
Definition truediv (a b : Q) : Outcome Q :=
  if Qeq_bool b 0 then Raise ZeroDivisionError else Return (a / b)%Q.

(** Truth value of an [Optional[float]]: [None] and [0.0] are false. *)
Definition truthy (o : option Q) : bool :=
  match o with
  | None => false
  | Some q => negb (Qeq_bool q 0)
  end.

(** Nearest integer, ties to even. *)
Definition round_half_even (q : Q) : Z :=
  let n := Qnum q in
  let d := Z.pos (Qden q) in
  let f := n / d in
  let r2 := 2 * (n mod d) in
  if r2 <? d then f
  else if d <? r2 then f + 1
  else if Z.even f then f else f + 1.

(** [round(q, ndigits)] *)
Definition round (q : Q) (ndigits : nat) : Q :=
  let p := inject_Z (10 ^ Z.of_nat ndigits) in
  (inject_Z (round_half_even (q * p)) / p)%Q.

(** [round(x, n) if x else None] *)
Definition round_if (o : option Q) (ndigits : nat) : option Q :=
  if truthy o then (fun q => round q ndigits) <$> o else None.

End Py.

Import Py.

#[global] Instance Outcome_ret : MRet Outcome := @Return.
#[global] Instance Outcome_bind : MBind Outcome :=
  fun A B (k : A -> Outcome B) (m : Outcome A) => bind m k.
#[global] Instance Outcome_fmap : FMap Outcome :=
  fun A B (f : A -> B) (m : Outcome A) => bind m (fun a => Return (f a)).

(** ** Request and response schemas *)

Inductive Role := system | user | assistant.

Definition role_str (r : Role) : str :=
  match r with
  | system => lit "system"
  | user => lit "user"
  | assistant => lit "assistant"
  end.

Definition is_system (r : Role) : bool :=
  match r with system => true | _ => false end.

Record Message := { role : Role; content : str }.

(** The JSON body of a chat request once parsed: the four fields of
    every [ChatRequest] model of the repository. *)
Record ChatRequest := {
  model : str;
  messages : list Message;
  temperature : Q;
  max_tokens : option Z
}.

Record PerformanceMetrics := {
  ttft : option Q;
  total_latency : Q;
  tokens_per_second : option Q;
  output_tokens_per_second : option Q;
  input_tokens : option Z;
  output_tokens : option Z;
  tpot : option Q;
  metrics_model : str
}.

Record ChatResponse := {
  resp_content : str;
  metrics : PerformanceMetrics
}.

(** A frame of the SSE stream: [{"token": t}] or
    [{"done": True, "token": t, "metrics": m}]. *)
Inductive Frame :=
| TokenFrame (token : str)
| DoneFrame (token : str) (m : PerformanceMetrics).

(** How a generator ends. *)
Inductive Exit := Returned | Raised (e : Exn).

(** What a pydantic field constraint reports. *)
Inductive ValidationError :=
| TooShort (field : string)
| GreaterThanEqual (field : string)
| LessThanEqual (field : string).

(** A FastAPI endpoint: the body is validated against the request model
    first; the handler runs only on a valid body, otherwise the reply is
    the 422 error list. *)
Inductive Reply (A : Type) :=
| Unprocessable (errors : list ValidationError)
| Handled (a : A).
Arguments Unprocessable {A} errors.
Arguments Handled {A} a.

Definition endpoint {A} (validate : ChatRequest -> list ValidationError)
    (handler : ChatRequest -> A) (body : ChatRequest) : Reply A :=
  match validate body with
  | [] => Handled (handler body)
  | errs => Unprocessable errs
  end.

(** [f"{m.role.upper()}: {m.content}"] *)
Definition render_turn (m : Message) : str :=
  upper (role_str (role m)) ++ lit ": " ++ content m.

Definition system_contents (ms : list Message) : list str :=
  content <$> filter (fun m => is_system (role m) = true) ms.

Definition dialogue_turns (ms : list Message) : list str :=
  render_turn <$> filter (fun m => is_system (role m) = false) ms.

(** ** The Ollama gateway ([app_ollama.py]) *)

Module Ollama.

(** [ChatRequest]: [messages] has [min_length=1], [temperature] has
    [ge=0.0] and [le=2.0], [max_tokens] has [ge=1] when it is not [None]. *)
Definition validate (body : ChatRequest) : list ValidationError :=
  (match messages body with [] => [TooShort "messages"] | _ => [] end)
  ++ (if Qle_bool 0 (temperature body) then [] else [GreaterThanEqual "temperature"])
  ++ (if Qle_bool (temperature body) 2 then [] else [LessThanEqual "temperature"])
  ++ (match max_tokens body with
      | Some n => if 1 <=? n then [] else [GreaterThanEqual "max_tokens"]
      | None => []
      end).

(** A value of the [options] dict of a payload. *)
Inductive JVal := JNum (q : Q) | JInt (n : Z).

(** The JSON payload posted to [/api/generate]. *)
Record Payload := {
  p_model : str;
  p_prompt : str;
  p_options : gmap string JVal;
  p_stream : bool
}.

(** The prompt, as both handlers build it inline. *)
Definition prompt_of (req : ChatRequest) : str :=
  let sys := join newline (system_contents (messages req)) in
  let history := join newline (dialogue_turns (messages req)) in
  strip (sys ++ newline ++ history).

(** [payload] of [chat]. *)
Definition chat_payload (req : ChatRequest) : Payload :=
  {| p_model := model req;
     p_prompt := prompt_of req;
     p_options := {[ "temperature" := JNum (temperature req) ]};
     p_stream := false |}.

(** [req.max_tokens] as a condition: [None] and [0] are false. *)
Definition max_tokens_set (req : ChatRequest) : option Z :=
  match max_tokens req with
  | Some n => if n =? 0 then None else Some n
  | None => None
  end.

(** [payload] of [chat_stream]. *)
Definition stream_payload (req : ChatRequest) : Payload :=
  {| p_model := model req;
     p_prompt := prompt_of req;
     p_options :=
       match max_tokens_set req with
       | Some n => <[ "num_predict" := JInt n ]> {[ "temperature" := JNum (temperature req) ]}
       | None => {[ "temperature" := JNum (temperature req) ]}
       end;
     p_stream := true |}.

(** The JSON object of a non-streaming backend reply; a key the backend
    left out is [None]. *)
Record GenerateData := {
  g_response : option str;
  g_prompt_eval_count : option Z;
  g_eval_count : option Z;
  g_total_duration : option Z;
  g_prompt_eval_duration : option Z
}.

(** What [client.post] followed by [raise_for_status] can see: no
    connection, a status that [raise_for_status] rejects, or the JSON
    object of a successful reply. *)
Inductive HttpResult :=
| ConnectFailed
| ErrorStatus (status : Z)
| Success (data : GenerateData).

(** The three rate variables of [chat], before rounding:
    [(tokens_per_second, output_tokens_per_second, tpot)]. *)
Definition chat_rates (total_latency : Q) (data : GenerateData)
    : Outcome (option Q * option Q * option Q) :=
  let prompt_eval_count := default 0 (g_prompt_eval_count data) in
  let eval_count := default 0 (g_eval_count data) in
  if Qgtb total_latency 0 then
    let total_tokens := prompt_eval_count + eval_count in
    tokens_per_second ←
      (if 0 <? total_tokens
       then Some <$> truediv (inject_Z total_tokens) total_latency
       else mret None);
    if 0 <? eval_count then
      total_duration_s ←
        truediv (inject_Z (default 0 (g_total_duration data))) (inject_Z 1000000000);
      prompt_duration_s ←
        truediv (inject_Z (default 0 (g_prompt_eval_duration data))) (inject_Z 1000000000);
      let generation_time :=
        if Qgtb total_duration_s prompt_duration_s
        then (total_duration_s - prompt_duration_s)%Q
        else total_latency in
      if Qgtb generation_time 0 then
        output_tokens_per_second ← truediv (inject_Z eval_count) generation_time;
        tpot ← truediv generation_time (inject_Z eval_count);
        mret (tokens_per_second, Some output_tokens_per_second, Some tpot)
      else mret (tokens_per_second, None, None)
    else mret (tokens_per_second, None, None)
  else mret (None, None, None).

Definition count_field (n : Z) : option Z := if 0 <? n then Some n else None.

(** The body of [chat] after the backend replied. *)
Definition chat_response (req : ChatRequest) (start_time end_time : Q)
    (data : GenerateData) : Outcome ChatResponse :=
  let total_latency := (end_time - start_time)%Q in
  '(tokens_per_second, output_tokens_per_second, tpot) ← chat_rates total_latency data;
  mret {| resp_content := default [] (g_response data);
          metrics :=
            {| ttft := None;
               total_latency := round total_latency 4;
               tokens_per_second := round_if tokens_per_second 2;
               output_tokens_per_second := round_if output_tokens_per_second 2;
               input_tokens := count_field (default 0 (g_prompt_eval_count data));
               output_tokens := count_field (default 0 (g_eval_count data));
               tpot := round_if tpot 4;
               metrics_model := model req |} |}.

(** [chat]: the backend calls made, and the outcome. *)
Definition chat (backend : Payload -> HttpResult) (start_time end_time : Q)
    (req : ChatRequest) : list Payload * Outcome ChatResponse :=
  let payload := chat_payload req in
  ([payload],
   match backend payload with
   | ConnectFailed => Raise ConnectError
   | ErrorStatus status => Raise (HTTPStatusError status)
   | Success data => chat_response req start_time end_time data
   end).

(** [POST /v1/chat] *)
Definition post_chat (backend : Payload -> HttpResult) (start_time end_time : Q)
    : ChatRequest -> Reply (list Payload * Outcome ChatResponse) :=
  endpoint validate (chat backend start_time end_time).

(** *** Streaming *)

(** The JSON object of one streamed backend line. [o_done] is the truth
    value of [obj.get("done")]. *)
Record StreamObj := {
  o_done : bool;
  o_response : option str;
  o_prompt_eval_count : option Z;
  o_eval_count : option Z
}.

(** A line of [r.aiter_lines()]: empty, not JSON, or a JSON object (the
    backend's protocol is one JSON object per line). *)
Inductive Line :=
| Blank
| Malformed
| Obj (obj : StreamObj).

(** How the line iterator ends: the body is exhausted, or the
    connection is lost and the iterator raises. *)
Inductive StreamEnd := Eof | Dropped.

(** What [client.stream] followed by [raise_for_status] can see. Each
    line comes with the reading of [time.time()] while it is handled. *)
Inductive StreamResult :=
| StreamConnectFailed
| StreamErrorStatus (status : Z)
| Lines (lines : list (Q * Line)) (tail : StreamEnd).

(** The local variables of [event_gen] that survive an iteration. *)
Record Relay := {
  r_ttft : option Q;
  first_token_received : bool;
  token_count : Z;
  r_prompt_eval_count : Z
}.

Definition relay_init : Relay :=
  {| r_ttft := None; first_token_received := false;
     token_count := 0; r_prompt_eval_count := 0 |}.

(** The counts read from the done object. *)
Definition final_prompt_eval_count (st : Relay) (obj : StreamObj) : Z :=
  default (r_prompt_eval_count st) (o_prompt_eval_count obj).

Definition final_eval_count (st : Relay) (obj : StreamObj) : Z :=
  default (token_count st) (o_eval_count obj).

(** The three rate variables of [event_gen], before rounding. *)
Definition stream_rates (total_latency : Q) (ttft : option Q)
    (prompt_eval_count eval_count : Z)
    : Outcome (option Q * option Q * option Q) :=
  if Qgtb total_latency 0 then
    let total_tokens := prompt_eval_count + eval_count in
    tokens_per_second ←
      (if 0 <? total_tokens
       then Some <$> truediv (inject_Z total_tokens) total_latency
       else mret None);
    if 0 <? eval_count then
      let generation_time :=
        (total_latency - (if truthy ttft then default 0%Q ttft else 0))%Q in
      if Qgtb generation_time 0 then
        output_tokens_per_second ← truediv (inject_Z eval_count) generation_time;
        tpot ← truediv generation_time (inject_Z eval_count);
        mret (tokens_per_second, Some output_tokens_per_second, Some tpot)
      else mret (tokens_per_second, None, None)
    else mret (tokens_per_second, None, None)
  else mret (None, None, None).

(** The [metrics] dict of the final event. *)
Definition stream_metrics (req : ChatRequest) (start_time end_time : Q)
    (st : Relay) (obj : StreamObj) : Outcome PerformanceMetrics :=
  let total_latency := (end_time - start_time)%Q in
  let prompt_eval_count := final_prompt_eval_count st obj in
  let eval_count := final_eval_count st obj in
  '(tokens_per_second, output_tokens_per_second, tpot) ←
    stream_rates total_latency (r_ttft st) prompt_eval_count eval_count;
  mret {| ttft := round_if (r_ttft st) 4;
          total_latency := round total_latency 4;
          tokens_per_second := round_if tokens_per_second 2;
          output_tokens_per_second := round_if output_tokens_per_second 2;
          input_tokens := count_field prompt_eval_count;
          output_tokens := count_field eval_count;
          tpot := round_if tpot 4;
          metrics_model := model req |}.

(** One iteration of the [async for] loop. *)
Inductive Step :=
| Next (st : Relay) (out : option Frame)
| Break (out : Frame)
| Throw (e : Exn).

Definition on_line (req : ChatRequest) (start_time : Q) (st : Relay)
    (now : Q) (line : Line) : Step :=
  match line with
  | Blank => Next st None
  | Malformed => Next st None
  | Obj obj =>
      if o_done obj then
        match stream_metrics req start_time now st obj with
        | Return m => Break (DoneFrame (lit "[DONE]") m)
        | Raise e => Throw e
        end
      else
        match default [] (o_response obj) with
        | [] => Next st None
        | token =>
            let st1 :=
              if first_token_received st then st
              else {| r_ttft := Some (now - start_time)%Q;
                      first_token_received := true;
                      token_count := token_count st;
                      r_prompt_eval_count := r_prompt_eval_count st |} in
            Next {| r_ttft := r_ttft st1;
                    first_token_received := first_token_received st1;
                    token_count := token_count st1 + 1;
                    r_prompt_eval_count := r_prompt_eval_count st1 |}
                 (Some (TokenFrame token))
        end
  end.

(** The [async for] loop over the backend lines. *)
Fixpoint relay (req : ChatRequest) (start_time : Q) (st : Relay)
    (lines : list (Q * Line)) (tail : StreamEnd) : list Frame * Exit :=
  match lines with
  | [] => ([], match tail with Eof => Returned | Dropped => Raised ReadError end)
  | (now, line) :: rest =>
      match on_line req start_time st now line with
      | Next st' out =>
          let '(frames, exit) := relay req start_time st' rest tail in
          (match out with Some f => f :: frames | None => frames end, exit)
      | Break f => ([f], Returned)
      | Throw e => ([], Raised e)
      end
  end.

(** [event_gen] of [chat_stream], run until it stops by itself. *)
Definition event_gen (backend : Payload -> StreamResult) (start_time : Q)
    (req : ChatRequest) : list Payload * (list Frame * Exit) :=
  let payload := stream_payload req in
  ([payload],
   match backend payload with
   | StreamConnectFailed => ([], Raised ConnectError)
   | StreamErrorStatus status => ([], Raised (HTTPStatusError status))
   | Lines lines tail => relay req start_time relay_init lines tail
   end).

(** [POST /v1/chat/stream] *)
Definition post_chat_stream (backend : Payload -> StreamResult) (start_time : Q)
    : ChatRequest -> Reply (list Payload * (list Frame * Exit)) :=
  endpoint validate (event_gen backend start_time).

End Ollama.

(** ** Helpers shared by the two in-process gateways *)

(** [s.startswith(prefix)] *)
Fixpoint startswith (s prefix : str) : bool :=
  match prefix, s with
  | [], _ => true
  | p :: prefix', c :: s' => (p =? c)%N && startswith s' prefix'
  | _ :: _, [] => false
  end.

(** [len(xs)] *)
Definition len {A} (xs : list A) : Z := Z.of_nat (length xs).

(** ** The ONNX Runtime gateway ([app_onnx.py]) *)

Module Onnx.

(** [ChatRequest] declares the four fields with their types and no
    constraint. *)
Definition validate (body : ChatRequest) : list ValidationError := [].

(** The arguments of one [model.generate] call. *)
Record GenerateCall := {
  input_ids : list Z;
  do_sample : bool;
  gen_temperature : Q;
  max_new_tokens : Z
}.

(** The tokenizer and model that [_load_model] returns once loaded, and
    the configured default. [generate] returns the whole output sequence,
    prompt included. *)
Record Engine := {
  tokenize : str -> list Z;
  generate : GenerateCall -> list Z;
  decode : list Z -> str;
  DEFAULT_MAX_NEW_TOKENS : Z
}.

Definition build_prompt (messages : list Message) : str :=
  let sys := join newline (system_contents messages) in
  let history := join newline (dialogue_turns messages) in
  strip (sys ++ newline ++ history).

(** The call both handlers make. *)
Definition generate_call (eng : Engine) (req : ChatRequest) (prompt : str)
    : GenerateCall :=
  let max_new :=
    match max_tokens req with
    | Some n => if n =? 0 then DEFAULT_MAX_NEW_TOKENS eng else n
    | None => DEFAULT_MAX_NEW_TOKENS eng
    end in
  {| input_ids := tokenize eng prompt;
     do_sample := truthy (Some (temperature req)) && Qgtb (temperature req) 0;
     gen_temperature :=
       if Qgtb (1 # 1000000) (temperature req) then 1 # 1000000
       else temperature req;
     max_new_tokens := max_new |}.

(** The completion: the decoded output without the prompt prefix. *)
Definition completion (prompt decoded : str) : str :=
  if startswith decoded prompt
  then lstrip (drop (length prompt) decoded)
  else decoded.

(** [req.model or "onnx-local"] *)
Definition model_name (req : ChatRequest) : str :=
  match model req with [] => lit "onnx-local" | m => m end.

(** The rate variables of [chat]. *)
Definition chat_rates (total_latency : Q) (input_tokens output_tokens : Z)
    : Outcome (option Q * option Q * option Q) :=
  if Qgtb total_latency 0 then
    let total_tokens := input_tokens + output_tokens in
    tokens_per_second ←
      (if 0 <? total_tokens
       then Some <$> truediv (inject_Z total_tokens) total_latency
       else mret None);
    if 0 <? output_tokens then
      output_tokens_per_second ← truediv (inject_Z output_tokens) total_latency;
      tpot ← truediv total_latency (inject_Z output_tokens);
      mret (tokens_per_second, Some output_tokens_per_second, Some tpot)
    else mret (tokens_per_second, None, None)
  else mret (None, None, None).

(** [chat] *)
Definition chat (eng : Engine) (start_time end_time : Q) (req : ChatRequest)
    : list GenerateCall * Outcome ChatResponse :=
  let prompt := build_prompt (messages req) in
  let call := generate_call eng req prompt in
  let outputs := generate eng call in
  let total_latency := (end_time - start_time)%Q in
  let content := completion prompt (decode eng outputs) in
  let output_len := Z.max (len outputs - len (input_ids call)) 0 in
  let input_tokens := len (input_ids call) in
  let output_tokens := output_len in
  ([call],
   '(tokens_per_second, output_tokens_per_second, tpot) ←
     chat_rates total_latency input_tokens output_tokens;
   mret {| resp_content := content;
           metrics :=
             {| ttft := None;
                total_latency := round total_latency 4;
                tokens_per_second := round_if tokens_per_second 2;
                output_tokens_per_second := round_if output_tokens_per_second 2;
                input_tokens := Some input_tokens;
                output_tokens := Some output_tokens;
                tpot := round_if tpot 4;
                metrics_model := model_name req |} |}).

(** [POST /v1/chat] *)
Definition post_chat (eng : Engine) (start_time end_time : Q)
    : ChatRequest -> Reply (list GenerateCall * Outcome ChatResponse) :=
  endpoint validate (chat eng start_time end_time).

(** The rate variables of [event_gen]. *)
Definition stream_rates (total_latency : Q) (ttft : option Q)
    (input_tokens output_tokens : Z)
    : Outcome (option Q * option Q * option Q) :=
  if Qgtb total_latency 0 then
    let total_tokens := input_tokens + output_tokens in
    tokens_per_second ←
      (if 0 <? total_tokens
       then Some <$> truediv (inject_Z total_tokens) total_latency
       else mret None);
    if 0 <? output_tokens then
      let gen_time :=
        (total_latency - (if truthy ttft then default 0%Q ttft else 0))%Q in
      if Qgtb gen_time 0 then
        output_tokens_per_second ← truediv (inject_Z output_tokens) gen_time;
        tpot ← truediv gen_time (inject_Z output_tokens);
        mret (tokens_per_second, Some output_tokens_per_second, Some tpot)
      else mret (tokens_per_second, None, None)
    else mret (tokens_per_second, None, None)
  else mret (None, None, None).

(** The frames of the word loop: one [{"token": w + " "}] per word. *)
Definition word_frames (words : list str) : list Frame :=
  (fun w => TokenFrame (w ++ lit " ")) <$> words.

(** [chat_stream] with its [event_gen] run to the end. [chunk_time] is
    the clock reading at the first word, [end_time] the one after the
    last. *)
Definition chat_stream (eng : Engine) (start_time chunk_time end_time : Q)
    (req : ChatRequest) : list GenerateCall * (list Frame * Exit) :=
  let prompt := build_prompt (messages req) in
  let call := generate_call eng req prompt in
  let outputs := generate eng call in
  let content := completion prompt (decode eng outputs) in
  let words := split content in
  let first_chunk_time :=
    match words with [] => None | _ => Some chunk_time end in
  let total_latency := (end_time - start_time)%Q in
  let ttft :=
    if truthy first_chunk_time
    then (fun t => (t - start_time)%Q) <$> first_chunk_time
    else None in
  let input_tokens := len (input_ids call) in
  let output_tokens := Z.max (len outputs - input_tokens) 0 in
  ([call],
   match stream_rates total_latency ttft input_tokens output_tokens with
   | Return (tokens_per_second, output_tokens_per_second, tpot) =>
       (word_frames words ++
        [DoneFrame (lit "[DONE]")
           {| ttft := round_if ttft 4;
              total_latency := round total_latency 4;
              tokens_per_second := round_if tokens_per_second 2;
              output_tokens_per_second := round_if output_tokens_per_second 2;
              input_tokens := Some input_tokens;
              output_tokens := Some output_tokens;
              tpot := round_if tpot 4;
              metrics_model := model_name req |}],
        Returned)
   | Raise e => (word_frames words, Raised e)
   end).

(** [POST /v1/chat/stream] *)
Definition post_chat_stream (eng : Engine) (start_time chunk_time end_time : Q)
    : ChatRequest -> Reply (list GenerateCall * (list Frame * Exit)) :=
  endpoint validate (chat_stream eng start_time chunk_time end_time).

End Onnx.

(** ** The ONNX Runtime GenAI gateway ([app_onnx_genai.py]) *)

Module Genai.

(** [ChatRequest]: the constraints of the Ollama model. *)
Definition validate (body : ChatRequest) : list ValidationError :=
  (match messages body with [] => [TooShort "messages"] | _ => [] end)
  ++ (if Qle_bool 0 (temperature body) then [] else [GreaterThanEqual "temperature"])
  ++ (if Qle_bool (temperature body) 2 then [] else [LessThanEqual "temperature"])
  ++ (match max_tokens body with
      | Some n => if 1 <=? n then [] else [GreaterThanEqual "max_tokens"]
      | None => []
      end).

(** [set_search_options(max_length=..., temperature=...)] and the tokens
    appended to the generator. *)
Record Generation := {
  max_length : Z;
  search_temperature : Q;
  appended : list Z
}.

(** The loaded model and tokenizer. [run] gives the token ids that the
    [while not generator.is_done()] loop produces, in order. *)
Record Engine := {
  encode : str -> list Z;
  run : Generation -> list Z;
  decode : list Z -> str
}.

Definition build_prompt (messages : list Message) : str :=
  let sys_prompt := join newline (system_contents messages) in
  let conv := join newline (dialogue_turns messages) in
  strip (sys_prompt ++ newline ++ conv ++ newline ++ lit "ASSISTANT:").

Definition generation (eng : Engine) (req : ChatRequest) (prompt : str)
    : Generation :=
  {| max_length :=
       match max_tokens req with
       | Some n => if n =? 0 then 4096 else n
       | None => 4096
       end;
     search_temperature := temperature req;
     appended := encode eng prompt |}.

(** The rate variables of [chat]. *)
Definition chat_rates (total_latency : Q)
    (input_token_count output_token_count : Z)
    : Outcome (option Q * option Q * option Q) :=
  if Qgtb total_latency 0 then
    let total_tokens := input_token_count + output_token_count in
    tokens_per_second ←
      (if 0 <? total_tokens
       then Some <$> truediv (inject_Z total_tokens) total_latency
       else mret None);
    if 0 <? output_token_count then
      output_tokens_per_second ← truediv (inject_Z output_token_count) total_latency;
      tpot ← truediv total_latency (inject_Z output_token_count);
      mret (tokens_per_second, Some output_tokens_per_second, Some tpot)
    else mret (tokens_per_second, None, None)
  else mret (None, None, None).

(** [chat] *)
Definition chat (eng : Engine) (start_time end_time : Q) (req : ChatRequest)
    : list Generation * Outcome ChatResponse :=
  let prompt := build_prompt (messages req) in
  let gen := generation eng req prompt in
  let input_token_count := len (appended gen) in
  let output_seq := appended gen ++ run eng gen in
  let output_text := decode eng output_seq in
  let content :=
    if startswith output_text prompt
    then strip (drop (length prompt) output_text)
    else strip output_text in
  let total_latency := (end_time - start_time)%Q in
  let output_token_count := len output_seq - input_token_count in
  ([gen],
   '(tokens_per_second, output_tokens_per_second, tpot) ←
     chat_rates total_latency input_token_count output_token_count;
   mret {| resp_content := content;
           metrics :=
             {| ttft := None;
                total_latency := round total_latency 4;
                tokens_per_second := round_if tokens_per_second 2;
                output_tokens_per_second := round_if output_tokens_per_second 2;
                input_tokens := Some input_token_count;
                output_tokens := Some output_token_count;
                tpot := round_if tpot 4;
                metrics_model := model req |} |}).

(** [POST /v1/chat] *)
Definition post_chat (eng : Engine) (start_time end_time : Q)
    : ChatRequest -> Reply (list Generation * Outcome ChatResponse) :=
  endpoint validate (chat eng start_time end_time).

(** The rate variables of [event_gen]. *)
Definition stream_rates (total_latency : Q) (ttft : option Q)
    (input_token_count output_token_count : Z)
    : Outcome (option Q * option Q * option Q) :=
  if Qgtb total_latency 0 then
    let total_tokens := input_token_count + output_token_count in
    tokens_per_second ←
      (if 0 <? total_tokens
       then Some <$> truediv (inject_Z total_tokens) total_latency
       else mret None);
    if 0 <? output_token_count then
      let generation_time :=
        (total_latency - (if truthy ttft then default 0%Q ttft else 0))%Q in
      if Qgtb generation_time 0 then
        output_tokens_per_second ← truediv (inject_Z output_token_count) generation_time;
        tpot ← truediv generation_time (inject_Z output_token_count);
        mret (tokens_per_second, Some output_tokens_per_second, Some tpot)
      else mret (tokens_per_second, None, None)
    else mret (tokens_per_second, None, None)
  else mret (None, None, None).

(** The frames of the token loop: one [{"token": token_text}] per
    generated token id. *)
Definition token_frames (eng : Engine) (new_tokens : list Z) : list Frame :=
  (fun new_token_id => TokenFrame (decode eng [new_token_id])) <$> new_tokens.

(** [event_gen] of [chat_stream], run to the end. [first_time] is the
    clock reading at the first generated token, [end_time] the one after
    the loop. *)
Definition event_gen (eng : Engine) (start_time first_time end_time : Q)
    (req : ChatRequest) : list Generation * (list Frame * Exit) :=
  let prompt := build_prompt (messages req) in
  let gen := generation eng req prompt in
  let input_token_count := len (appended gen) in
  let new_tokens := run eng gen in
  let ttft :=
    match new_tokens with
    | [] => None
    | _ => Some (first_time - start_time)%Q
    end in
  let token_count := len new_tokens in
  let total_latency := (end_time - start_time)%Q in
  let output_token_count := token_count in
  ([gen],
   match stream_rates total_latency ttft input_token_count output_token_count with
   | Return (tokens_per_second, output_tokens_per_second, tpot) =>
       (token_frames eng new_tokens ++
        [DoneFrame (lit "[DONE]")
           {| ttft := round_if ttft 4;
              total_latency := round total_latency 4;
              tokens_per_second := round_if tokens_per_second 2;
              output_tokens_per_second := round_if output_tokens_per_second 2;
              input_tokens := Some input_token_count;
              output_tokens := Some output_token_count;
              tpot := round_if tpot 4;
              metrics_model := model req |}],
        Returned)
   | Raise e => (token_frames eng new_tokens, Raised e)
   end).

(** [POST /v1/chat/stream] *)
Definition post_chat_stream (eng : Engine) (start_time first_time end_time : Q)
    : ChatRequest -> Reply (list Generation * (list Frame * Exit)) :=
  endpoint validate (event_gen eng start_time first_time end_time).

End Genai.

(** ** Reading a stream *)

(** The fragments of the token frames, in order. *)
Definition token_texts (frames : list Frame) : list str :=
  omap (fun f => match f with TokenFrame t => Some t | DoneFrame _ _ => None end) frames.


(** The metrics of the final frame. *)
Definition done_metrics (frames : list Frame) : option PerformanceMetrics :=
  match last frames with
  | Some (DoneFrame _ m) => Some m
  | _ => None
  end.

(** [''.join(parts)] *)
Definition concat_str (parts : list str) : str := join [] parts.

(** The non-empty [response] fragments that precede the first done
    object of a backend stream. *)
Fixpoint fragments (lines : list (Q * Ollama.Line)) : list str :=
  match lines with
  | [] => []
  | (_, Ollama.Obj obj) :: rest =>
      if Ollama.o_done obj then []
      else match default [] (Ollama.o_response obj) with
           | [] => fragments rest
           | t => t :: fragments rest
           end
  | _ :: rest => fragments rest
  end.

(** The first done object of a backend stream, with the clock reading
    at which it is handled. *)
Fixpoint done_object (lines : list (Q * Ollama.Line)) : option (Q * Ollama.StreamObj) :=
  match lines with
  | [] => None
  | (now, Ollama.Obj obj) :: rest =>
      if Ollama.o_done obj then Some (now, obj) else done_object rest
  | _ :: rest => done_object rest
  end.

(** The exception a backend failure raises in [event_gen]: a refused
    connection, an error status, or a connection lost before any done
    object. *)
Definition failure_of (r : Ollama.StreamResult) : option Exn :=
  match r with
  | Ollama.StreamConnectFailed => Some ConnectError
  | Ollama.StreamErrorStatus status => Some (HTTPStatusError status)
  | Ollama.Lines lines Ollama.Dropped =>
      match done_object lines with
      | None => Some ReadError
      | Some _ => None
      end
  | Ollama.Lines _ Ollama.Eof => None
  end.


(** ** The design's vocabulary, for comparison with the code *)

(** The event alphabet of the design: [Token], [Done], [Failed]. *)
Inductive EventKind := KToken | KDone | KFailed.

(** An SSE frame read as an event of the design. No frame of the
    gateways reads as [KFailed]. *)
Definition kind_of (f : Frame) : EventKind :=
  match f with
  | TokenFrame _ => KToken
  | DoneFrame _ _ => KDone
  end.

Definition is_terminal (k : EventKind) : bool :=
  match k with KToken => false | KDone | KFailed => true end.

(** The design's invariant: a run of tokens, then exactly one terminal
    event, which is last. *)
Fixpoint tokens_then_terminal (ks : list EventKind) : bool :=
  match ks with
  | [] => false
  | [k] => is_terminal k
  | k :: rest => negb (is_terminal k) && tokens_then_terminal rest
  end.

(** The design's failure rule: a run of tokens, then one [Failed]. *)
Fixpoint tokens_then_failed (ks : list EventKind) : bool :=
  match ks with
  | [] => false
  | [KFailed] => true
  | KToken :: rest => tokens_then_failed rest
  | _ => false
  end.


(** The design's role label of a dialogue line. *)
Definition role_label (r : Role) : str :=
  match r with
  | system => lit "SYSTEM"
  | user => lit "USER"
  | assistant => lit "ASSISTANT"
  end.

(** The design's linearization, in one pass over the conversation: the
    system contents, and the other messages as [ROLE: content] lines. *)
Fixpoint linearize (ms : list Message) : list str * list str :=
  match ms with
  | [] => ([], [])
  | m :: rest =>
      let '(preamble, turns) := linearize rest in
      match role m with
      | system => (content m :: preamble, turns)
      | r => (preamble, (role_label r ++ lit ": " ++ content m) :: turns)
      end
  end.

(** The linearized conversation with [suffix] appended, trimmed. *)
Definition design_prompt_with (suffix : str) (ms : list Message) : str :=
  let '(preamble, turns) := linearize ms in
  strip (join newline preamble ++ newline ++ join newline turns ++ suffix).

(** The design's prompt: nothing is appended. *)
Definition design_prompt (ms : list Message) : str := design_prompt_with [] ms.

(** The design's overall rate: the token sum over the total latency when
    both are positive, absent otherwise. *)
Definition design_tokens_per_second (total_latency : Q)
    (input_token_count output_token_count : Z) : option Q :=
  if Qgtb total_latency 0 && (0 <? input_token_count + output_token_count)
  then Some (inject_Z (input_token_count + output_token_count) / total_latency)%Q
  else None.

(** No whitespace at either end. *)
Definition trimmed (s : str) : Prop :=
  (forall c, head s = Some c -> isspace c = false) /\
  (forall c, last s = Some c -> isspace c = false).

(** ** Sample traffic *)

Definition hi_request : ChatRequest :=
  {| model := lit "m";
     messages := [ {| role := user; content := lit "Hi" |} ];
     temperature := 1 # 5;
     max_tokens := None |}.

Definition capped_request : ChatRequest :=
  {| model := lit "m";
     messages := [ {| role := user; content := lit "Hi" |} ];
     temperature := 1 # 5;
     max_tokens := Some 5 |}.

Definition empty_request : ChatRequest :=
  {| model := lit "onnx-local";
     messages := [];
     temperature := 1 # 5;
     max_tokens := None |}.

Definition zero_cap_request : ChatRequest :=
  {| model := lit "onnx-local";
     messages := [ {| role := user; content := lit "Hi" |} ];
     temperature := 1 # 5;
     max_tokens := Some 0 |}.

Definition hot_request : ChatRequest :=
  {| model := lit "onnx-local";
     messages := [ {| role := user; content := lit "Hi" |} ];
     temperature := 5 # 2;
     max_tokens := None |}.

Definition fragment (t : string) : Ollama.Line :=
  Ollama.Obj {| Ollama.o_done := false; Ollama.o_response := Some (lit t);
                Ollama.o_prompt_eval_count := None; Ollama.o_eval_count := None |}.

Definition done_marker (input_count output_count : option Z) : Ollama.Line :=
  Ollama.Obj {| Ollama.o_done := true; Ollama.o_response := None;
                Ollama.o_prompt_eval_count := input_count;
                Ollama.o_eval_count := output_count |}.

(** A backend that streams [Hel], [lo] and a done object with counts 3
    and 2, handled at clock readings 1, 2 and 3. *)
Definition hello_backend (_ : Ollama.Payload) : Ollama.StreamResult :=
  Ollama.Lines [ (1%Q, fragment "Hel"); (2%Q, fragment "lo");
                 (3%Q, done_marker (Some 3) (Some 2)) ] Ollama.Eof.


(** A backend whose body ends after one fragment, with no done object. *)
Definition truncated_backend (_ : Ollama.Payload) : Ollama.StreamResult :=
  Ollama.Lines [ (1%Q, fragment "Hel") ] Ollama.Eof.

(** A backend whose connection is lost after one fragment. *)
Definition dropping_backend (_ : Ollama.Payload) : Ollama.StreamResult :=
  Ollama.Lines [ (1%Q, fragment "Hel") ] Ollama.Dropped.

(** A backend that refuses the connection. *)
Definition refusing_backend (_ : Ollama.Payload) : Ollama.StreamResult :=
  Ollama.StreamConnectFailed.

Definition paris_data : Ollama.GenerateData :=
  {| Ollama.g_response := Some (lit "Paris");
     Ollama.g_prompt_eval_count := Some 10;
     Ollama.g_eval_count := Some 4;
     Ollama.g_total_duration := Some 2000000000;
     Ollama.g_prompt_eval_duration := Some 500000000 |}.

Definition paris_backend (_ : Ollama.Payload) : Ollama.HttpResult :=
  Ollama.Success paris_data.


(** * Further reading of the gateways and their callers *)

(** ** The Ollama relay, step by step *)



(** The lines that are no JSON object. *)
Definition is_noise (line : Ollama.Line) : bool :=
  match line with
  | Ollama.Blank | Ollama.Malformed => true
  | Ollama.Obj _ => false
  end.

(** A backend body without its blank and malformed lines. *)
Definition without_noise (lines : list (Q * Ollama.Line)) : list (Q * Ollama.Line) :=
  filter (fun l => is_noise l.2 = false) lines.

(** ** The generation window of the non-streaming Ollama handler *)

(** ** The lazy model loader of the ONNX gateway ([_load_model]) *)

Module Loader.

(** The module globals [_tokenizer] and [_model]. *)
Record Globals (T M : Type) := {
  _tokenizer : option T;
  _model : option M
}.
Arguments _tokenizer {T M} g.
Arguments _model {T M} g.

(** What a load attempt meets on the host: whether [transformers] and
    [optimum] import, whether [ONNX_MODEL_DIR] is a directory, and what
    the two [from_pretrained] calls give ([None]: the call raises). *)
Record Host (T M : Type) := {
  dependencies_import : bool;
  model_dir_is_dir : bool;
  tokenizer_from_pretrained : option T;
  model_from_pretrained : option M
}.
Arguments dependencies_import {T M} h.
Arguments model_dir_is_dir {T M} h.
Arguments tokenizer_from_pretrained {T M} h.
Arguments model_from_pretrained {T M} h.

Inductive LoadError :=
| MissingDependencies
| ModelDirectoryNotFound
| FromPretrainedFailed.

(** [_load_model()]: the result, and the globals after the call. *)
Definition _load_model {T M : Type} (host : Host T M) (g : Globals T M)
    : (LoadError + T * M) * Globals T M :=
  match _tokenizer g, _model g with
  | Some t, Some m => (inr (t, m), g)
  | _, _ =>
      if negb (dependencies_import host) then (inl MissingDependencies, g)
      else if negb (model_dir_is_dir host) then (inl ModelDirectoryNotFound, g)
      else
        match tokenizer_from_pretrained host with
        | None => (inl FromPretrainedFailed, g)
        | Some t =>
            let g1 := {| _tokenizer := Some t; _model := _model g |} in
            match model_from_pretrained host with
            | None => (inl FromPretrainedFailed, g1)
            | Some m =>
                (inr (t, m), {| _tokenizer := Some t; _model := Some m |})
            end
        end
  end.

(** Both globals are set. *)
Definition loaded {T M : Type} (g : Globals T M) : bool :=
  match _tokenizer g, _model g with
  | Some _, Some _ => true
  | _, _ => false
  end.

(** The globals as the module can hold them: [_model] is only ever
    assigned after [_tokenizer]. *)
Definition reachable {T M : Type} (g : Globals T M) : bool :=
  match _tokenizer g, _model g with
  | None, Some _ => false
  | _, _ => true
  end.

(** The globals when the module is imported. *)
Definition initial {T M : Type} : Globals T M :=
  {| _tokenizer := None; _model := None |}.

End Loader.

(** ** The Panel client of the gateway ([BACKUP UI 2/llm_client.py]) *)

Module LLMClient.

(** [s.lstrip("/")], used to write [rstrip]. *)
Fixpoint lstrip_slash (s : str) : str :=
  match s with
  | [] => []
  | c :: r => if (c =? 47)%N then lstrip_slash r else s
  end.

(** [s.rstrip("/")] *)
Definition rstrip_slash (s : str) : str := reverse (lstrip_slash (reverse s)).

(** [x or y] for an [Optional[str]] [x]: [None] and the empty string
    are false. *)
Definition str_or (x : option str) (y : str) : str :=
  match x with
  | Some (c :: s) => c :: s
  | _ => y
  end.

(** [self.base_url] as [__init__] sets it from its argument and the
    [LLM_API_URL] variable. *)
Definition base_url (base_url env_url : option str) : str :=
  rstrip_slash (str_or base_url (str_or env_url (lit "http://127.0.0.1:8000"))).

(** The request body of [chat] and [chat_stream]; [p_max_tokens = None]
    is a body without that key. *)
Record Payload := {
  p_model : str;
  p_messages : list (gmap string str);
  p_temperature : Q;
  p_max_tokens : option Z
}.

Definition payload (messages : list (gmap string str)) (model : str)
    (temperature : Q) (max_tokens : option Z) : Payload :=
  {| p_model := model;
     p_messages := messages;
     p_temperature := temperature;
     p_max_tokens :=
       match max_tokens with
       | Some n => if n =? 0 then None else Some n
       | None => None
       end |}.

(** What [json.loads] makes of the text after [data: ]: a decode error,
    a value that is no object (calling [.get] on it raises; [err] is the
    text of that exception), or an object, read through
    [data.get("done")], [data.get("token", "")] and
    [data.get("metrics")]. *)
Record Data := {
  d_done : bool;
  d_token : option str;
  d_metrics : option PerformanceMetrics
}.

Inductive Loaded :=
| JSONDecodeError
| NotAnObject (err : str)
| Object (data : Data).

(** How the line iterator of the response ends: the body is complete,
    an [httpx.HTTPError] is raised, or another exception is. The text is
    [str(e)]. *)
Inductive BodyEnd :=
| Complete
| HTTPError (e : str)
| OtherError (e : str).

(** What [client.stream] and [raise_for_status] meet. *)
Inductive Upstream :=
| ConnectError (e : str)
| StatusError (e : str)
| Body (lines : list str) (ending : BodyEnd).

(** The dicts that [chat_stream] yields. *)
Inductive Event :=
| TokenEvent (token : str) (content : str)
| DoneEvent (content : str) (metrics : option PerformanceMetrics)
| ErrorEvent (error : str).

(** The loop over the lines. [full_content] is the text so far. The
    result is the events and the tokens handed to the callback. *)
Fixpoint read_lines (loads : str -> Loaded) (callback : bool)
    (full_content : str) (lines : list str) (ending : BodyEnd)
    : list Event * list str :=
  match lines with
  | [] =>
      (match ending with
       | Complete => []
       | HTTPError e => [ErrorEvent (lit "HTTP error from LLM API: " ++ e)]
       | OtherError e => [ErrorEvent e]
       end, [])
  | line :: rest =>
      match line with
      | [] => read_lines loads callback full_content rest ending
      | _ =>
          if negb (startswith line (lit "data: "))
          then read_lines loads callback full_content rest ending
          else
            match loads (drop 6 line) with
            | JSONDecodeError => read_lines loads callback full_content rest ending
            | NotAnObject err => ([ErrorEvent err], [])
            | Object data =>
                if d_done data
                then ([DoneEvent full_content (d_metrics data)], [])
                else
                  match default [] (d_token data) with
                  | [] => read_lines loads callback full_content rest ending
                  | token =>
                      let full_content := full_content ++ token in
                      let '(events, calls) :=
                        read_lines loads callback full_content rest ending in
                      (TokenEvent token full_content :: events,
                       if callback then token :: calls else calls)
                  end
            end
      end
  end.

(** [chat_stream], run to its end. *)
Definition chat_stream (loads : str -> Loaded) (base_url : str)
    (callback : bool) (upstream : Upstream) : list Event * list str :=
  match upstream with
  | ConnectError e =>
      ([ErrorEvent (lit "Cannot connect to LLM API at " ++ base_url
                    ++ lit ". " ++ e)], [])
  | StatusError e => ([ErrorEvent (lit "HTTP error from LLM API: " ++ e)], [])
  | Body lines ending => read_lines loads callback [] lines ending
  end.

(** [format_messages] *)
Definition format_messages (messages : list (gmap string str))
    : list (gmap string str) :=
  (fun msg =>
     <[ "content" := default [] (msg !! "content") ]>
       {[ "role" := default (lit "user") (msg !! "role") ]}) <$> messages.

(** [calculate_token_estimate] *)
Definition calculate_token_estimate (text : str) : Z := len text / 4.

End LLMClient.

(** ** Reading the client's events *)

(** The token events for the fragments [tokens] when the text so far is
    [full_content]: each carries its fragment and the text up to it. *)
Fixpoint token_events (full_content : str) (tokens : list str)
    : list LLMClient.Event :=
  match tokens with
  | [] => []
  | t :: rest =>
      LLMClient.TokenEvent t (full_content ++ t)
      :: token_events (full_content ++ t) rest
  end.

(** A [done] or [error] event. *)
Definition is_final (ev : LLMClient.Event) : bool :=
  match ev with
  | LLMClient.TokenEvent _ _ => false
  | LLMClient.DoneEvent _ _ | LLMClient.ErrorEvent _ => true
  end.

(** ** The gateway's frames on the wire *)

(** The JSON object of a frame, as the client reads it. *)
Definition data_of (f : Frame) : LLMClient.Data :=
  match f with
  | TokenFrame t =>
      {| LLMClient.d_done := false; LLMClient.d_token := Some t;
         LLMClient.d_metrics := None |}
  | DoneFrame t m =>
      {| LLMClient.d_done := true; LLMClient.d_token := Some t;
         LLMClient.d_metrics := Some m |}
  end.

(** The lines of the frames [f"data: {json.dumps(frame)}\n\n"], where
    [dumps f] is the one line of JSON text of the frame [f]: a data line
    and an empty line per frame. *)
Definition sse_lines (dumps : Frame -> str) (frames : list Frame) : list str :=
  frames ≫= (fun f => [lit "data: " ++ dumps f; []]).

(** A toy JSON codec for the frames of [hello_backend]: a token frame is
    written [T] followed by its text, the final frame [D]. *)
Definition toy_dumps (f : Frame) : str :=
  match f with
  | TokenFrame t => 84%N :: t
  | DoneFrame _ _ => [68%N]
  end.

Definition toy_loads (s : str) : LLMClient.Loaded :=
  match s with
  | 84%N :: t => LLMClient.Object (data_of (TokenFrame t))
  | [68%N] =>
      match last (Ollama.event_gen hello_backend 0 hi_request).2.1 with
      | Some f => LLMClient.Object (data_of f)
      | None => LLMClient.JSONDecodeError
      end
  | _ => LLMClient.JSONDecodeError
  end.

(** ** The Panel chat state ([BACKUP UI 2/chat_interface.py]) *)

Module Panel.

(** [ChatMessage]; the timestamp, which nothing below reads, is left
    out. *)
Record ChatMessage := { role : str; content : str }.

(** An element of [self.messages] while [send_message_async] runs: a
    message object that the call does not write to, or the object
    [assistant_msg], whose content the token events overwrite while the
    list holds it. *)
Inductive Slot :=
| Stored (msg : ChatMessage)
| AssistantMsg.

(** The messages of the list when [assistant_msg.content] is
    [assistant_content]. *)
Definition resolve (assistant_content : str) (slots : list Slot)
    : list ChatMessage :=
  (fun s => match s with
            | Stored msg => msg
            | AssistantMsg =>
                {| role := lit "assistant"; content := assistant_content |}
            end) <$> slots.

(** The performance metrics of the state. *)
Record LastMetrics := {
  last_ttft : Q;
  last_latency : Q;
  last_tokens_per_sec : Q;
  last_input_tokens : Z;
  last_output_tokens : Z
}.

(** The fields of [ChatState] that [send_message_async] reads or
    writes. *)
Record ChatState := {
  messages : list ChatMessage;
  current_input : str;
  is_streaming : bool;
  selected_model : str;
  temperature : Q;
  max_tokens : Z;
  thinking_mode : bool;
  last : LastMetrics
}.

(** What the call does besides changing the state: a notification, or a
    call of [save_chat] with the messages it finds. *)
Inductive Effect :=
| Notify (text : str)
| SaveChat (saved : list ChatMessage).

Definition api_message (role content : str) : gmap string str :=
  <[ "content" := content ]> ({[ "role" := role ]} : gmap string str).

(** [api_messages] of [send_message_async] *)
Definition api_messages (thinking_mode : bool) (messages : list ChatMessage)
    : list (gmap string str) :=
  (if thinking_mode
   then [api_message (lit "system")
           (lit "You are a helpful AI assistant. Think step-by-step and show your reasoning.")]
   else [])
  ++ ((fun msg => api_message (role msg) (content msg)) <$> messages).

(** The metrics of a [done] event, each [metrics.get(key, 0) or 0]. *)
Definition read_metrics (m : PerformanceMetrics) : LastMetrics :=
  {| last_ttft := default 0%Q (ttft m);
     last_latency := total_latency m;
     last_tokens_per_sec := default 0%Q (output_tokens_per_second m);
     last_input_tokens := default 0 (input_tokens m);
     last_output_tokens := default 0 (output_tokens m) |}.

(** [str(e)] of the [AttributeError] of [metrics.get] when the event's
    metrics are [None]. *)
Definition none_has_no_get : str :=
  lit "'NoneType' object has no attribute 'get'".

(** The loop over the events with its [except Exception] clause.
    [save_chat] tells whether the call of [self.save_chat()] returns
    ([None]) or raises ([Some] of the exception's text). An exception
    ends the loop. *)
Fixpoint handle_events (save_chat : list ChatMessage -> option str)
    (events : list LLMClient.Event) (slots : list Slot)
    (assistant_content : str) (metrics : LastMetrics)
    : list Slot * str * LastMetrics * list Effect :=
  match events with
  | [] => (slots, assistant_content, metrics, [])
  | LLMClient.TokenEvent _ content :: rest =>
      handle_events save_chat rest slots content metrics
  | LLMClient.DoneEvent _ None :: _ =>
      (removelast slots, assistant_content, metrics,
       [Notify (lit "Error sending message: " ++ none_has_no_get)])
  | LLMClient.DoneEvent _ (Some m) :: rest =>
      let saved := resolve assistant_content slots in
      match save_chat saved with
      | Some e =>
          (removelast slots, assistant_content, read_metrics m,
           [SaveChat saved; Notify (lit "Error sending message: " ++ e)])
      | None =>
          let '(slots', content', metrics', effects) :=
            handle_events save_chat rest slots assistant_content
              (read_metrics m) in
          (slots', content', metrics', SaveChat saved :: effects)
      end
  | LLMClient.ErrorEvent e :: rest =>
      let '(slots', content', metrics', effects) :=
        handle_events save_chat rest (removelast slots) assistant_content
          metrics in
      (slots', content', metrics', Notify (lit "Error: " ++ e) :: effects)
  end.

(** The request that [send_message_async] hands to the client. *)
Definition request (message : str) (st : ChatState) : LLMClient.Payload :=
  LLMClient.payload
    (api_messages (thinking_mode st)
       (messages st ++ [{| role := lit "user"; content := message |}]))
    (selected_model st) (temperature st) (Some (max_tokens st)).

(** The state when [send_message_async] returns after its guard: the
    input field is cleared and the streaming flag is down. *)
Definition after_call (st : ChatState) (msgs : list ChatMessage)
    (metrics : LastMetrics) : ChatState :=
  {| messages := msgs;
     current_input := [];
     is_streaming := false;
     selected_model := selected_model st;
     temperature := temperature st;
     max_tokens := max_tokens st;
     thinking_mode := thinking_mode st;
     last := metrics |}.

(** [send_message_async]: [llm_client] gives the events that
    [self.llm_client.chat_stream] yields for a request. *)
Definition send_message_async
    (llm_client : LLMClient.Payload -> list LLMClient.Event)
    (save_chat : list ChatMessage -> option str)
    (message : str) (st : ChatState) : ChatState * list Effect :=
  if match strip message with [] => true | _ => false end || is_streaming st
  then (st, [])
  else
    let user_msg := {| role := lit "user"; content := message |} in
    let '(slots, assistant_content, metrics, effects) :=
      handle_events save_chat (llm_client (request message st))
        ((Stored <$> (messages st ++ [user_msg])) ++ [AssistantMsg]) []
        (last st) in
    (after_call st (resolve assistant_content slots) metrics, effects).

(** A state after the greeting of an earlier turn. *)
Definition greeted : ChatState :=
  {| messages := [ {| role := lit "user"; content := lit "Hi" |};
                   {| role := lit "assistant"; content := lit "Hello" |} ];
     current_input := lit "Capital of France?";
     is_streaming := false;
     selected_model := lit "smollm2:1.7b";
     temperature := 0.7%Q;
     max_tokens := 2048;
     thinking_mode := false;
     last := {| last_ttft := 0; last_latency := 0; last_tokens_per_sec := 0;
                last_input_tokens := 0; last_output_tokens := 0 |} |}.

(** The metrics of a [done] event. *)
Definition paris_metrics : PerformanceMetrics :=
  {| ttft := Some 0.5%Q; total_latency := 2%Q;
     tokens_per_second := None;
     output_tokens_per_second := Some 1%Q;
     input_tokens := Some 10; output_tokens := Some 2; tpot := None;
     metrics_model := lit "smollm2:1.7b" |}.

End Panel.

(** ** The Reflex client and chat state
    ([BACKUP UI/llm_ui/api_client.py], [states/chat_state.py]) *)

Module Reflex.

(** [Message]; the timestamp, which [send_message] only writes, is left
    out. *)
Record Message := { role : str; content : str }.

(** The fields of [ChatState] that [send_message] reads or writes.
    [last_metrics = None] is the empty dict. *)
Record ChatState := {
  messages : list Message;
  current_input : str;
  is_streaming : bool;
  current_response : str;
  selected_model : str;
  temperature : Q;
  max_tokens : Z;
  thinking_mode : bool;
  last_metrics : option PerformanceMetrics;
  error_message : str
}.

(** What [LLMAPIClient.chat_stream] yields: a JSON value that is no
    object ([err] is the text of the exception that [chunk.get] raises
    on it), or an object. *)
Inductive Chunk :=
| Value (err : str)
| Dict (data : LLMClient.Data).

(** The loop over the lines of [LLMAPIClient.chat_stream]. *)
Fixpoint chunks (loads : str -> LLMClient.Loaded) (lines : list str)
    : list Chunk :=
  match lines with
  | [] => []
  | line :: rest =>
      if startswith line (lit "data: ")
      then
        match loads (drop 6 line) with
        | LLMClient.JSONDecodeError => chunks loads rest
        | LLMClient.NotAnObject err => Value err :: chunks loads rest
        | LLMClient.Object data => Dict data :: chunks loads rest
        end
      else chunks loads rest
  end.

(** [LLMAPIClient.chat_stream], run to its end: the chunks, and the
    text of the exception that ends the generator, if one does. *)
Definition chat_stream (loads : str -> LLMClient.Loaded)
    (upstream : LLMClient.Upstream) : list Chunk * option str :=
  match upstream with
  | LLMClient.ConnectError e => ([], Some e)
  | LLMClient.StatusError e => ([], Some e)
  | LLMClient.Body lines ending =>
      (chunks loads lines,
       match ending with
       | LLMClient.Complete => None
       | LLMClient.HTTPError e => Some e
       | LLMClient.OtherError e => Some e
       end)
  end.

(** [xs[-10:]] *)
Definition last_ten {A} (xs : list A) : list A := drop (length xs - 10) xs.

Definition api_message (role content : str) : gmap string str :=
  <[ "content" := content ]> ({[ "role" := role ]} : gmap string str).

(** [api_messages] of [send_message], from the messages with the
    user's message appended. *)
Definition api_messages (thinking_mode : bool) (messages : list Message)
    : list (gmap string str) :=
  (if thinking_mode
   then [api_message (lit "system")
           (lit "Think step by step and show your reasoning process.")]
   else [])
  ++ ((fun msg => api_message (role msg) (content msg)) <$> last_ten messages).

(** The state with the fields that [send_message] writes replaced. *)
Definition update (st : ChatState) (msgs : list Message) (input : str)
    (streaming : bool) (response : str)
    (metrics : option PerformanceMetrics) (error : str) : ChatState :=
  {| messages := msgs;
     current_input := input;
     is_streaming := streaming;
     current_response := response;
     selected_model := selected_model st;
     temperature := temperature st;
     max_tokens := max_tokens st;
     thinking_mode := thinking_mode st;
     last_metrics := metrics;
     error_message := error |}.

(** The [except Exception] clause of [send_message]. *)
Definition on_exception (e : str) (st : ChatState) : ChatState :=
  update st (messages st) (current_input st) false [] (last_metrics st)
    (lit "Error: " ++ e).

(** The loop of [send_message] over the chunks, with the [except]
    clause. [_log_usage] and [_save_chat_history] catch every exception
    and write none of the fields above. *)
Fixpoint consume (chunks : list Chunk) (raised : option str) (st : ChatState)
    : ChatState :=
  match chunks with
  | [] =>
      match raised with
      | None => st
      | Some e => on_exception e st
      end
  | Value err :: _ => on_exception err st
  | Dict data :: rest =>
      if LLMClient.d_done data
      then
        update st
          (messages st
           ++ [ {| role := lit "assistant"; content := current_response st |} ])
          (current_input st) false [] (LLMClient.d_metrics data)
          (error_message st)
      else
        consume rest raised
          (update st (messages st) (current_input st) (is_streaming st)
             (current_response st ++ default [] (LLMClient.d_token data))
             (last_metrics st) (error_message st))
  end.

(** The state when the request is sent. *)
Definition asked (st : ChatState) : ChatState :=
  update st
    (messages st ++ [ {| role := lit "user"; content := current_input st |} ])
    [] true [] (last_metrics st) [].

(** The request that [send_message] hands to the client. *)
Definition request (st : ChatState) : LLMClient.Payload :=
  {| LLMClient.p_model := selected_model st;
     LLMClient.p_messages :=
       api_messages (thinking_mode st) (messages (asked st));
     LLMClient.p_temperature := temperature st;
     LLMClient.p_max_tokens := Some (max_tokens st) |}.

(** [send_message], run to its end. *)
Definition send_message (loads : str -> LLMClient.Loaded)
    (upstream : LLMClient.Payload -> LLMClient.Upstream) (st : ChatState)
    : ChatState :=
  match strip (current_input st) with
  | [] => st
  | _ =>
      let '(chunks, raised) := chat_stream loads (upstream (request st)) in
      consume chunks raised (asked st)
  end.

(** A state after the greeting of an earlier turn. *)
Definition greeted : ChatState :=
  {| messages := [ {| role := lit "user"; content := lit "Hi" |};
                   {| role := lit "assistant"; content := lit "Hello" |} ];
     current_input := lit "Hi again";
     is_streaming := false;
     current_response := [];
     selected_model := lit "smollm2:1.7b";
     temperature := 0.2%Q;
     max_tokens := 2048;
     thinking_mode := false;
     last_metrics := None;
     error_message := [] |}.

End Reflex.

(** ** Reading a client stream *)

(** What the data lines of a response body load to, in order: a line
    that does not start with [data: ] and a line whose data is no JSON
    give nothing. *)
Definition data_items (loads : str -> LLMClient.Loaded) (lines : list str)
    : list LLMClient.Loaded :=
  omap (fun line =>
          if startswith line (lit "data: ")
          then match loads (drop 6 line) with
               | LLMClient.JSONDecodeError => None
               | item => Some item
               end
          else None) lines.

(** The first item that ends a stream: an object whose [done] is true,
    or a value that is no object. *)
Fixpoint final_item (items : list LLMClient.Loaded)
    : option LLMClient.Loaded :=
  match items with
  | [] => None
  | LLMClient.Object data :: rest =>
      if LLMClient.d_done data then Some (LLMClient.Object data)
      else final_item rest
  | item :: _ => Some item
  end.

(** The non-empty tokens of the objects that come before the first
    final item. *)
Fixpoint streamed_tokens (items : list LLMClient.Loaded) : list str :=
  match items with
  | LLMClient.Object data :: rest =>
      if LLMClient.d_done data then []
      else match default [] (LLMClient.d_token data) with
           | [] => streamed_tokens rest
           | t => t :: streamed_tokens rest
           end
  | _ => []
  end.

(** All the tokens of the objects that come before the first final
    item, joined. *)
Fixpoint streamed_text (items : list LLMClient.Loaded) : str :=
  match items with
  | LLMClient.Object data :: rest =>
      if LLMClient.d_done data then []
      else default [] (LLMClient.d_token data) ++ streamed_text rest
  | _ => []
  end.

(** The event that closes the Panel client's stream, if any, when the
    text received is [text]. *)
Definition closing_events (text : str) (final : option LLMClient.Loaded)
    (ending : LLMClient.BodyEnd) : list LLMClient.Event :=
  match final with
  | Some (LLMClient.Object data) =>
      [LLMClient.DoneEvent text (LLMClient.d_metrics data)]
  | Some (LLMClient.NotAnObject err) => [LLMClient.ErrorEvent err]
  | _ =>
      match ending with
      | LLMClient.Complete => []
      | LLMClient.HTTPError e =>
          [LLMClient.ErrorEvent (lit "HTTP error from LLM API: " ++ e)]
      | LLMClient.OtherError e => [LLMClient.ErrorEvent e]
      end
  end.

(** The chunks of the Reflex client as loaded items. *)
Definition item_of (chunk : Reflex.Chunk) : LLMClient.Loaded :=
  match chunk with
  | Reflex.Value err => LLMClient.NotAnObject err
  | Reflex.Dict data => LLMClient.Object data
  end.

(** * The metrics of [app_ollama.py] in binary64

    The embedding above reads times and rates as rationals. The modules
    below embed the two handlers of [app_ollama.py] a second time with
    the arithmetic that CPython performs: a [float] is an IEEE binary64
    number, an [int] is unbounded, and a count of the backend's reply
    may be [null]. *)

(** ** Python numbers *)

Module Binary64.

Definition float := spec_float.
Definition prec : Z := 53.
Definition emax : Z := 1024.

(** Exceptions of the arithmetic, besides those of the transport. *)
Inductive Error :=
| TypeError
| OverflowError
| Other (e : Exn).

Inductive Result (A : Type) :=
| Ok (a : A)
| Err (e : Error).
Arguments Ok {A} a.
Arguments Err {A} e.

Definition bind {A B} (m : Result A) (k : A -> Result B) : Result B :=
  match m with
  | Ok a => k a
  | Err e => Err e
  end.

(** [0.0], also what the [int] [0] becomes next to a [float]. *)
Definition zero : float := S754_zero false.

(** [x - y] and [x / y] of the hardware, rounding to nearest, ties to
    even. *)
Definition sub (x y : float) : float := SFsub prec emax x y.
Definition div (x y : float) : float := SFdiv prec emax x y.

(** [x < y]; false when one of them is NaN. *)
Definition ltb (x y : float) : bool := SFltb x y.

(** [x > 0] *)
Definition gt0 (x : float) : bool := SFltb zero x.

(** [bool(x)]: false for [0.0] and [-0.0] only. *)
Definition truthy (x : float) : bool :=
  match x with
  | S754_zero _ => false
  | _ => true
  end.

Definition is_nan (x : float) : bool :=
  match x with
  | S754_nan => true
  | _ => false
  end.

Definition is_inf (x : float) : bool :=
  match x with
  | S754_infinity _ => true
  | _ => false
  end.

(** A zero or a finite number in the format. *)
Definition finite (x : float) : bool :=
  match x with
  | S754_zero _ => true
  | S754_finite _ m e => bounded prec emax m e
  | _ => false
  end.

(** The conversion of an [int] to a [float]: the nearest double, ties
    to even; raises when that is out of range. *)
Definition of_int (n : Z) : Result float :=
  match binary_normalize prec emax n 0 false with
  | S754_infinity _ => Err OverflowError
  | x => Ok x
  end.

(** [x / y] on floats: raises on a zero divisor and nowhere else. *)
Definition truediv (x y : float) : Result float :=
  if truthy y then Ok (div x y) else Err (Other ZeroDivisionError).

(** [n / y] and [x / n] for an [int] [n]: the [int] is converted
    first. *)
Definition int_truediv_float (n : Z) (y : float) : Result float :=
  bind (of_int n) (fun x => truediv x y).

Definition float_truediv_int (x : float) (n : Z) : Result float :=
  bind (of_int n) (fun y => truediv x y).

(** The double nearest to [a / b] for positive integers, ties to even;
    an infinity when it is out of range. *)
Definition nearest (s : bool) (a b : Z) : float :=
  let '(q, e, l) := SFdiv_core_binary prec emax a 0 b 0 in
  binary_round_aux prec emax s q e l.

(** [a / b] on [int]s: the correctly rounded quotient. *)
Definition int_truediv (a b : Z) : Result float :=
  if b =? 0 then Err (Other ZeroDivisionError)
  else
    let s := xorb (a <? 0) (b <? 0) in
    match a with
    | 0 => Ok (S754_zero s)
    | _ =>
        match nearest s (Z.abs a) (Z.abs b) with
        | S754_infinity _ => Err OverflowError
        | x => Ok x
        end
    end.

(** The absolute value of a finite float, exactly. *)
Definition magnitude (m : positive) (e : Z) : Q :=
  match e with
  | Zneg k => Qmake (Zpos m) (2 ^ k)
  | _ => inject_Z (Zpos m * 2 ^ e)
  end.

(** [round(x, ndigits)] for [ndigits >= 0]: the exact value of [x] is
    rounded to [ndigits] decimals, ties to even, and the decimal is
    converted back to the nearest double. Infinities and NaN round to
    themselves. *)
Definition round (x : float) (ndigits : nat) : float :=
  match x with
  | S754_finite s m e =>
      let p := 10 ^ Z.of_nat ndigits in
      match round_half_even (magnitude m e * inject_Z p) with
      | Zpos n => nearest s (Zpos n) p
      | _ => S754_zero s
      end
  | _ => x
  end.

(** [round(x, n) if x else None] *)
Definition round_if (o : option float) (ndigits : nat) : option float :=
  match o with
  | Some x => if truthy x then Some (round x ndigits) else None
  | None => None
  end.

(** The double nearest to the decimal [n / 10^k]. *)
Definition decimal (n : Z) (k : nat) : float :=
  match n with
  | 0 => zero
  | _ => nearest (n <? 0) (Z.abs n) (10 ^ Z.of_nat k)
  end.

End Binary64.

#[global] Instance Result_ret : MRet Binary64.Result := @Binary64.Ok.
#[global] Instance Result_bind : MBind Binary64.Result :=
  fun A B k m => Binary64.bind m k.
#[global] Instance Result_fmap : FMap Binary64.Result :=
  fun A B f m => Binary64.bind m (fun a => Binary64.Ok (f a)).

(** ** The handlers *)

Module Ollama64.

Import Binary64.

(** A count or a duration in a reply of the backend: the key is left
    out, it is [null], or it is an integer. *)
Inductive Field :=
| Missing
| Null
| Int (n : Z).

(** [data.get(key, default)]; [None] is Python's [None]. *)
Definition get (f : Field) (default : Z) : option Z :=
  match f with
  | Missing => Some default
  | Null => None
  | Int n => Some n
  end.

(** An operand of [+], [>] or [/] that must be a number. *)
Definition number (v : option Z) : Result Z :=
  match v with
  | Some n => Ok n
  | None => Err TypeError
  end.

Record PerformanceMetrics := {
  ttft : option float;
  total_latency : float;
  tokens_per_second : option float;
  output_tokens_per_second : option float;
  input_tokens : option Z;
  output_tokens : option Z;
  tpot : option float;
  metrics_model : str
}.

Record ChatResponse := {
  resp_content : str;
  metrics : PerformanceMetrics
}.

Inductive Frame :=
| TokenFrame (token : str)
| DoneFrame (token : str) (m : PerformanceMetrics).

(** [n if n > 0 else None] *)
Definition count_field (v : option Z) : Result (option Z) :=
  n ← number v; mret (if 0 <? n then Some n else None).

(** *** Non-streaming *)

Record GenerateData := {
  g_response : option str;
  g_prompt_eval_count : Field;
  g_eval_count : Field;
  g_total_duration : Field;
  g_prompt_eval_duration : Field
}.

Inductive HttpResult :=
| ConnectFailed
| ErrorStatus (status : Z)
| Success (data : GenerateData).

(** The time that [chat] divides the output count by. *)
Definition generation_time (total_latency : float) (data : GenerateData)
    : Result float :=
  total_duration ← number (get (g_total_duration data) 0);
  total_duration_s ← int_truediv total_duration 1000000000;
  prompt_eval_duration ← number (get (g_prompt_eval_duration data) 0);
  prompt_duration_s ← int_truediv prompt_eval_duration 1000000000;
  mret (if ltb prompt_duration_s total_duration_s
        then sub total_duration_s prompt_duration_s
        else total_latency).

(** The three rate variables of [chat], before rounding:
    [(tokens_per_second, output_tokens_per_second, tpot)]. *)
Definition chat_rates (total_latency : float) (data : GenerateData)
    : Result (option float * option float * option float) :=
  if gt0 total_latency then
    prompt_eval_count ← number (get (g_prompt_eval_count data) 0);
    eval_count ← number (get (g_eval_count data) 0);
    let total_tokens := prompt_eval_count + eval_count in
    tokens_per_second ←
      (if 0 <? total_tokens
       then Some <$> int_truediv_float total_tokens total_latency
       else mret None);
    if 0 <? eval_count then
      generation_time ← generation_time total_latency data;
      if gt0 generation_time then
        output_tokens_per_second ← int_truediv_float eval_count generation_time;
        tpot ← float_truediv_int generation_time eval_count;
        mret (tokens_per_second, Some output_tokens_per_second, Some tpot)
      else mret (tokens_per_second, None, None)
    else mret (tokens_per_second, None, None)
  else mret (None, None, None).

(** The body of [chat] after the backend replied. *)
Definition chat_response (req : ChatRequest) (start_time end_time : float)
    (data : GenerateData) : Result ChatResponse :=
  let total_latency := sub end_time start_time in
  '(tokens_per_second, output_tokens_per_second, tpot) ←
    chat_rates total_latency data;
  input_tokens ← count_field (get (g_prompt_eval_count data) 0);
  output_tokens ← count_field (get (g_eval_count data) 0);
  mret {| resp_content := default [] (g_response data);
          metrics :=
            {| ttft := None;
               total_latency := round total_latency 4;
               tokens_per_second := round_if tokens_per_second 2;
               output_tokens_per_second := round_if output_tokens_per_second 2;
               input_tokens := input_tokens;
               output_tokens := output_tokens;
               tpot := round_if tpot 4;
               metrics_model := model req |} |}.

(** [chat]: the backend calls made, and the outcome. *)
Definition chat (backend : Ollama.Payload -> HttpResult)
    (start_time end_time : float) (req : ChatRequest)
    : list Ollama.Payload * Result ChatResponse :=
  let payload := Ollama.chat_payload req in
  ([payload],
   match backend payload with
   | ConnectFailed => Err (Other ConnectError)
   | ErrorStatus status => Err (Other (HTTPStatusError status))
   | Success data => chat_response req start_time end_time data
   end).

(** *** Streaming *)

Record StreamObj := {
  o_done : bool;
  o_response : option str;
  o_prompt_eval_count : Field;
  o_eval_count : Field
}.

Inductive Line :=
| Blank
| Malformed
| Obj (obj : StreamObj).

(** What [client.stream] followed by [raise_for_status] can see. Each
    line comes with the reading of [time.time()] while it is handled. *)
Inductive StreamResult :=
| StreamConnectFailed
| StreamErrorStatus (status : Z)
| Lines (lines : list (float * Line)) (tail : Ollama.StreamEnd).

(** How the generator ends. *)
Inductive Exit :=
| Returned
| Raised (e : Error).

(** The local variables of [event_gen] that survive an iteration. *)
Record Relay := {
  r_ttft : option float;
  first_token_received : bool;
  token_count : Z;
  r_prompt_eval_count : Z
}.

Definition relay_init : Relay :=
  {| r_ttft := None; first_token_received := false;
     token_count := 0; r_prompt_eval_count := 0 |}.

(** [ttft if ttft else 0] *)
Definition ttft_or_zero (ttft : option float) : float :=
  match ttft with
  | Some t => if truthy t then t else zero
  | None => zero
  end.

(** The three rate variables of [event_gen], before rounding. *)
Definition stream_rates (total_latency : float) (ttft : option float)
    (prompt_eval_count eval_count : option Z)
    : Result (option float * option float * option float) :=
  if gt0 total_latency then
    prompt_eval_count ← number prompt_eval_count;
    eval_count ← number eval_count;
    let total_tokens := prompt_eval_count + eval_count in
    tokens_per_second ←
      (if 0 <? total_tokens
       then Some <$> int_truediv_float total_tokens total_latency
       else mret None);
    if 0 <? eval_count then
      let generation_time := sub total_latency (ttft_or_zero ttft) in
      if gt0 generation_time then
        output_tokens_per_second ← int_truediv_float eval_count generation_time;
        tpot ← float_truediv_int generation_time eval_count;
        mret (tokens_per_second, Some output_tokens_per_second, Some tpot)
      else mret (tokens_per_second, None, None)
    else mret (tokens_per_second, None, None)
  else mret (None, None, None).

(** The [metrics] dict of the final event. *)
Definition stream_metrics (req : ChatRequest) (start_time end_time : float)
    (st : Relay) (obj : StreamObj) : Result PerformanceMetrics :=
  let total_latency := sub end_time start_time in
  let prompt_eval_count :=
    get (o_prompt_eval_count obj) (r_prompt_eval_count st) in
  let eval_count := get (o_eval_count obj) (token_count st) in
  '(tokens_per_second, output_tokens_per_second, tpot) ←
    stream_rates total_latency (r_ttft st) prompt_eval_count eval_count;
  input_tokens ← count_field prompt_eval_count;
  output_tokens ← count_field eval_count;
  mret {| ttft := round_if (r_ttft st) 4;
          total_latency := round total_latency 4;
          tokens_per_second := round_if tokens_per_second 2;
          output_tokens_per_second := round_if output_tokens_per_second 2;
          input_tokens := input_tokens;
          output_tokens := output_tokens;
          tpot := round_if tpot 4;
          metrics_model := model req |}.

(** One iteration of the [async for] loop. *)
Inductive Step :=
| Next (st : Relay) (out : option Frame)
| Break (out : Frame)
| Throw (e : Error).

Definition on_line (req : ChatRequest) (start_time : float) (st : Relay)
    (now : float) (line : Line) : Step :=
  match line with
  | Blank => Next st None
  | Malformed => Next st None
  | Obj obj =>
      if o_done obj then
        match stream_metrics req start_time now st obj with
        | Ok m => Break (DoneFrame (lit "[DONE]") m)
        | Err e => Throw e
        end
      else
        match default [] (o_response obj) with
        | [] => Next st None
        | token =>
            let st1 :=
              if first_token_received st then st
              else {| r_ttft := Some (sub now start_time);
                      first_token_received := true;
                      token_count := token_count st;
                      r_prompt_eval_count := r_prompt_eval_count st |} in
            Next {| r_ttft := r_ttft st1;
                    first_token_received := first_token_received st1;
                    token_count := token_count st1 + 1;
                    r_prompt_eval_count := r_prompt_eval_count st1 |}
                 (Some (TokenFrame token))
        end
  end.

(** The [async for] loop over the backend lines. *)
Fixpoint relay (req : ChatRequest) (start_time : float) (st : Relay)
    (lines : list (float * Line)) (tail : Ollama.StreamEnd)
    : list Frame * Exit :=
  match lines with
  | [] =>
      ([], match tail with
           | Ollama.Eof => Returned
           | Ollama.Dropped => Raised (Other ReadError)
           end)
  | (now, line) :: rest =>
      match on_line req start_time st now line with
      | Next st' out =>
          let '(frames, exit) := relay req start_time st' rest tail in
          (match out with Some f => f :: frames | None => frames end, exit)
      | Break f => ([f], Returned)
      | Throw e => ([], Raised e)
      end
  end.

(** [event_gen] of [chat_stream], run until it stops by itself. *)
Definition event_gen (backend : Ollama.Payload -> StreamResult)
    (start_time : float) (req : ChatRequest)
    : list Ollama.Payload * (list Frame * Exit) :=
  let payload := Ollama.stream_payload req in
  ([payload],
   match backend payload with
   | StreamConnectFailed => ([], Raised (Other ConnectError))
   | StreamErrorStatus status => ([], Raised (Other (HTTPStatusError status)))
   | Lines lines tail => relay req start_time relay_init lines tail
   end).

End Ollama64.

(** ** Reading a binary64 stream *)

(** The non-empty [response] fragments that precede the first done
    object of a backend stream. *)
Fixpoint fragments64 (lines : list (Binary64.float * Ollama64.Line)) : list str :=
  match lines with
  | [] => []
  | (_, Ollama64.Obj obj) :: rest =>
      if Ollama64.o_done obj then []
      else match default [] (Ollama64.o_response obj) with
           | [] => fragments64 rest
           | t => t :: fragments64 rest
           end
  | _ :: rest => fragments64 rest
  end.

(** The first done object of a backend stream, with the clock reading
    at which it is handled. *)
Fixpoint done_object64 (lines : list (Binary64.float * Ollama64.Line))
    : option (Binary64.float * Ollama64.StreamObj) :=
  match lines with
  | [] => None
  | (now, Ollama64.Obj obj) :: rest =>
      if Ollama64.o_done obj then Some (now, obj) else done_object64 rest
  | _ :: rest => done_object64 rest
  end.

(** The metrics of the final frame. *)
Definition done_metrics64 (frames : list Ollama64.Frame)
    : option Ollama64.PerformanceMetrics :=
  match last frames with
  | Some (Ollama64.DoneFrame _ m) => Some m
  | _ => None
  end.

(** The throughput guard on doubles: the field is there exactly when the
    latency and the token sum are positive; it is then the rounded
    quotient of the converted sum by the latency, and no NaN. *)
Definition throughput_guarded64 (total_latency : Binary64.float)
    (total_tokens : Z) (field : option Binary64.float) : Prop :=
  (is_Some field <-> Binary64.gt0 total_latency = true /\ 0 < total_tokens)
  /\ (forall v, field = Some v ->
        exists x,
          Binary64.of_int total_tokens = Binary64.Ok x
          /\ v = Binary64.round (Binary64.div x total_latency) 2
          /\ Binary64.is_nan (Binary64.div x total_latency) = false
          /\ Binary64.is_nan v = false).

(** *** Sample replies *)

(** A reply of 100 prompt tokens and 7 output tokens, with no
    durations. *)
Definition plain_data : Ollama64.GenerateData :=
  {| Ollama64.g_response := Some (lit "ok");
     Ollama64.g_prompt_eval_count := Ollama64.Int 100;
     Ollama64.g_eval_count := Ollama64.Int 7;
     Ollama64.g_total_duration := Ollama64.Missing;
     Ollama64.g_prompt_eval_duration := Ollama64.Missing |}.

Definition plain_backend (_ : Ollama.Payload) : Ollama64.HttpResult :=
  Ollama64.Success plain_data.

(** A reply whose output count is [null]. *)
Definition null_count_backend (_ : Ollama.Payload) : Ollama64.HttpResult :=
  Ollama64.Success
    {| Ollama64.g_response := Some (lit "ok");
       Ollama64.g_prompt_eval_count := Ollama64.Int 100;
       Ollama64.g_eval_count := Ollama64.Null;
       Ollama64.g_total_duration := Ollama64.Missing;
       Ollama64.g_prompt_eval_duration := Ollama64.Missing |}.

(** A stream of one fragment, handled a quarter of a second after the
    start, and a done object that reports [eval_count] output tokens
    half a second after the start. *)
Definition counted_stream (eval_count : Z) (_ : Ollama.Payload)
    : Ollama64.StreamResult :=
  Ollama64.Lines
    [ (Binary64.decimal 25 2,
       Ollama64.Obj {| Ollama64.o_done := false;
                       Ollama64.o_response := Some (lit "Hi");
                       Ollama64.o_prompt_eval_count := Ollama64.Missing;
                       Ollama64.o_eval_count := Ollama64.Missing |});
      (Binary64.decimal 5 1,
       Ollama64.Obj {| Ollama64.o_done := true;
                       Ollama64.o_response := None;
                       Ollama64.o_prompt_eval_count := Ollama64.Int 3;
                       Ollama64.o_eval_count := Ollama64.Int eval_count |}) ]
    Ollama.Eof.

(** A count or duration that is an integer below [2^1022] in magnitude,
    or left out. *)
Definition in_range (f : Ollama64.Field) : bool :=
  match f with
  | Ollama64.Missing => true
  | Ollama64.Null => false
  | Ollama64.Int n => Z.abs n <? 2 ^ 1022
  end.

(** ** Proof steps *)

(** Unfolds the monad operations of [Outcome]. *)
Ltac outcome_simpl :=
  unfold mbind, mret, fmap, Outcome_bind, Outcome_ret, Outcome_fmap, bind; simpl.

(** * Properties *)

(** ** Arithmetic of the guards *)

Lemma Qgtb_true (a b : Q) : Qgtb a b = true <-> (b < a)%Q.
Proof.
  unfold Qgtb. rewrite negb_true_iff, <- not_true_iff_false, Qle_bool_iff.
  split; [apply Qnot_le_lt | apply Qlt_not_le].
Qed.

Lemma Qeq_bool_pos (q : Q) : (0 < q)%Q -> Qeq_bool q 0 = false.
Proof.
  intros H. apply not_true_iff_false. intros E.
  apply Qeq_bool_eq in E. rewrite E in H. exact (Qlt_irrefl _ H).
Qed.

Lemma inject_Z_pos (n : Z) : 0 < n -> (0 < inject_Z n)%Q.
Proof. intros H. change 0%Q with (inject_Z 0). now rewrite <- Zlt_Qlt. Qed.

Lemma truediv_pos (a b : Q) : (0 < b)%Q -> truediv a b = Return (a / b)%Q.
Proof. intros H. unfold truediv. now rewrite (Qeq_bool_pos b H). Qed.

Lemma Qdiv_pos (a b : Q) : (0 < a)%Q -> (0 < b)%Q -> (0 < a / b)%Q.
Proof.
  intros Ha Hb. apply Qlt_shift_div_l; [exact Hb |]. now rewrite Qmult_0_l.
Qed.

Lemma truthy_pos (q : Q) : (0 < q)%Q -> truthy (Some q) = true.
Proof. intros H. simpl. now rewrite (Qeq_bool_pos q H). Qed.

Lemma overall_rate_step (total_latency : Q) (n : Z) :
  (0 < total_latency)%Q ->
  (if 0 <? n
   then Some <$> truediv (inject_Z n) total_latency
   else mret None)
  = Return (if 0 <? n then Some (inject_Z n / total_latency)%Q else None).
Proof.
  intros H. destruct (0 <? n); [rewrite truediv_pos by assumption |]; reflexivity.
Qed.

Lemma ollama_stream_rates_total (total_latency : Q) (ttft : option Q)
    (prompt_eval_count eval_count : Z) :
  exists o t,
    Ollama.stream_rates total_latency ttft prompt_eval_count eval_count =
    Return (design_tokens_per_second total_latency prompt_eval_count eval_count, o, t).
Proof.
  unfold Ollama.stream_rates, design_tokens_per_second.
  destruct (Qgtb total_latency 0) eqn:Hlat; simpl; [| eauto].
  apply Qgtb_true in Hlat.
  rewrite overall_rate_step by assumption. outcome_simpl.
  destruct (0 <? eval_count) eqn:Hec; [| eauto].
  apply Z.ltb_lt in Hec.
  match goal with |- context [Qgtb ?g 0] => destruct (Qgtb g 0) eqn:Hg end; [| eauto].
  apply Qgtb_true in Hg.
  rewrite !truediv_pos by (assumption || now apply inject_Z_pos). simpl. eauto.
Qed.

Lemma genai_chat_rates_total (total_latency : Q)
    (input_token_count output_token_count : Z) :
  exists o t,
    Genai.chat_rates total_latency input_token_count output_token_count =
    Return (design_tokens_per_second total_latency
              input_token_count output_token_count, o, t).
Proof.
  unfold Genai.chat_rates, design_tokens_per_second.
  destruct (Qgtb total_latency 0) eqn:Hlat; simpl; [| eauto].
  apply Qgtb_true in Hlat.
  rewrite overall_rate_step by assumption. outcome_simpl.
  destruct (0 <? output_token_count) eqn:Hec; [| eauto].
  apply Z.ltb_lt in Hec.
  rewrite !truediv_pos by (assumption || now apply inject_Z_pos). simpl. eauto.
Qed.

Lemma genai_stream_rates_total (total_latency : Q) (ttft : option Q)
    (input_token_count output_token_count : Z) :
  exists o t,
    Genai.stream_rates total_latency ttft input_token_count output_token_count =
    Return (design_tokens_per_second total_latency
              input_token_count output_token_count, o, t).
Proof.
  unfold Genai.stream_rates, design_tokens_per_second.
  destruct (Qgtb total_latency 0) eqn:Hlat; simpl; [| eauto].
  apply Qgtb_true in Hlat.
  rewrite overall_rate_step by assumption. outcome_simpl.
  destruct (0 <? output_token_count) eqn:Hec; [| eauto].
  apply Z.ltb_lt in Hec.
  match goal with |- context [Qgtb ?g 0] => destruct (Qgtb g 0) eqn:Hg end; [| eauto].
  apply Qgtb_true in Hg.
  rewrite !truediv_pos by (assumption || now apply inject_Z_pos). simpl. eauto.
Qed.


Lemma onnx_stream_rates_total (total_latency : Q) (ttft : option Q)
    (input_tokens output_tokens : Z) :
  exists o t,
    Onnx.stream_rates total_latency ttft input_tokens output_tokens =
    Return (design_tokens_per_second total_latency input_tokens output_tokens, o, t).
Proof.
  unfold Onnx.stream_rates, design_tokens_per_second.
  destruct (Qgtb total_latency 0) eqn:Hlat; simpl; [| eauto].
  apply Qgtb_true in Hlat.
  rewrite overall_rate_step by assumption. outcome_simpl.
  destruct (0 <? output_tokens) eqn:Hec; [| eauto].
  apply Z.ltb_lt in Hec.
  match goal with |- context [Qgtb ?g 0] => destruct (Qgtb g 0) eqn:Hg end; [| eauto].
  apply Qgtb_true in Hg.
  rewrite !truediv_pos by (assumption || now apply inject_Z_pos). simpl. eauto.
Qed.

(** The final metrics of a stream always exist: no division raises. *)
Lemma ollama_stream_metrics_total (req : ChatRequest) (start_time end_time : Q)
    (st : Ollama.Relay) (obj : Ollama.StreamObj) :
  exists m,
    Ollama.stream_metrics req start_time end_time st obj = Return m
    /\ tokens_per_second m =
       round_if (design_tokens_per_second (end_time - start_time)
                   (Ollama.final_prompt_eval_count st obj)
                   (Ollama.final_eval_count st obj)) 2
    /\ output_tokens m = Ollama.count_field (Ollama.final_eval_count st obj).
Proof.
  unfold Ollama.stream_metrics.
  destruct (ollama_stream_rates_total (end_time - start_time) (Ollama.r_ttft st)
              (Ollama.final_prompt_eval_count st obj)
              (Ollama.final_eval_count st obj)) as (o & t & ->).
  outcome_simpl. eauto.
Qed.

(** ** The non-streaming scenario *)

(** C7, as the code has it: against a backend that answers [Paris] with
    counts 10 and 4 and durations of 2 s and 0.5 s, [chat] returns that
    content and 4 output tokens; when its measured latency is positive
    the output rate is 4 over the 1.5 s window, 2.67 once rounded, and
    when it is not the rate is absent. *)
Theorem paris_scenario (backend : Ollama.Payload -> Ollama.HttpResult)
    (start_time end_time : Q) (req : ChatRequest) :
  backend (Ollama.chat_payload req) = Ollama.Success paris_data ->
  exists resp,
    (Ollama.chat backend start_time end_time req).2 = Return resp
    /\ resp_content resp = lit "Paris"
    /\ output_tokens (metrics resp) = Some 4
    /\ ((start_time < end_time)%Q ->
        output_tokens_per_second (metrics resp) = Some (round (4 / (3 # 2)) 2))
    /\ (~ (start_time < end_time)%Q ->
        output_tokens_per_second (metrics resp) = None)
    /\ round (4 / (3 # 2)) 2 = (267 # 100)%Q.
Proof.
  intros Hb. unfold Ollama.chat. simpl snd. rewrite Hb.
  unfold Ollama.chat_response, Ollama.chat_rates.
  destruct (Qgtb (end_time - start_time) 0) eqn:Hlat.
  - apply Qgtb_true in Hlat.
    rewrite overall_rate_step by assumption.
    outcome_simpl. eexists. split; [reflexivity |]. simpl.
    repeat split; try reflexivity.
    intros Hn. exfalso. apply Hn.
    now rewrite (Qlt_minus_iff start_time end_time).
  - outcome_simpl. eexists. split; [reflexivity |]. simpl.
    repeat split; try reflexivity.
    intros Hlt. rewrite (Qlt_minus_iff start_time end_time) in Hlt.
    apply (proj2 (Qgtb_true (end_time - start_time) 0)) in Hlt. congruence.
Qed.

Lemma paris_scenario_witness :
  exists resp,
    (Ollama.chat paris_backend 0 1 hi_request).2 = Return resp
    /\ resp_content resp = lit "Paris"
    /\ output_tokens (metrics resp) = Some 4
    /\ ((0 < 1)%Q ->
        output_tokens_per_second (metrics resp) = Some (round (4 / (3 # 2)) 2))
    /\ (~ (0 < 1)%Q ->
        output_tokens_per_second (metrics resp) = None)
    /\ round (4 / (3 # 2)) 2 = (267 # 100)%Q.
Proof.
  apply (paris_scenario paris_backend 0 1 hi_request); reflexivity.
Defined.

(** C7, as stated, fails when the two clock readings of [chat] coincide:
    the rate is absent. *)
Lemma paris_scenario_zero_latency :
  exists resp,
    (Ollama.chat paris_backend 0 0 hi_request).2 = Return resp
    /\ resp_content resp = lit "Paris"
    /\ output_tokens (metrics resp) = Some 4
    /\ output_tokens_per_second (metrics resp) = None
    /\ output_tokens_per_second (metrics resp) <> Some (267 # 100)%Q.
Proof.
  eexists. split; [reflexivity |]. repeat split; try reflexivity. discriminate.
Qed.

(** ** The relay loop *)



Lemma kinds_of_tokens (toks : list str) :
  tokens_then_terminal (kind_of <$> (TokenFrame <$> toks)) = false
  /\ tokens_then_failed (kind_of <$> (TokenFrame <$> toks)) = false.
Proof.
  induction toks as [| t toks [IH1 IH2]]; [now split |].
  split; [| exact IH2].
  destruct toks as [| t' toks]; [reflexivity | exact IH1].
Qed.


Lemma relay_cons (req : ChatRequest) (start_time : Q) (st : Ollama.Relay)
    (now : Q) (line : Ollama.Line) (rest : list (Q * Ollama.Line))
    (tail : Ollama.StreamEnd) :
  Ollama.relay req start_time st ((now, line) :: rest) tail =
  match Ollama.on_line req start_time st now line with
  | Ollama.Next st' out =>
      let r := Ollama.relay req start_time st' rest tail in
      (match out with Some f => f :: r.1 | None => r.1 end, r.2)
  | Ollama.Break f => ([f], Returned)
  | Ollama.Throw e => ([], Raised e)
  end.
Proof.
  simpl. destruct (Ollama.on_line req start_time st now line) as [st' out | f | e];
    [| reflexivity | reflexivity].
  now destruct (Ollama.relay req start_time st' rest tail).
Qed.

(** The loop from any state: the frames are the backend's fragments, in
    order, closed by the final frame when a done object arrives; the
    state in which the done object is handled has counted one token per
    fragment. *)
Lemma relay_frames (req : ChatRequest) (start_time : Q) (lines : list (Q * Ollama.Line))
    (tail : Ollama.StreamEnd) :
  forall st : Ollama.Relay,
  exists st' : Ollama.Relay,
    Ollama.token_count st' = Ollama.token_count st + len (fragments lines)
    /\ Ollama.r_prompt_eval_count st' = Ollama.r_prompt_eval_count st
    /\ Ollama.relay req start_time st lines tail =
       match done_object lines with
       | Some (now, obj) =>
           match Ollama.stream_metrics req start_time now st' obj with
           | Return m =>
               ((TokenFrame <$> fragments lines) ++ [DoneFrame (lit "[DONE]") m],
                Returned)
           | Raise e => (TokenFrame <$> fragments lines, Raised e)
           end
       | None =>
           (TokenFrame <$> fragments lines,
            match tail with
            | Ollama.Eof => Returned
            | Ollama.Dropped => Raised ReadError
            end)
       end.
Proof.
  unfold len.
  induction lines as [| [now line] rest IH]; intros st.
  - exists st. simpl. repeat split; lia.
  - rewrite relay_cons.
    destruct line as [| | obj]; simpl.
    + destruct (IH st) as (st' & Hc & Hp & ->). exists st'.
      repeat split; try assumption.
      destruct (done_object rest) as [[now' obj'] |]; [| reflexivity].
      now destruct (Ollama.stream_metrics req start_time now' st' obj').
    + destruct (IH st) as (st' & Hc & Hp & ->). exists st'.
      repeat split; try assumption.
      destruct (done_object rest) as [[now' obj'] |]; [| reflexivity].
      now destruct (Ollama.stream_metrics req start_time now' st' obj').
    + destruct (Ollama.o_done obj) eqn:Hdone.
      * exists st. simpl. split; [lia |]. split; [reflexivity |].
        now destruct (Ollama.stream_metrics req start_time now st obj).
      * destruct (default [] (Ollama.o_response obj)) as [| c token] eqn:Htok.
        -- destruct (IH st) as (st' & Hc & Hp & ->). exists st'.
           repeat split; try assumption.
           destruct (done_object rest) as [[now' obj'] |]; [| reflexivity].
           now destruct (Ollama.stream_metrics req start_time now' st' obj').
        -- match goal with
           | |- context [Ollama.relay req start_time ?s rest tail] =>
               destruct (IH s) as (st' & Hcount & Hprompt & ->)
           end.
           exists st'. simpl in Hcount, Hprompt.
           split; [| split].
           ++ rewrite Hcount. simpl length.
              destruct (Ollama.first_token_received st); simpl; lia.
           ++ rewrite Hprompt. now destruct (Ollama.first_token_received st).
           ++ destruct (done_object rest) as [[now' obj'] |]; [| reflexivity].
              now destruct (Ollama.stream_metrics req start_time now' st' obj').
Qed.

(** A stream that reaches a done object ends with one final frame. *)
Lemma relay_done (req : ChatRequest) (start_time : Q) (lines : list (Q * Ollama.Line))
    (tail : Ollama.StreamEnd) (now : Q) (obj : Ollama.StreamObj) :
  done_object lines = Some (now, obj) ->
  exists m,
    Ollama.relay req start_time Ollama.relay_init lines tail =
      ((TokenFrame <$> fragments lines) ++ [DoneFrame (lit "[DONE]") m], Returned)
    /\ output_tokens m =
       Ollama.count_field (default (len (fragments lines)) (Ollama.o_eval_count obj)).
Proof.
  intros Hdone.
  destruct (relay_frames req start_time lines tail Ollama.relay_init)
    as (st' & Hcount & _ & ->).
  rewrite Hdone.
  destruct (ollama_stream_metrics_total req start_time now st' obj)
    as (m & -> & _ & Hout).
  exists m. split; [reflexivity |]. rewrite Hout.
  unfold Ollama.final_eval_count. rewrite Hcount. reflexivity.
Qed.

(** A stream that reaches no done object ends with no final frame. *)
Lemma relay_no_done (req : ChatRequest) (start_time : Q) (lines : list (Q * Ollama.Line))
    (tail : Ollama.StreamEnd) :
  done_object lines = None ->
  Ollama.relay req start_time Ollama.relay_init lines tail =
    (TokenFrame <$> fragments lines,
     match tail with
     | Ollama.Eof => Returned
     | Ollama.Dropped => Raised ReadError
     end).
Proof.
  intros Hdone.
  destruct (relay_frames req start_time lines tail Ollama.relay_init)
    as (st' & _ & _ & ->).
  now rewrite Hdone.
Qed.

Lemma fragments_nonempty (lines : list (Q * Ollama.Line)) (t : str) :
  t ∈ fragments lines -> t <> [].
Proof.
  induction lines as [| [now line] rest IH]; simpl; [now intros ?%elem_of_nil |].
  destruct line as [| | obj]; try exact IH.
  destruct (Ollama.o_done obj); [now intros ?%elem_of_nil |].
  destruct (default [] (Ollama.o_response obj)); [exact IH |].
  intros [-> | H]%elem_of_cons; [discriminate | now apply IH].
Qed.

(** ** The shape of an event stream *)


Lemma token_texts_word_frames (words : list str) (t : str) (m : PerformanceMetrics) :
  token_texts (Onnx.word_frames words ++ [DoneFrame t m])
  = (fun w => w ++ lit " ") <$> words.
Proof.
  unfold token_texts, Onnx.word_frames.
  induction words as [| w words IH]; [reflexivity |].
  simpl. now f_equal.
Qed.

Lemma onnx_chat_stream_frames (eng : Onnx.Engine) (start_time chunk_time end_time : Q)
    (req : ChatRequest) :
  let prompt := Onnx.build_prompt (messages req) in
  let content :=
    Onnx.completion prompt
      (Onnx.decode eng (Onnx.generate eng (Onnx.generate_call eng req prompt))) in
  exists m,
    (Onnx.chat_stream eng start_time chunk_time end_time req).2 =
    (Onnx.word_frames (split content) ++ [DoneFrame (lit "[DONE]") m], Returned).
Proof.
  intros prompt content. unfold Onnx.chat_stream. simpl snd.
  match goal with
  | |- context [Onnx.stream_rates ?l ?t ?i ?o] =>
      destruct (onnx_stream_rates_total l t i o) as (otps & tpot & ->)
  end.
  eauto.
Qed.




(** ** Backend failures *)

(** C2, as the code has it: when the backend refuses the connection,
    answers with an error status, or drops the connection before a done
    object, [event_gen] raises the transport error after the token frames
    already sent, and sends no terminal frame; on a refused connection it
    sends no frame at all. *)
Theorem backend_failure_raises (backend : Ollama.Payload -> Ollama.StreamResult)
    (start_time : Q) (req : ChatRequest) (e : Exn) :
  failure_of (backend (Ollama.stream_payload req)) = Some e ->
  exists toks,
    (Ollama.event_gen backend start_time req).2 = (TokenFrame <$> toks, Raised e)
    /\ tokens_then_failed
         (kind_of <$> (Ollama.event_gen backend start_time req).2.1) = false
    /\ (backend (Ollama.stream_payload req) = Ollama.StreamConnectFailed ->
        toks = [] /\ e = ConnectError).
Proof.
  intros Hfail. unfold Ollama.event_gen. simpl snd.
  destruct (backend (Ollama.stream_payload req)) as [| status | lines tail];
    simpl in Hfail.
  - injection Hfail as <-. exists []. repeat split.
  - injection Hfail as <-. exists []. repeat split. discriminate.
  - destruct tail; [discriminate |].
    destruct (done_object lines) eqn:Hdone; [discriminate |].
    injection Hfail as <-. exists (fragments lines).
    rewrite (relay_no_done req start_time lines Ollama.Dropped Hdone).
    split; [reflexivity |]. split; [apply kinds_of_tokens | discriminate].
Qed.

Lemma backend_failure_raises_witness :
  exists toks,
    (Ollama.event_gen dropping_backend 0 hi_request).2
      = (TokenFrame <$> toks, Raised ReadError)
    /\ tokens_then_failed
         (kind_of <$> (Ollama.event_gen dropping_backend 0 hi_request).2.1) = false
    /\ (dropping_backend (Ollama.stream_payload hi_request)
          = Ollama.StreamConnectFailed ->
        toks = [] /\ ReadError = ConnectError).
Proof.
  apply (backend_failure_raises dropping_backend 0 hi_request ReadError).
  reflexivity.
Defined.

(** C2, as stated, fails: on a refused connection the generator raises
    and the caller receives no frame, hence no [Failed] event. *)
Lemma refused_connection_sends_nothing :
  (Ollama.event_gen refusing_backend 0 hi_request).2 = ([], Raised ConnectError)
  /\ tokens_then_failed
       (kind_of <$> (Ollama.event_gen refusing_backend 0 hi_request).2.1) = false.
Proof. split; reflexivity. Qed.

(** ** Token text *)




(** ** Token counts *)




(** ** Empty fragments *)

(** C10. In the Ollama stream an object whose [response] is empty or
    missing produces no frame and leaves the relay state, with its
    time-to-first-token and token counter, as it was; so every token
    frame sent carries a non-empty fragment. *)
Theorem empty_fragment_is_skipped :
  (forall req start_time st now obj,
     Ollama.o_done obj = false ->
     default [] (Ollama.o_response obj) = [] ->
     Ollama.on_line req start_time st now (Ollama.Obj obj) = Ollama.Next st None)
  /\ (forall backend start_time req t,
        TokenFrame t ∈ (Ollama.event_gen backend start_time req).2.1 ->
        t <> []).
Proof.
  split.
  - intros req start_time st now obj Hdone Htok.
    unfold Ollama.on_line. now rewrite Hdone, Htok.
  - intros backend start_time req t. unfold Ollama.event_gen. simpl snd.
    destruct (backend (Ollama.stream_payload req)) as [| status | lines tail];
      [now intros ?%elem_of_nil | now intros ?%elem_of_nil |].
    destruct (relay_frames req start_time lines tail Ollama.relay_init)
      as (st' & _ & _ & ->).
    assert (Htoks : TokenFrame t ∈ TokenFrame <$> fragments lines -> t <> []).
    { intros (t' & [= ->] & H)%list_elem_of_fmap. now apply fragments_nonempty in H. }
    destruct (done_object lines) as [[now obj] |]; [| exact Htoks].
    destruct (Ollama.stream_metrics req start_time now st' obj); [| exact Htoks].
    simpl fst. intros [H | H]%elem_of_app; [now apply Htoks |].
    apply list_elem_of_singleton in H. discriminate H.
Qed.

Lemma empty_fragment_is_skipped_witness :
  Ollama.on_line hi_request 0 Ollama.relay_init 1
    (Ollama.Obj {| Ollama.o_done := false; Ollama.o_response := Some [];
                   Ollama.o_prompt_eval_count := None;
                   Ollama.o_eval_count := None |})
  = Ollama.Next Ollama.relay_init None.
Proof.
  exact (proj1 empty_fragment_is_skipped hi_request 0%Q Ollama.relay_init 1%Q
           {| Ollama.o_done := false; Ollama.o_response := Some [];
              Ollama.o_prompt_eval_count := None;
              Ollama.o_eval_count := None |}
           eq_refl eq_refl).
Defined.

(** ** Validation *)

(** What the constrained request models accept. *)
Lemma ollama_validate_ok (body : ChatRequest) :
  Ollama.validate body = [] <->
  messages body <> []
  /\ (0 <= temperature body)%Q /\ (temperature body <= 2)%Q
  /\ (forall n, max_tokens body = Some n -> 1 <= n).
Proof.
  unfold Ollama.validate.
  destruct (messages body) as [| m ms];
    destruct (Qle_bool 0 (temperature body)) eqn:H0;
    destruct (Qle_bool (temperature body) 2) eqn:H2;
    destruct (max_tokens body) as [n |];
    try destruct (1 <=? n) eqn:Hn; simpl;
    try apply Qle_bool_iff in H0; try apply Qle_bool_iff in H2;
    try apply Z.leb_le in Hn;
    (split; [try discriminate | intros (Hm & Ht0 & Ht2 & Hmax)]);
    try (exfalso; apply Hm; reflexivity);
    try reflexivity.
  all: try (intros _; repeat split; try assumption; try discriminate;
            intros ? [= <-]; assumption).
  all: try (apply Qle_bool_iff in Ht0; congruence).
  all: try (apply Qle_bool_iff in Ht2; congruence).
  all: try (specialize (Hmax n eq_refl); apply Z.leb_le in Hmax; congruence).
Qed.

(** A rejected body reaches no handler, hence no backend. *)
Lemma endpoint_rejects {A} (validate : ChatRequest -> list ValidationError)
    (handler : ChatRequest -> A) (body : ChatRequest) :
  validate body <> [] ->
  endpoint validate handler body = Unprocessable (validate body).
Proof.
  intros H. unfold endpoint. now destruct (validate body).
Qed.

Lemma genai_validate_same (body : ChatRequest) :
  Genai.validate body = Ollama.validate body.
Proof. reflexivity. Qed.

(** The gateways with a constrained request model reject every body with
    no message, a temperature outside [0, 2] or a non-positive
    [max_tokens], on both endpoints, without running a handler. *)
Lemma constrained_gateways_reject (body : ChatRequest) :
  messages body = []
  \/ ~ ((0 <= temperature body)%Q /\ (temperature body <= 2)%Q)
  \/ (exists n, max_tokens body = Some n /\ n <= 0) ->
  exists errs,
    errs <> []
    /\ (forall backend start_time end_time,
          Ollama.post_chat backend start_time end_time body = Unprocessable errs)
    /\ (forall backend start_time,
          Ollama.post_chat_stream backend start_time body = Unprocessable errs)
    /\ (forall eng start_time end_time,
          Genai.post_chat eng start_time end_time body = Unprocessable errs)
    /\ (forall eng start_time first_time end_time,
          Genai.post_chat_stream eng start_time first_time end_time body
          = Unprocessable errs).
Proof.
  intros Hbad.
  assert (Hv : Ollama.validate body <> []).
  { intros (Hm & H0 & H2 & Hmax)%ollama_validate_ok.
    destruct Hbad as [Hbad | [Hbad | (n & Hn & Hle)]].
    - contradiction.
    - apply Hbad. now split.
    - specialize (Hmax n Hn). lia. }
  exists (Ollama.validate body). split; [exact Hv |].
  repeat split; intros; unfold Ollama.post_chat, Ollama.post_chat_stream,
    Genai.post_chat, Genai.post_chat_stream.
  - now apply endpoint_rejects.
  - now apply endpoint_rejects.
  - rewrite <- genai_validate_same. apply endpoint_rejects.
    now rewrite genai_validate_same.
  - rewrite <- genai_validate_same. apply endpoint_rejects.
    now rewrite genai_validate_same.
Qed.

(** C3 at the failing inputs: the ONNX gateway hands a body with no
    message, with [max_tokens = 0] or with temperature 2.5 to its
    handler, which calls the model once; the Ollama and GenAI gateways
    answer the same bodies with a validation error and call nothing. *)
Theorem onnx_accepts_invalid_requests (eng : Onnx.Engine)
    (start_time chunk_time end_time : Q) :
  (exists out,
     Onnx.post_chat eng start_time end_time empty_request
     = Handled ([Onnx.generate_call eng empty_request []], out))
  /\ (exists out,
        Onnx.post_chat_stream eng start_time chunk_time end_time empty_request
        = Handled ([Onnx.generate_call eng empty_request []], out))
  /\ (exists call out,
        Onnx.post_chat eng start_time end_time zero_cap_request
        = Handled ([call], out)
        /\ Onnx.max_new_tokens call = Onnx.DEFAULT_MAX_NEW_TOKENS eng)
  /\ (exists call out,
        Onnx.post_chat eng start_time end_time hot_request
        = Handled ([call], out)
        /\ Onnx.gen_temperature call = (5 # 2)%Q)
  /\ (forall backend,
        Ollama.post_chat backend start_time end_time empty_request
        = Unprocessable [TooShort "messages"]
        /\ Ollama.post_chat backend start_time end_time zero_cap_request
           = Unprocessable [GreaterThanEqual "max_tokens"]
        /\ Ollama.post_chat backend start_time end_time hot_request
           = Unprocessable [LessThanEqual "temperature"])
  /\ (forall geng,
        Genai.post_chat geng start_time end_time empty_request
        = Unprocessable [TooShort "messages"]
        /\ Genai.post_chat geng start_time end_time zero_cap_request
           = Unprocessable [GreaterThanEqual "max_tokens"]
        /\ Genai.post_chat geng start_time end_time hot_request
           = Unprocessable [LessThanEqual "temperature"]).
Proof.
  repeat split; try (eexists; reflexivity); try reflexivity.
  - eexists _, _. split; reflexivity.
  - eexists _, _. split; reflexivity.
Qed.

(** ** The backend payload *)

(** C8 on the code: [chat] makes one backend call whose payload carries
    the built prompt and the temperature, and never a [num_predict]
    option, whatever [max_tokens] is; the payload of [chat_stream]
    carries it when [max_tokens] is set. *)
Theorem chat_payload_omits_max_tokens
    (backend : Ollama.Payload -> Ollama.HttpResult) (start_time end_time : Q)
    (req : ChatRequest) :
  (Ollama.chat backend start_time end_time req).1 = [Ollama.chat_payload req]
  /\ Ollama.p_prompt (Ollama.chat_payload req) = Ollama.prompt_of req
  /\ Ollama.p_options (Ollama.chat_payload req) !! "temperature"
     = Some (Ollama.JNum (temperature req))
  /\ Ollama.p_options (Ollama.chat_payload req) !! "num_predict" = None
  /\ Ollama.p_options (Ollama.chat_payload capped_request) !! "num_predict" = None
  /\ Ollama.p_options (Ollama.stream_payload capped_request) !! "num_predict"
     = Some (Ollama.JInt 5).
Proof.
  repeat split; reflexivity.
Qed.

Lemma stream_payload_carries_max_tokens (req : ChatRequest) (n : Z) :
  max_tokens req = Some n -> n <> 0 ->
  Ollama.p_options (Ollama.stream_payload req) !! "num_predict"
  = Some (Ollama.JInt n).
Proof.
  intros Hmax Hn. unfold Ollama.stream_payload, Ollama.max_tokens_set. simpl.
  rewrite Hmax. destruct (n =? 0) eqn:E; [apply Z.eqb_eq in E; contradiction |].
  apply lookup_insert_eq.
Qed.

(** ** Prompt building *)

Lemma upper_role (r : Role) : upper (role_str r) = role_label r.
Proof. now destruct r. Qed.

(** The two comprehensions of the handlers are the one pass of the
    design. *)
Lemma linearize_comprehensions (ms : list Message) :
  linearize ms = (system_contents ms, dialogue_turns ms).
Proof.
  unfold system_contents, dialogue_turns.
  induction ms as [| [r c] ms IH]; [reflexivity |].
  cbn [linearize]. rewrite IH, !filter_cons.
  destruct r; cbn [role content is_system];
    repeat (destruct (decide _) as [Hd | Hd];
            try discriminate Hd; try (exfalso; apply Hd; reflexivity));
    cbn [fmap list_fmap]; unfold render_turn; cbn [role content];
    rewrite ?upper_role; reflexivity.
Qed.

Lemma lstrip_head (s : str) (c : codepoint) :
  head (lstrip s) = Some c -> isspace c = false.
Proof.
  induction s as [| c0 s IH]; simpl; [discriminate |].
  destruct (isspace c0) eqn:Hc; [exact IH |].
  intros [= <-]. exact Hc.
Qed.

Lemma lstrip_suffix (s : str) : exists p, s = p ++ lstrip s.
Proof.
  induction s as [| c s (p & IH)]; [now exists [] |].
  simpl. destruct (isspace c).
  - exists (c :: p). simpl. now f_equal.
  - now exists [].
Qed.

Lemma lstrip_last (s : str) (c : codepoint) :
  last (lstrip s) = Some c -> last s = Some c.
Proof.
  intros H. destruct (lstrip_suffix s) as (p & Hs).
  rewrite Hs, last_app, H. reflexivity.
Qed.

(** The result of [strip] has no whitespace at either end. *)
Lemma strip_trimmed (s : str) : trimmed (strip s).
Proof.
  unfold trimmed, strip, rstrip. split; intros c.
  - rewrite head_reverse. intros H%lstrip_last.
    rewrite last_reverse in H. now apply lstrip_head in H.
  - rewrite last_reverse. apply lstrip_head.
Qed.

(** C9, as the code has it: the Ollama handlers and the ONNX builder
    return the design's prompt: the system contents joined by newlines,
    a newline, the other messages as [ROLE: content] lines in order, all
    trimmed. The GenAI builder appends the line [ASSISTANT:] before it
    trims. Every prompt is free of whitespace at both ends. *)
Theorem prompt_builders (req : ChatRequest) :
  Ollama.prompt_of req = design_prompt (messages req)
  /\ Ollama.p_prompt (Ollama.chat_payload req) = design_prompt (messages req)
  /\ Ollama.p_prompt (Ollama.stream_payload req) = design_prompt (messages req)
  /\ Onnx.build_prompt (messages req) = design_prompt (messages req)
  /\ Genai.build_prompt (messages req)
     = design_prompt_with (newline ++ lit "ASSISTANT:") (messages req)
  /\ trimmed (design_prompt (messages req))
  /\ trimmed (Genai.build_prompt (messages req)).
Proof.
  assert (H : Onnx.build_prompt (messages req) = design_prompt (messages req)).
  { unfold Onnx.build_prompt, design_prompt, design_prompt_with.
    rewrite linearize_comprehensions. now rewrite app_nil_r. }
  repeat split; try exact H; try apply strip_trimmed.
  - unfold Genai.build_prompt, design_prompt_with.
    now rewrite linearize_comprehensions.
  - unfold design_prompt, design_prompt_with.
    destruct (linearize (messages req)). apply strip_trimmed.
  - unfold design_prompt, design_prompt_with.
    destruct (linearize (messages req)). apply strip_trimmed.
Qed.

(** C9, as stated, fails for the GenAI builder: for one user message [Hi]
    it returns two lines, the second being [ASSISTANT:]. *)
Lemma genai_prompt_has_cue :
  design_prompt (messages hi_request) = lit "USER: Hi"
  /\ Genai.build_prompt (messages hi_request)
     = lit "USER: Hi" ++ newline ++ lit "ASSISTANT:"
  /\ Genai.build_prompt (messages hi_request) <> design_prompt (messages hi_request).
Proof. repeat split; (reflexivity || discriminate). Qed.

(** * Further properties *)

(** ** Rounding *)





(** ** The relay state *)





(** ** Time to first token *)









(** ** Lines the relay does not forward *)

(** X3. Blank lines and lines that are not JSON are transparent to the
    Ollama relay: from any state, a backend body and the same body
    without them give the same frames and the same ending. *)
Theorem noise_lines_are_transparent (req : ChatRequest) (start_time : Q)
    (lines : list (Q * Ollama.Line)) (tail : Ollama.StreamEnd) :
  forall st : Ollama.Relay,
    Ollama.relay req start_time st (without_noise lines) tail
    = Ollama.relay req start_time st lines tail.
Proof.
  unfold without_noise.
  induction lines as [| [now line] rest IH]; intros st; [reflexivity |].
  rewrite filter_cons, (relay_cons req start_time st now line rest tail).
  destruct (decide (is_noise (now, line).2 = false)) as [Hd | Hd];
    destruct line as [| | obj]; simpl in Hd;
    try discriminate Hd; try (exfalso; apply Hd; reflexivity).
  - rewrite relay_cons.
    destruct (Ollama.on_line req start_time st now (Ollama.Obj obj));
      [| reflexivity | reflexivity].
    now rewrite IH.
  - rewrite IH. simpl.
    now destruct (Ollama.relay req start_time st rest tail).
  - rewrite IH. simpl.
    now destruct (Ollama.relay req start_time st rest tail).
Qed.

(** X4. Nothing that follows the first done object matters: the lines
    after it and the way the connection ends change neither the frames
    nor the ending of the relay. *)
Theorem lines_after_done_are_ignored (req : ChatRequest) (start_time : Q)
    (pre post post' : list (Q * Ollama.Line)) (tail tail' : Ollama.StreamEnd)
    (now : Q) (obj : Ollama.StreamObj) :
  Ollama.o_done obj = true ->
  forall st : Ollama.Relay,
    Ollama.relay req start_time st (pre ++ (now, Ollama.Obj obj) :: post) tail
    = Ollama.relay req start_time st (pre ++ (now, Ollama.Obj obj) :: post') tail'.
Proof.
  intros Hdone.
  induction pre as [| [now' line] pre IH]; intros st.
  - rewrite !app_nil_l, !relay_cons. unfold Ollama.on_line. rewrite Hdone.
    now destruct (Ollama.stream_metrics req start_time now st obj).
  - rewrite <- !app_comm_cons, !relay_cons.
    destruct (Ollama.on_line req start_time st now' line);
      [| reflexivity | reflexivity].
    now rewrite IH.
Qed.

Lemma lines_after_done_are_ignored_witness :
  Ollama.relay hi_request 0 Ollama.relay_init
    ([ (1%Q, fragment "Hel") ] ++ (2%Q, done_marker None None)
       :: [ (3%Q, fragment "lo") ]) Ollama.Dropped
  = Ollama.relay hi_request 0 Ollama.relay_init
      ([ (1%Q, fragment "Hel") ] ++ (2%Q, done_marker None None) :: [])
      Ollama.Eof.
Proof.
  exact (lines_after_done_are_ignored hi_request 0 [ (1%Q, fragment "Hel") ]
           [ (3%Q, fragment "lo") ] [] Ollama.Dropped Ollama.Eof 2%Q
           {| Ollama.o_done := true; Ollama.o_response := None;
              Ollama.o_prompt_eval_count := None;
              Ollama.o_eval_count := None |}
           eq_refl Ollama.relay_init).
Defined.

(** ** Output rate and time per token *)



(** ** The streaming payload of a valid request *)

(** X6. For a request that passes the validation of the Ollama gateway,
    the streaming payload carries the temperature, which lies in
    [0, 2], and carries [num_predict] exactly when [max_tokens] is
    given, with that value, which is at least 1. *)
Theorem valid_request_stream_payload (req : ChatRequest) :
  Ollama.validate req = [] ->
  Ollama.p_options (Ollama.stream_payload req) !! "num_predict"
    = Ollama.JInt <$> max_tokens req
  /\ Ollama.p_options (Ollama.stream_payload req) !! "temperature"
     = Some (Ollama.JNum (temperature req))
  /\ (0 <= temperature req)%Q /\ (temperature req <= 2)%Q
  /\ (forall n, max_tokens req = Some n -> 1 <= n)
  /\ Ollama.p_stream (Ollama.stream_payload req) = true
  /\ Ollama.p_model (Ollama.stream_payload req) = model req.
Proof.
  intros (Hm & H0 & H2 & Hmax)%ollama_validate_ok.
  unfold Ollama.stream_payload, Ollama.max_tokens_set. simpl.
  destruct (max_tokens req) as [n |] eqn:E.
  - specialize (Hmax n eq_refl).
    destruct (n =? 0) eqn:En; [apply Z.eqb_eq in En; lia |].
    split; [apply lookup_insert_eq |].
    repeat split; try assumption; try reflexivity.
    intros ? [= <-]. exact Hmax.
  - repeat split; try assumption; try reflexivity; discriminate.
Qed.

Lemma valid_request_stream_payload_witness :
  Ollama.p_options (Ollama.stream_payload capped_request) !! "num_predict"
    = Ollama.JInt <$> max_tokens capped_request
  /\ Ollama.p_options (Ollama.stream_payload capped_request) !! "temperature"
     = Some (Ollama.JNum (temperature capped_request))
  /\ (0 <= temperature capped_request)%Q /\ (temperature capped_request <= 2)%Q
  /\ (forall n, max_tokens capped_request = Some n -> 1 <= n)
  /\ Ollama.p_stream (Ollama.stream_payload capped_request) = true
  /\ Ollama.p_model (Ollama.stream_payload capped_request) = model capped_request.
Proof.
  apply (valid_request_stream_payload capped_request). reflexivity.
Defined.

(** ** The non-streaming Ollama handler *)

(** ** The ONNX gateway *)

(** X9. The ONNX handlers never pass the model a temperature below
    1e-6: a request temperature of at least 1e-6 is passed on as it is,
    a smaller one, zero or negative, is replaced by 1e-6. Sampling is
    switched on exactly when the request temperature is positive. A
    [max_tokens] that is missing or zero becomes the configured default;
    any other value is passed on as [max_new_tokens]. *)
Theorem onnx_generation_parameters (eng : Onnx.Engine) (req : ChatRequest)
    (prompt : str) :
  let call := Onnx.generate_call eng req prompt in
  ((1 # 1000000) <= Onnx.gen_temperature call)%Q
  /\ (((1 # 1000000) <= temperature req)%Q ->
      Onnx.gen_temperature call = temperature req)
  /\ ((temperature req < (1 # 1000000))%Q ->
      Onnx.gen_temperature call = (1 # 1000000)%Q)
  /\ (Onnx.do_sample call = true <-> (0 < temperature req)%Q)
  /\ (forall n, max_tokens req = Some n -> n <> 0 ->
        Onnx.max_new_tokens call = n)
  /\ (max_tokens req = None \/ max_tokens req = Some 0 ->
      Onnx.max_new_tokens call = Onnx.DEFAULT_MAX_NEW_TOKENS eng)
  /\ Onnx.input_ids call = Onnx.tokenize eng prompt.
Proof.
  intros call. unfold call, Onnx.generate_call. simpl.
  destruct (Qgtb (1 # 1000000) (temperature req)) eqn:Ht.
  - apply Qgtb_true in Ht. repeat split.
    + apply Qle_refl.
    + intros H. exfalso. exact (Qlt_irrefl _ (Qlt_le_trans _ _ _ Ht H)).
    + intros [_ H]%andb_true_iff. now apply Qgtb_true.
    + intros H. apply andb_true_iff. split; [| now apply Qgtb_true].
      now apply (truthy_pos (temperature req)).
    + intros n -> Hn. destruct (n =? 0) eqn:E; [apply Z.eqb_eq in E; lia | reflexivity].
    + intros [-> | ->]; reflexivity.
  - assert (Hle : ((1 # 1000000) <= temperature req)%Q).
    { apply Qnot_lt_le. intros H. apply Qgtb_true in H. congruence. }
    repeat split.
    + exact Hle.
    + intros H. exfalso. exact (Qlt_irrefl _ (Qlt_le_trans _ _ _ H Hle)).
    + intros [_ H]%andb_true_iff. now apply Qgtb_true.
    + intros H. apply andb_true_iff. split; [| now apply Qgtb_true].
      now apply (truthy_pos (temperature req)).
    + intros n -> Hn. destruct (n =? 0) eqn:E; [apply Z.eqb_eq in E; lia | reflexivity].
    + intros [-> | ->]; reflexivity.
Qed.

Lemma startswith_app (prefix rest : str) : startswith (prefix ++ rest) prefix = true.
Proof.
  induction prefix as [| p prefix IH]; [now destruct rest |].
  simpl. now rewrite N.eqb_refl.
Qed.

Lemma startswith_true (s prefix : str) :
  startswith s prefix = true -> exists rest, s = prefix ++ rest.
Proof.
  revert s. induction prefix as [| p prefix IH]; intros s H; [now exists s |].
  destruct s as [| c s]; [discriminate |]. simpl in H.
  apply andb_true_iff in H as [Hc H]. apply N.eqb_eq in Hc. subst c.
  destruct (IH s H) as (rest & ->). now exists rest.
Qed.

(** X10. The ONNX handlers cut the prompt off the decoded output exactly
    when the output starts with it, and then drop the whitespace that
    follows: the completion of [prompt ++ rest] is [rest] without its
    leading whitespace, so it never starts with whitespace. An output
    that does not start with the prompt is returned whole. *)
Theorem onnx_completion_removes_prompt (prompt : str) :
  (forall rest,
     Onnx.completion prompt (prompt ++ rest) = lstrip rest
     /\ (forall c, head (Onnx.completion prompt (prompt ++ rest)) = Some c ->
                   isspace c = false))
  /\ (forall decoded,
        startswith decoded prompt = false ->
        Onnx.completion prompt decoded = decoded)
  /\ (forall decoded,
        Onnx.completion prompt decoded <> decoded ->
        exists rest, decoded = prompt ++ rest).
Proof.
  split; [| split].
  - intros rest. unfold Onnx.completion.
    rewrite startswith_app, drop_app_length.
    split; [reflexivity | apply lstrip_head].
  - intros decoded H. unfold Onnx.completion. now rewrite H.
  - intros decoded H. unfold Onnx.completion in H.
    destruct (startswith decoded prompt) eqn:E; [| contradiction].
    now apply startswith_true.
Qed.

(** ** Words of a completion *)

(** Every word that [split] returns is a non-empty run without
    whitespace. *)
Lemma split_from_words (s cur : str) (w : str) :
  Forall (fun c => isspace c = false) cur ->
  w ∈ split_from cur s ->
  w <> [] /\ Forall (fun c => isspace c = false) w.
Proof.
  revert cur. induction s as [| c s IH]; intros cur Hcur; simpl.
  - destruct cur as [| c0 cur]; [now intros ?%elem_of_nil |].
    intros ->%list_elem_of_singleton. split.
    + intros E. apply (f_equal length) in E.
      rewrite length_reverse in E. discriminate.
    + now apply Forall_reverse.
  - destruct (isspace c) eqn:Hc.
    + destruct cur as [| c0 cur]; [now apply IH |].
      intros [-> | H]%elem_of_cons; [| now apply (IH [])].
      split.
      * intros E. apply (f_equal length) in E.
        rewrite length_reverse in E. discriminate.
      * now apply Forall_reverse.
    + apply IH. now constructor.
Qed.

Lemma split_words (s w : str) :
  w ∈ split s -> w <> [] /\ Forall (fun c => isspace c = false) w.
Proof. apply split_from_words. constructor. Qed.

Lemma onnx_chat_stream_ttft (eng : Onnx.Engine) (start_time chunk_time end_time : Q)
    (req : ChatRequest) :
  let prompt := Onnx.build_prompt (messages req) in
  let content :=
    Onnx.completion prompt
      (Onnx.decode eng (Onnx.generate eng (Onnx.generate_call eng req prompt))) in
  exists m,
    (Onnx.chat_stream eng start_time chunk_time end_time req).2 =
    (Onnx.word_frames (split content) ++ [DoneFrame (lit "[DONE]") m], Returned)
    /\ (split content = [] -> ttft m = None).
Proof.
  intros prompt content. unfold Onnx.chat_stream. simpl snd.
  fold prompt. fold content.
  match goal with
  | |- context [Onnx.stream_rates ?l ?t ?i ?o] =>
      destruct (onnx_stream_rates_total l t i o) as (x & y & ->)
  end.
  eexists. split; [reflexivity |]. simpl. now intros ->.
Qed.

(** X11. The simulated ONNX stream sends one token frame per word of the
    completion and then the final frame: every token frame carries a
    non-empty run without whitespace followed by one space, and their
    number is the number of words. When the completion has no word, the
    final frame is the only frame and reports no time to first token. *)
Theorem onnx_stream_words (eng : Onnx.Engine) (start_time chunk_time end_time : Q)
    (req : ChatRequest) :
  let prompt := Onnx.build_prompt (messages req) in
  let content :=
    Onnx.completion prompt
      (Onnx.decode eng (Onnx.generate eng (Onnx.generate_call eng req prompt))) in
  let frames := (Onnx.chat_stream eng start_time chunk_time end_time req).2.1 in
  length (token_texts frames) = length (split content)
  /\ length frames = S (length (split content))
  /\ (forall t, t ∈ token_texts frames ->
        exists w, t = w ++ lit " " /\ w <> []
                  /\ Forall (fun c => isspace c = false) w)
  /\ (split content = [] ->
      exists m, frames = [DoneFrame (lit "[DONE]") m] /\ ttft m = None).
Proof.
  intros prompt content frames.
  destruct (onnx_chat_stream_frames eng start_time chunk_time end_time req)
    as (m & Hs).
  fold prompt in Hs. fold content in Hs.
  assert (Hf : frames = Onnx.word_frames (split content) ++ [DoneFrame (lit "[DONE]") m])
    by (unfold frames; now rewrite Hs).
  rewrite Hf, token_texts_word_frames.
  split; [now rewrite length_fmap |]. split.
  { rewrite length_app. unfold Onnx.word_frames. rewrite length_fmap. simpl.
    apply Nat.add_1_r. }
  split.
  - intros t (w & -> & Hw)%list_elem_of_fmap. exists w.
    split; [reflexivity |]. now apply (split_words content).
  - intros Hempty.
    destruct (onnx_chat_stream_ttft eng start_time chunk_time end_time req)
      as (m' & Hs' & Httft).
    fold prompt in Hs', Httft. fold content in Hs', Httft.
    rewrite Hs in Hs'. injection Hs' as Hm%app_inj_tail. destruct Hm as [_ [= <-]].
    exists m. rewrite Hempty in *. split; [reflexivity | now apply Httft].
Qed.

(** ** Token counts of the GenAI gateway *)

Lemma len_app_minus {A} (xs ys : list A) : len (xs ++ ys) - len xs = len ys.
Proof. unfold len. rewrite length_app. lia. Qed.

(** X12. The GenAI gateway counts tokens the same way on both
    endpoints: the input count is the length of the encoded prompt, and
    the output count is the number of generated tokens, which in the
    stream is the number of token frames sent. A generation that
    produces no token sends the final frame alone, with no time to first
    token. *)
Theorem genai_token_counts (eng : Genai.Engine)
    (start_time first_time end_time : Q) (req : ChatRequest) :
  let prompt := Genai.build_prompt (messages req) in
  let new_tokens := Genai.run eng (Genai.generation eng req prompt) in
  let frames := (Genai.event_gen eng start_time first_time end_time req).2.1 in
  (exists m,
     done_metrics frames = Some m
     /\ input_tokens m = Some (len (Genai.encode eng prompt))
     /\ output_tokens m = Some (len (token_texts frames))
     /\ len (token_texts frames) = len new_tokens
     /\ (new_tokens = [] -> frames = [DoneFrame (lit "[DONE]") m] /\ ttft m = None))
  /\ (exists resp,
        (Genai.chat eng start_time end_time req).2 = Return resp
        /\ input_tokens (metrics resp) = Some (len (Genai.encode eng prompt))
        /\ output_tokens (metrics resp) = Some (len new_tokens)).
Proof.
  intros prompt new_tokens frames. split.
  - unfold frames, Genai.event_gen. simpl snd. fold prompt. fold new_tokens.
    match goal with
    | |- context [Genai.stream_rates ?l ?t ?i ?o] =>
        destruct (genai_stream_rates_total l t i o) as (x & y & ->)
    end.
    simpl fst. eexists. unfold done_metrics. rewrite last_snoc.
    split; [reflexivity |]. simpl.
    assert (Hn : token_texts
                   (Genai.token_frames eng new_tokens
                    ++ [DoneFrame (lit "[DONE]")
                          {| ttft := None; total_latency := 0;
                             tokens_per_second := None;
                             output_tokens_per_second := None;
                             input_tokens := None; output_tokens := None;
                             tpot := None; metrics_model := [] |}])
                 = (fun id => Genai.decode eng [id]) <$> new_tokens).
    { unfold token_texts, Genai.token_frames. rewrite omap_app. simpl.
      rewrite app_nil_r. clear. induction new_tokens as [| id ids IH];
        [reflexivity | simpl; now f_equal]. }
    assert (Hlen : forall m',
      len (token_texts (Genai.token_frames eng new_tokens
                        ++ [DoneFrame (lit "[DONE]") m'])) = len new_tokens).
    { intros m'. unfold token_texts in *. rewrite omap_app in *. simpl in *.
      rewrite app_nil_r in *. unfold len. f_equal.
      rewrite <- (length_fmap (fun id => Genai.decode eng [id]) new_tokens).
      f_equal. unfold Genai.token_frames. clear.
      induction new_tokens as [| id ids IH]; [reflexivity | simpl; now f_equal]. }
    split; [reflexivity |]. rewrite Hlen.
    split; [reflexivity |]. split; [reflexivity |].
    intros E. unfold new_tokens in *. clear Hn Hlen.
    revert x y. rewrite E. intros x y. split; reflexivity.
  - unfold Genai.chat. simpl snd. fold prompt. fold new_tokens.
    match goal with
    | |- context [Genai.chat_rates ?l ?i ?o] =>
        destruct (genai_chat_rates_total l i o) as (x & y & ->)
    end.
    outcome_simpl. eexists. split; [reflexivity |]. simpl.
    split; [reflexivity |]. now rewrite len_app_minus.
Qed.

(** ** The lazy model loader *)

(** X13. [_load_model] loads at most once: when it returns a tokenizer
    and a model, both globals hold them, and every later call returns
    the same pair and leaves the globals alone, whatever the host has
    become. A call that fails leaves the globals not loaded, so the
    next call tries again; the missing-dependency and missing-directory
    failures change no global at all. The globals never hold a model
    without a tokenizer. *)
Theorem load_model_caches {T M : Type} (host : Loader.Host T M)
    (g : Loader.Globals T M) :
  Loader.reachable g = true ->
  Loader.reachable (Loader._load_model host g).2 = true
  /\ (forall t m g',
        Loader._load_model host g = (inr (t, m), g') ->
        g' = {| Loader._tokenizer := Some t; Loader._model := Some m |}
        /\ forall host', Loader._load_model host' g' = (inr (t, m), g'))
  /\ (forall e g',
        Loader._load_model host g = (inl e, g') ->
        Loader.loaded g = false /\ Loader.loaded g' = false
        /\ (e <> Loader.FromPretrainedFailed -> g' = g))
  /\ (Loader.loaded g = true ->
      exists t m, Loader._load_model host g = (inr (t, m), g)).
Proof.
  destruct g as [[t0 |] [m0 |]];
    unfold Loader._load_model, Loader.loaded, Loader.reachable; simpl;
    intros Hreach; try discriminate Hreach.
  - split; [reflexivity |]. split; [| split].
    + intros t m g' [= <- <- <-]. split; [reflexivity |]. now intros host'.
    + intros e g' H. discriminate H.
    + intros _. eauto.
  - destruct (Loader.dependencies_import host), (Loader.model_dir_is_dir host),
      (Loader.tokenizer_from_pretrained host) as [t1 |],
      (Loader.model_from_pretrained host) as [m1 |]; simpl;
      (split; [reflexivity |]); (split; [| split]);
      try (intros ? ? ? H; discriminate H);
      try (intros ? ? [= <- <-]; repeat split; solve [congruence | intros; congruence]);
      try (intros; discriminate).
    intros t m g' [= <- <- <-]. split; [reflexivity |]. now intros host'.
  - destruct (Loader.dependencies_import host), (Loader.model_dir_is_dir host),
      (Loader.tokenizer_from_pretrained host) as [t1 |],
      (Loader.model_from_pretrained host) as [m1 |]; simpl;
      (split; [reflexivity |]); (split; [| split]);
      try (intros ? ? ? H; discriminate H);
      try (intros ? ? [= <- <-]; repeat split; solve [congruence | intros; congruence]);
      try (intros; discriminate).
    intros t m g' [= <- <- <-]. split; [reflexivity |]. now intros host'.
Qed.

Lemma load_model_caches_witness :
  Loader.reachable
    (Loader._load_model
       {| Loader.dependencies_import := true; Loader.model_dir_is_dir := true;
          Loader.tokenizer_from_pretrained := Some 1%nat;
          Loader.model_from_pretrained := Some 2%nat |}
       Loader.initial).2 = true
  /\ (forall t m g',
        Loader._load_model
          {| Loader.dependencies_import := true; Loader.model_dir_is_dir := true;
             Loader.tokenizer_from_pretrained := Some 1%nat;
             Loader.model_from_pretrained := Some 2%nat |}
          Loader.initial = (inr (t, m), g') ->
        g' = {| Loader._tokenizer := Some t; Loader._model := Some m |}
        /\ forall host', Loader._load_model host' g' = (inr (t, m), g'))
  /\ (forall e g',
        Loader._load_model
          {| Loader.dependencies_import := true; Loader.model_dir_is_dir := true;
             Loader.tokenizer_from_pretrained := Some 1%nat;
             Loader.model_from_pretrained := Some 2%nat |}
          Loader.initial = (inl e, g') ->
        Loader.loaded (@Loader.initial nat nat) = false
        /\ Loader.loaded g' = false
        /\ (e <> Loader.FromPretrainedFailed -> g' = Loader.initial))
  /\ (Loader.loaded (@Loader.initial nat nat) = true ->
      exists t m,
        Loader._load_model
          {| Loader.dependencies_import := true; Loader.model_dir_is_dir := true;
             Loader.tokenizer_from_pretrained := Some 1%nat;
             Loader.model_from_pretrained := Some 2%nat |}
          Loader.initial = (inr (t, m), Loader.initial)).
Proof.
  apply (load_model_caches
           {| Loader.dependencies_import := true; Loader.model_dir_is_dir := true;
              Loader.tokenizer_from_pretrained := Some 1%nat;
              Loader.model_from_pretrained := Some 2%nat |}
           Loader.initial).
  reflexivity.
Defined.

(** ** Prompts without a preamble or without a dialogue *)

Lemma lstrip_fixed (s : str) :
  (forall c, head s = Some c -> isspace c = false) -> lstrip s = s.
Proof.
  destruct s as [| c s]; [reflexivity |]. intros H. simpl.
  now rewrite (H c eq_refl).
Qed.

Lemma strip_fixed (s : str) : trimmed s -> strip s = s.
Proof.
  intros [Hh Hl]. unfold strip, rstrip. rewrite (lstrip_fixed s Hh).
  rewrite lstrip_fixed; [apply reverse_involutive |].
  intros c. rewrite head_reverse. apply Hl.
Qed.

Lemma lstrip_snoc_space (s : str) (c : codepoint) :
  isspace c = true ->
  lstrip (s ++ [c]) = match lstrip s with [] => [] | x => x ++ [c] end.
Proof.
  intros Hc. induction s as [| c0 s IH]; simpl; [now rewrite Hc |].
  destruct (isspace c0); [exact IH | reflexivity].
Qed.

Lemma strip_snoc_space (s : str) (c : codepoint) :
  isspace c = true -> strip (s ++ [c]) = strip s.
Proof.
  intros Hc. unfold strip. rewrite (lstrip_snoc_space s c Hc).
  destruct (lstrip s) as [| c0 x]; [reflexivity |].
  unfold rstrip. rewrite reverse_snoc. simpl. now rewrite Hc.
Qed.

(** X14. The newline that the prompt builders put between the system
    preamble and the dialogue never shows at an end of the prompt: with
    no system message the prompt is the trimmed dialogue, with no other
    message it is the trimmed preamble, and with no message at all it is
    empty. The Ollama handlers build the same prompt as the ONNX
    builder, and trimming a prompt again changes nothing. *)
Theorem prompt_separator_is_trimmed (ms : list Message) :
  (system_contents ms = [] ->
   Onnx.build_prompt ms = strip (join newline (dialogue_turns ms)))
  /\ (dialogue_turns ms = [] ->
      Onnx.build_prompt ms = strip (join newline (system_contents ms)))
  /\ (ms = [] -> Onnx.build_prompt ms = [])
  /\ (forall req, messages req = ms -> Ollama.prompt_of req = Onnx.build_prompt ms)
  /\ strip (Onnx.build_prompt ms) = Onnx.build_prompt ms
  /\ strip (Genai.build_prompt ms) = Genai.build_prompt ms.
Proof.
  unfold Onnx.build_prompt. repeat split.
  - intros ->. reflexivity.
  - intros ->. simpl. now apply (strip_snoc_space _ 10%N).
  - intros ->. reflexivity.
  - intros req <-. reflexivity.
  - apply strip_fixed, strip_trimmed.
  - apply strip_fixed, strip_trimmed.
Qed.

Lemma prompt_separator_is_trimmed_witness :
  Onnx.build_prompt (messages hi_request)
  = strip (join newline (dialogue_turns (messages hi_request))).
Proof.
  exact (proj1 (prompt_separator_is_trimmed (messages hi_request)) eq_refl).
Defined.

(** ** The Panel client *)

Lemma lstrip_slash_head (s : str) :
  head (LLMClient.lstrip_slash s) <> Some 47%N.
Proof.
  induction s as [| c s IH]; simpl; [discriminate |].
  destruct (c =? 47)%N eqn:E; [exact IH |].
  simpl. intros [= ->]. discriminate E.
Qed.

Lemma rstrip_slash_fixed (s : str) :
  last s <> Some 47%N -> LLMClient.rstrip_slash s = s.
Proof.
  intros H. unfold LLMClient.rstrip_slash.
  rewrite <- head_reverse in H.
  destruct (reverse s) as [| c r] eqn:E.
  - simpl. apply (f_equal reverse) in E. now rewrite reverse_involutive in E.
  - simpl. destruct (c =? 47)%N eqn:Ec.
    + apply N.eqb_eq in Ec. subst c. now contradiction H.
    + rewrite <- E. apply reverse_involutive.
Qed.

(** X15. The base URL of the client never ends with a slash, so a path
    appended to it starts with exactly one. An explicit non-empty URL
    wins over the [LLM_API_URL] variable, which wins over the default;
    an empty string counts as missing; a URL with no trailing slash is
    kept as it is. *)
Theorem base_url_has_no_trailing_slash (base_url env_url : option str) :
  last (LLMClient.base_url base_url env_url) <> Some 47%N
  /\ (forall c s, base_url = Some (c :: s) ->
        LLMClient.base_url base_url env_url = LLMClient.rstrip_slash (c :: s))
  /\ (base_url = None \/ base_url = Some [] ->
      forall c s, env_url = Some (c :: s) ->
        LLMClient.base_url base_url env_url = LLMClient.rstrip_slash (c :: s))
  /\ (base_url = None \/ base_url = Some [] ->
      env_url = None \/ env_url = Some [] ->
      LLMClient.base_url base_url env_url = lit "http://127.0.0.1:8000")
  /\ (forall u, last u <> Some 47%N -> LLMClient.rstrip_slash u = u).
Proof.
  split; [| split; [| split; [| split]]].
  - unfold LLMClient.base_url, LLMClient.rstrip_slash.
    rewrite last_reverse. apply lstrip_slash_head.
  - now intros c s ->.
  - now intros [-> | ->] c s ->.
  - now intros [-> | ->] [-> | ->].
  - apply rstrip_slash_fixed.
Qed.

Lemma read_lines_cons (loads : str -> LLMClient.Loaded) (callback : bool)
    (full_content line : str) (rest : list str) (ending : LLMClient.BodyEnd) :
  LLMClient.read_lines loads callback full_content (line :: rest) ending =
  if negb (startswith line (lit "data: "))
  then LLMClient.read_lines loads callback full_content rest ending
  else
    match loads (drop 6 line) with
    | LLMClient.JSONDecodeError =>
        LLMClient.read_lines loads callback full_content rest ending
    | LLMClient.NotAnObject err => ([LLMClient.ErrorEvent err], [])
    | LLMClient.Object data =>
        if LLMClient.d_done data
        then ([LLMClient.DoneEvent full_content (LLMClient.d_metrics data)], [])
        else
          match default [] (LLMClient.d_token data) with
          | [] => LLMClient.read_lines loads callback full_content rest ending
          | token =>
              let r :=
                LLMClient.read_lines loads callback (full_content ++ token)
                  rest ending in
              (LLMClient.TokenEvent token (full_content ++ token) :: r.1,
               if callback then token :: r.2 else r.2)
          end
    end.
Proof.
  destruct line as [| c line]; [reflexivity |].
  cbn [LLMClient.read_lines].
  destruct (negb (startswith (c :: line) (lit "data: "))); [reflexivity |].
  destruct (loads (drop 6 (c :: line))) as [| err | data]; try reflexivity.
  destruct (LLMClient.d_done data); [reflexivity |].
  destruct (default [] (LLMClient.d_token data)) as [| c' t]; [reflexivity |].
  now destruct (LLMClient.read_lines loads callback (full_content ++ c' :: t)
                  rest ending).
Qed.

(** The loop of [chat_stream] from any accumulated text. *)
Lemma read_lines_shape (loads : str -> LLMClient.Loaded)
    (callback : bool) (lines : list str) (ending : LLMClient.BodyEnd) :
  forall full_content : str,
  exists tokens final,
    LLMClient.read_lines loads callback full_content lines ending
    = (token_events full_content tokens ++ final,
       if callback then tokens else [])
    /\ Forall (fun t => t <> []) tokens
    /\ (final = [] /\ ending = LLMClient.Complete
        \/ (exists m, final = [LLMClient.DoneEvent (full_content ++ concat tokens) m])
        \/ (exists e, final = [LLMClient.ErrorEvent e])).
Proof.
  induction lines as [| line rest IH]; intros full_content.
  - exists [], (LLMClient.read_lines loads callback full_content [] ending).1.
    split; [now destruct ending, callback |]. split; [constructor |].
    destruct ending; simpl; eauto.
  - rewrite read_lines_cons.
    destruct (negb (startswith line (lit "data: "))); [apply IH |].
    destruct (loads (drop 6 line)) as [| err | data]; [apply IH | |].
    + exists [], [LLMClient.ErrorEvent err].
      split; [now destruct callback |]. split; [constructor | eauto].
    + destruct (LLMClient.d_done data).
      * exists [], [LLMClient.DoneEvent full_content (LLMClient.d_metrics data)].
        split; [now destruct callback |]. split; [constructor |].
        right. left. exists (LLMClient.d_metrics data). simpl.
        now rewrite app_nil_r.
      * destruct (default [] (LLMClient.d_token data)) as [| c t]; [apply IH |].
        destruct (IH (full_content ++ c :: t)) as (tokens & final & Hr & Hne & Hfin).
        cbv zeta. rewrite Hr.
        exists ((c :: t) :: tokens), final. simpl.
        split; [now destruct callback |].
        split; [constructor; [discriminate | exact Hne] |].
        destruct Hfin as [H | [(m & ->) | H]]; [now left | | now right; right].
        right. left. exists m. now rewrite <- app_assoc.
Qed.

(** ** From the gateway to the client *)

Lemma concat_str_concat (parts : list str) : concat_str parts = concat parts.
Proof.
  unfold concat_str. induction parts as [| p parts IH]; [reflexivity |].
  simpl. destruct parts as [| q parts]; [now rewrite app_nil_r |].
  now rewrite <- IH.
Qed.

Lemma startswith_data (x : str) :
  startswith (lit "data: " ++ x) (lit "data: ") = true
  /\ drop 6 (lit "data: " ++ x) = x.
Proof. split; [apply startswith_app | reflexivity]. Qed.

Lemma sse_lines_cons (dumps : Frame -> str) (f : Frame) (fs : list Frame) :
  sse_lines dumps (f :: fs) = (lit "data: " ++ dumps f) :: [] :: sse_lines dumps fs.
Proof. reflexivity. Qed.

Lemma read_lines_blank (loads : str -> LLMClient.Loaded) (callback : bool)
    (full_content : str) (rest : list str) (ending : LLMClient.BodyEnd) :
  LLMClient.read_lines loads callback full_content ([] :: rest) ending
  = LLMClient.read_lines loads callback full_content rest ending.
Proof. reflexivity. Qed.

Lemma read_lines_token (loads : str -> LLMClient.Loaded) (callback : bool)
    (full_content x : str) (c : codepoint) (t : str) (rest : list str)
    (ending : LLMClient.BodyEnd) :
  loads x = LLMClient.Object (data_of (TokenFrame (c :: t))) ->
  LLMClient.read_lines loads callback full_content
    ((lit "data: " ++ x) :: [] :: rest) ending
  = let r :=
      LLMClient.read_lines loads callback (full_content ++ c :: t) rest ending in
    (LLMClient.TokenEvent (c :: t) (full_content ++ c :: t) :: r.1,
     if callback then (c :: t) :: r.2 else r.2).
Proof.
  intros Hx. rewrite read_lines_cons.
  destruct (startswith_data x) as [E1 E2]. rewrite E1, E2, Hx.
  cbn.
  now destruct (LLMClient.read_lines loads callback (full_content ++ c :: t)
                  rest ending).
Qed.

Lemma read_lines_done (loads : str -> LLMClient.Loaded) (callback : bool)
    (full_content x t : str) (m : PerformanceMetrics) (rest : list str)
    (ending : LLMClient.BodyEnd) :
  loads x = LLMClient.Object (data_of (DoneFrame t m)) ->
  LLMClient.read_lines loads callback full_content
    ((lit "data: " ++ x) :: rest) ending
  = ([LLMClient.DoneEvent full_content (Some m)], []).
Proof.
  intros Hx. rewrite read_lines_cons.
  destruct (startswith_data x) as [E1 E2]. now rewrite E1, E2, Hx.
Qed.

(** The client on the lines of token frames, closed or not by a final
    frame. *)
Lemma read_lines_sse (dumps : Frame -> str) (loads : str -> LLMClient.Loaded)
    (callback : bool) (tokens : list str) (final : list Frame) :
  Forall (fun t => t <> []) tokens ->
  (forall f, f ∈ (TokenFrame <$> tokens) ++ final ->
             loads (dumps f) = LLMClient.Object (data_of f)) ->
  forall full_content : str,
    LLMClient.read_lines loads callback full_content
      (sse_lines dumps ((TokenFrame <$> tokens) ++ final)) LLMClient.Complete
    = let r :=
        LLMClient.read_lines loads callback (full_content ++ concat tokens)
          (sse_lines dumps final) LLMClient.Complete in
      (token_events full_content tokens ++ r.1,
       if callback then tokens ++ r.2 else r.2).
Proof.
  intros Hne. induction Hne as [| t tokens Ht Hne IH]; intros Hcodec full_content.
  - simpl. rewrite app_nil_r.
    destruct (LLMClient.read_lines _ _ _ _ _) as [ev calls].
    now destruct callback.
  - change ((TokenFrame <$> t :: tokens) ++ final)
      with (TokenFrame t :: ((TokenFrame <$> tokens) ++ final)).
    rewrite sse_lines_cons.
    destruct t as [| c t]; [contradiction |].
    rewrite (read_lines_token loads callback full_content _ c t)
      by (apply Hcodec; left).
    rewrite IH by (intros f Hf; apply Hcodec; now right).
    cbv zeta. cbn [fst snd token_events concat]. rewrite <- !app_assoc.
    now destruct callback.
Qed.



(** ** Helpers of the client module *)

Lemma format_message_fixed (msg : gmap string str) :
  let f := fun msg : gmap string str =>
    <[ "content" := default [] (msg !! "content") ]>
      ({[ "role" := default (lit "user") (msg !! "role") ]} : gmap string str) in
  f (f msg) = f msg.
Proof.
  intros f. unfold f.
  rewrite lookup_insert_eq. simpl.
  rewrite lookup_insert_ne by discriminate.
  rewrite lookup_singleton_eq. reflexivity.
Qed.

(** X18. [format_messages] keeps the number and order of the messages
    and gives each exactly the keys [role] and [content]: a present
    value is kept, a missing role becomes [user] and a missing content
    the empty string, and any other key is dropped. Formatting twice is
    formatting once. *)
Theorem format_messages_normalises (messages : list (gmap string str)) :
  length (LLMClient.format_messages messages) = length messages
  /\ (forall i msg,
        messages !! i = Some msg ->
        exists out,
          LLMClient.format_messages messages !! i = Some out
          /\ out !! "role" = Some (default (lit "user") (msg !! "role"))
          /\ out !! "content" = Some (default [] (msg !! "content"))
          /\ dom out = ({[ "role"; "content" ]} : gset string))
  /\ LLMClient.format_messages (LLMClient.format_messages messages)
     = LLMClient.format_messages messages.
Proof.
  unfold LLMClient.format_messages. split; [apply length_fmap |]. split.
  - intros i msg Hi. eexists. rewrite list_lookup_fmap, Hi. simpl.
    split; [reflexivity |]. split.
    + rewrite lookup_insert_ne by discriminate. apply lookup_singleton_eq.
    + split; [apply lookup_insert_eq |].
      rewrite dom_insert_L, dom_singleton_L. set_solver.
  - rewrite <- list_fmap_compose. apply list_fmap_ext.
    intros i msg _. apply format_message_fixed.
Qed.

(** X19. The token estimate is the length of the text divided by four,
    rounded down: four times the estimate is at most the length and
    misses it by less than four, a text shorter than four characters
    counts zero tokens, and the estimate of a concatenation is the sum
    of the estimates or one more. *)
Theorem token_estimate_bounds (a b : str) :
  let est := LLMClient.calculate_token_estimate in
  0 <= est a
  /\ 4 * est a <= len a < 4 * est a + 4
  /\ (est a = 0 <-> len a < 4)
  /\ est a + est b <= est (a ++ b) <= est a + est b + 1.
Proof.
  intros est. unfold est, LLMClient.calculate_token_estimate, len.
  rewrite length_app, Nat2Z.inj_add.
  pose proof (Z.div_mod (Z.of_nat (length a)) 4 ltac:(lia)) as Ha.
  pose proof (Z.mod_pos_bound (Z.of_nat (length a)) 4 ltac:(lia)) as Ba.
  pose proof (Z.div_mod (Z.of_nat (length b)) 4 ltac:(lia)) as Hb.
  pose proof (Z.mod_pos_bound (Z.of_nat (length b)) 4 ltac:(lia)) as Bb.
  pose proof (Z.div_mod (Z.of_nat (length a) + Z.of_nat (length b)) 4 ltac:(lia)) as Hab.
  pose proof (Z.mod_pos_bound (Z.of_nat (length a) + Z.of_nat (length b)) 4 ltac:(lia)) as Bab.
  pose proof (Nat2Z.is_nonneg (length a)).
  repeat split; lia.
Qed.

(** ** The Panel chat state *)

Lemma handle_events_tokens (save_chat : list Panel.ChatMessage -> option str)
    (tokens : list str) (rest : list LLMClient.Event) (slots : list Panel.Slot)
    (metrics : Panel.LastMetrics) :
  forall full_content assistant_content : str,
    Panel.handle_events save_chat (token_events full_content tokens ++ rest)
      slots assistant_content metrics
    = Panel.handle_events save_chat rest slots
        (match tokens with
         | [] => assistant_content
         | _ => full_content ++ concat tokens
         end) metrics.
Proof.
  induction tokens as [| t tokens IH]; intros full_content assistant_content;
    [reflexivity |].
  cbn [token_events app Panel.handle_events]. rewrite IH.
  destruct tokens as [| t' tokens]; simpl; [now rewrite app_nil_r |].
  now rewrite <- app_assoc.
Qed.

Lemma resolve_stored (assistant_content : str) (msgs : list Panel.ChatMessage) :
  Panel.resolve assistant_content (Panel.Stored <$> msgs) = msgs.
Proof.
  unfold Panel.resolve. rewrite <- list_fmap_compose.
  induction msgs as [| m msgs IH]; [reflexivity |]. simpl. now f_equal.
Qed.

Lemma resolve_placeholder (assistant_content : str)
    (msgs : list Panel.ChatMessage) :
  Panel.resolve assistant_content ((Panel.Stored <$> msgs) ++ [Panel.AssistantMsg])
  = msgs ++ [ {| Panel.role := lit "assistant";
                 Panel.content := assistant_content |} ].
Proof.
  unfold Panel.resolve. rewrite fmap_app.
  fold (Panel.resolve assistant_content (Panel.Stored <$> msgs)).
  now rewrite resolve_stored.
Qed.

(** The call once its guard has let it through. *)
Lemma send_message_async_runs
    (llm_client : LLMClient.Payload -> list LLMClient.Event)
    (save_chat : list Panel.ChatMessage -> option str)
    (message : str) (st : Panel.ChatState) :
  strip message <> [] ->
  Panel.is_streaming st = false ->
  Panel.send_message_async llm_client save_chat message st
  = let r :=
      Panel.handle_events save_chat (llm_client (Panel.request message st))
        ((Panel.Stored <$>
            (Panel.messages st
             ++ [ {| Panel.role := lit "user"; Panel.content := message |} ]))
         ++ [Panel.AssistantMsg]) [] (Panel.last st) in
    (Panel.after_call st (Panel.resolve r.1.1.2 r.1.1.1) r.1.2,
     r.2).
Proof.
  intros Hmsg Hidle. unfold Panel.send_message_async. rewrite Hidle.
  destruct (strip message) as [| c s]; [contradiction |]. simpl orb. cbv iota.
  now destruct (Panel.handle_events _ _ _ _ _) as [[[slots content] metrics] effects].
Qed.

Lemma concat_or_empty (tokens : list str) :
  match tokens with
  | [] => []
  | _ => [] ++ concat tokens
  end = concat tokens.
Proof. now destruct tokens. Qed.

(** The loop of [send_message_async] over the events of one client
    stream: tokens, then the final event [final] if there is one. *)
Lemma handle_client_events (save_chat : list Panel.ChatMessage -> option str)
    (tokens : list str) (final : list LLMClient.Event)
    (asked : list Panel.ChatMessage) (metrics : Panel.LastMetrics) :
  let reply := {| Panel.role := lit "assistant";
                  Panel.content := concat tokens |} in
  let r := Panel.handle_events save_chat (token_events [] tokens ++ final)
             ((Panel.Stored <$> asked) ++ [Panel.AssistantMsg]) [] metrics in
  let out := (Panel.resolve r.1.1.2 r.1.1.1, r.1.2, r.2) in
  (final = [] -> out = (asked ++ [reply], metrics, []))
  /\ (forall e, final = [LLMClient.ErrorEvent e] ->
        out = (asked, metrics, [Panel.Notify (lit "Error: " ++ e)]))
  /\ (forall text, final = [LLMClient.DoneEvent text None] ->
        out = (asked, metrics,
               [Panel.Notify (lit "Error sending message: "
                              ++ Panel.none_has_no_get)]))
  /\ (forall text m, final = [LLMClient.DoneEvent text (Some m)] ->
        save_chat (asked ++ [reply]) = None ->
        out = (asked ++ [reply], Panel.read_metrics m,
               [Panel.SaveChat (asked ++ [reply])]))
  /\ (forall text m e, final = [LLMClient.DoneEvent text (Some m)] ->
        save_chat (asked ++ [reply]) = Some e ->
        out = (asked, Panel.read_metrics m,
               [Panel.SaveChat (asked ++ [reply]);
                Panel.Notify (lit "Error sending message: " ++ e)])).
Proof.
  intros reply r out. subst out r.
  rewrite handle_events_tokens, concat_or_empty.
  repeat split.
  - intros ->. simpl. now rewrite resolve_placeholder.
  - intros e ->. simpl. now rewrite removelast_last, resolve_stored.
  - intros text ->. simpl. now rewrite removelast_last, resolve_stored.
  - intros text m -> Hsave. simpl. rewrite resolve_placeholder.
    fold reply. rewrite Hsave. simpl. now rewrite resolve_placeholder.
  - intros text m e -> Hsave. simpl. rewrite resolve_placeholder.
    fold reply. rewrite Hsave. simpl. now rewrite removelast_last, resolve_stored.
Qed.

(** X20. A turn of the Panel chat that the client ends with a [done]
    event carrying metrics: the user's message and one assistant message
    are appended to the history, the assistant message holds the
    concatenation of the streamed fragments, the metrics of the state
    are those of the event (a missing or zero value reads 0), the chat
    is saved once with the reply in it, nothing is notified, and the
    streaming flag is down again. *)
Theorem panel_turn_completes
    (llm_client : LLMClient.Payload -> list LLMClient.Event)
    (save_chat : list Panel.ChatMessage -> option str)
    (message : str) (st : Panel.ChatState)
    (tokens : list str) (text : str) (m : PerformanceMetrics) :
  let turn :=
    (Panel.messages st
     ++ [ {| Panel.role := lit "user"; Panel.content := message |} ])
    ++ [ {| Panel.role := lit "assistant"; Panel.content := concat tokens |} ] in
  strip message <> [] ->
  Panel.is_streaming st = false ->
  llm_client (Panel.request message st)
  = token_events [] tokens ++ [LLMClient.DoneEvent text (Some m)] ->
  save_chat turn = None ->
  Panel.send_message_async llm_client save_chat message st
  = (Panel.after_call st turn (Panel.read_metrics m), [Panel.SaveChat turn])
  /\ Panel.last_ttft (Panel.read_metrics m) = default 0%Q (ttft m)
  /\ Panel.last_tokens_per_sec (Panel.read_metrics m)
     = default 0%Q (output_tokens_per_second m)
  /\ Panel.last_output_tokens (Panel.read_metrics m)
     = default 0 (output_tokens m).
Proof.
  intros turn Hmsg Hidle Hclient Hsave.
  split; [| now repeat split].
  rewrite send_message_async_runs by assumption. rewrite Hclient. cbv zeta.
  destruct (handle_client_events save_chat tokens
              [LLMClient.DoneEvent text (Some m)]
              (Panel.messages st
               ++ [ {| Panel.role := lit "user"; Panel.content := message |} ])
              (Panel.last st)) as (_ & _ & _ & H & _).
  specialize (H text m eq_refl Hsave). cbv zeta in H.
  now injection H as -> -> ->.
Qed.

Lemma panel_turn_completes_witness :
  (Panel.send_message_async
     (fun _ => token_events [] [lit "Par"; lit "is"]
               ++ [LLMClient.DoneEvent (lit "Paris") (Some Panel.paris_metrics)])
     (fun _ => None) (lit "Capital of France?") Panel.greeted).1
  = Panel.after_call Panel.greeted
      (Panel.messages Panel.greeted
       ++ [ {| Panel.role := lit "user";
               Panel.content := lit "Capital of France?" |};
            {| Panel.role := lit "assistant"; Panel.content := lit "Paris" |} ])
      (Panel.read_metrics Panel.paris_metrics).
Proof.
  rewrite (proj1 (panel_turn_completes
             (fun _ => token_events [] [lit "Par"; lit "is"]
                       ++ [LLMClient.DoneEvent (lit "Paris")
                             (Some Panel.paris_metrics)])
             (fun _ => None) (lit "Capital of France?") Panel.greeted
             [lit "Par"; lit "is"] (lit "Paris") Panel.paris_metrics
             ltac:(discriminate) eq_refl eq_refl eq_refl)).
  reflexivity.
Defined.

(** X21. A turn of the Panel chat that fails. When the client's stream
    ends with an [error] event, or with a [done] event whose metrics are
    [None] (reading them raises), the assistant message under
    construction is removed together with the text streamed so far, the
    user's message stays in the history, the metrics keep their values,
    the chat is not saved and one notification is shown. When
    [save_chat] raises after a [done] event with metrics, the reply is
    removed as well, although the metrics are already those of the
    event. *)
Theorem panel_failed_turn
    (llm_client : LLMClient.Payload -> list LLMClient.Event)
    (save_chat : list Panel.ChatMessage -> option str)
    (message : str) (st : Panel.ChatState)
    (tokens : list str) (final : LLMClient.Event) :
  let asked :=
    Panel.messages st
    ++ [ {| Panel.role := lit "user"; Panel.content := message |} ] in
  let reply :=
    {| Panel.role := lit "assistant"; Panel.content := concat tokens |} in
  strip message <> [] ->
  Panel.is_streaming st = false ->
  llm_client (Panel.request message st) = token_events [] tokens ++ [final] ->
  (forall e, final = LLMClient.ErrorEvent e ->
     Panel.send_message_async llm_client save_chat message st
     = (Panel.after_call st asked (Panel.last st),
        [Panel.Notify (lit "Error: " ++ e)]))
  /\ (forall text, final = LLMClient.DoneEvent text None ->
        Panel.send_message_async llm_client save_chat message st
        = (Panel.after_call st asked (Panel.last st),
           [Panel.Notify (lit "Error sending message: "
                          ++ Panel.none_has_no_get)]))
  /\ (forall text m e, final = LLMClient.DoneEvent text (Some m) ->
        save_chat (asked ++ [reply]) = Some e ->
        Panel.send_message_async llm_client save_chat message st
        = (Panel.after_call st asked (Panel.read_metrics m),
           [Panel.SaveChat (asked ++ [reply]);
            Panel.Notify (lit "Error sending message: " ++ e)])).
Proof.
  intros asked reply Hmsg Hidle Hclient.
  rewrite send_message_async_runs by assumption. rewrite Hclient. cbv zeta.
  destruct (handle_client_events save_chat tokens [final] asked (Panel.last st))
    as (_ & Herr & Hnone & _ & Hsave).
  cbv zeta in Herr, Hnone, Hsave. fold asked.
  repeat split.
  - intros e ->. specialize (Herr e eq_refl). now injection Herr as -> -> ->.
  - intros text ->. specialize (Hnone text eq_refl).
    now injection Hnone as -> -> ->.
  - intros text m e -> He. specialize (Hsave text m e eq_refl He).
    now injection Hsave as -> -> ->.
Qed.

Lemma panel_failed_turn_witness :
  Panel.send_message_async
    (fun _ => token_events [] [lit "Par"]
              ++ [LLMClient.ErrorEvent (lit "connection lost")])
    (fun _ => None) (lit "Capital of France?") Panel.greeted
  = (Panel.after_call Panel.greeted
       (Panel.messages Panel.greeted
        ++ [ {| Panel.role := lit "user";
                Panel.content := lit "Capital of France?" |} ])
       (Panel.last Panel.greeted),
     [Panel.Notify (lit "Error: " ++ lit "connection lost")]).
Proof.
  exact (proj1 (panel_failed_turn
           (fun _ => token_events [] [lit "Par"]
                     ++ [LLMClient.ErrorEvent (lit "connection lost")])
           (fun _ => None) (lit "Capital of France?") Panel.greeted
           [lit "Par"] (LLMClient.ErrorEvent (lit "connection lost"))
           ltac:(discriminate) eq_refl eq_refl)
         (lit "connection lost") eq_refl).
Defined.

(** X22. A turn of the Panel chat whose stream ends with neither a
    [done] nor an [error] event: the text streamed so far stays in the
    history as the assistant's message (an empty message when nothing
    was streamed), while the chat is not saved, the metrics keep their
    earlier values and nothing is notified. *)
Theorem panel_stream_without_final
    (llm_client : LLMClient.Payload -> list LLMClient.Event)
    (save_chat : list Panel.ChatMessage -> option str)
    (message : str) (st : Panel.ChatState) (tokens : list str) :
  strip message <> [] ->
  Panel.is_streaming st = false ->
  llm_client (Panel.request message st) = token_events [] tokens ->
  Panel.send_message_async llm_client save_chat message st
  = (Panel.after_call st
       ((Panel.messages st
         ++ [ {| Panel.role := lit "user"; Panel.content := message |} ])
        ++ [ {| Panel.role := lit "assistant";
                Panel.content := concat tokens |} ])
       (Panel.last st),
     []).
Proof.
  intros Hmsg Hidle Hclient.
  rewrite send_message_async_runs by assumption. rewrite Hclient. cbv zeta.
  destruct (handle_client_events save_chat tokens []
              (Panel.messages st
               ++ [ {| Panel.role := lit "user"; Panel.content := message |} ])
              (Panel.last st)) as (H & _).
  specialize (H eq_refl). cbv zeta in H. rewrite app_nil_r in H.
  now injection H as -> -> ->.
Qed.

Lemma panel_stream_without_final_witness :
  Panel.send_message_async (fun _ => token_events [] [lit "Par"])
    (fun _ => None) (lit "Capital of France?") Panel.greeted
  = (Panel.after_call Panel.greeted
       ((Panel.messages Panel.greeted
         ++ [ {| Panel.role := lit "user";
                 Panel.content := lit "Capital of France?" |} ])
        ++ [ {| Panel.role := lit "assistant";
                Panel.content := concat [lit "Par"] |} ])
       (Panel.last Panel.greeted),
     []).
Proof.
  exact (panel_stream_without_final (fun _ => token_events [] [lit "Par"])
           (fun _ => None) (lit "Capital of France?") Panel.greeted
           [lit "Par"] ltac:(discriminate) eq_refl eq_refl).
Defined.

(** The events that the client makes of a whole Ollama stream of the
    gateway. *)
Lemma ollama_sse_events
    (backend : Ollama.Payload -> Ollama.StreamResult) (start_time : Q)
    (req : ChatRequest) (lines : list (Q * Ollama.Line)) (tail : Ollama.StreamEnd)
    (dumps : Frame -> str) (loads : str -> LLMClient.Loaded)
    (base_url : str) (callback : bool) :
  backend (Ollama.stream_payload req) = Ollama.Lines lines tail ->
  (forall f, f ∈ (Ollama.event_gen backend start_time req).2.1 ->
             loads (dumps f) = LLMClient.Object (data_of f)) ->
  exists final,
    (LLMClient.chat_stream loads base_url callback
       (LLMClient.Body
          (sse_lines dumps (Ollama.event_gen backend start_time req).2.1)
          LLMClient.Complete)).1
    = token_events [] (fragments lines) ++ final
    /\ (forall now obj, done_object lines = Some (now, obj) ->
          exists m,
            done_metrics (Ollama.event_gen backend start_time req).2.1 = Some m
            /\ output_tokens m
               = Ollama.count_field
                   (default (len (fragments lines)) (Ollama.o_eval_count obj))
            /\ final = [LLMClient.DoneEvent (concat (fragments lines)) (Some m)])
    /\ (done_object lines = None -> final = []).
Proof.
  intros Hb. unfold Ollama.event_gen. simpl snd. rewrite Hb.
  assert (Hne : Forall (fun t : str => t <> []) (fragments lines)).
  { apply Forall_forall. intros t Ht. now apply fragments_nonempty in Ht. }
  destruct (done_object lines) as [[now obj] |] eqn:Hdone.
  - destruct (relay_done req start_time lines tail now obj Hdone)
      as (m & -> & Hout).
    simpl fst. intros Hcodec.
    exists [LLMClient.DoneEvent (concat (fragments lines)) (Some m)].
    split; [| split; [| discriminate]].
    + unfold LLMClient.chat_stream.
      rewrite (read_lines_sse dumps loads callback (fragments lines)
                 [DoneFrame (lit "[DONE]") m] Hne Hcodec).
      cbv zeta. rewrite sse_lines_cons.
      rewrite (read_lines_done loads callback _ _ (lit "[DONE]") m)
        by (apply Hcodec, elem_of_app; right; left).
      reflexivity.
    + intros now' obj' [= <- <-]. exists m.
      unfold done_metrics. rewrite last_snoc. now repeat split.
  - rewrite (relay_no_done req start_time lines tail Hdone).
    simpl fst. intros Hcodec. exists [].
    split; [| split; [discriminate | reflexivity]].
    unfold LLMClient.chat_stream.
    rewrite <- (app_nil_r (TokenFrame <$> fragments lines)).
    rewrite (read_lines_sse dumps loads callback (fragments lines) [] Hne)
      by (now rewrite app_nil_r).
    reflexivity.
Qed.

(** X23. From the backend to the chat window. A Panel turn served by
    the Ollama gateway, when the gateway's generator returns and every
    frame arrives as one line of JSON that the client reads back, ends
    with the user's message and an assistant message holding the
    concatenation of the backend's non-empty fragments. When the
    backend's stream reaches a done object, the state takes the
    gateway's metrics, so the output count shown is the backend's
    [eval_count], or the number of fragments when it is missing, and 0
    when that is not positive, and the chat is saved; when it does not,
    the same message stays in the window but the chat is not saved, the
    metrics are those of the turn before and nothing is notified. *)
Theorem backend_text_reaches_panel
    (backend : Ollama.Payload -> Ollama.StreamResult) (start_time : Q)
    (req : ChatRequest) (lines : list (Q * Ollama.Line)) (tail : Ollama.StreamEnd)
    (dumps : Frame -> str) (loads : str -> LLMClient.Loaded) (base_url : str)
    (llm_client : LLMClient.Payload -> list LLMClient.Event)
    (save_chat : list Panel.ChatMessage -> option str)
    (message : str) (st : Panel.ChatState) :
  let gateway := Ollama.event_gen backend start_time req in
  let turn :=
    (Panel.messages st
     ++ [ {| Panel.role := lit "user"; Panel.content := message |} ])
    ++ [ {| Panel.role := lit "assistant";
            Panel.content := concat_str (fragments lines) |} ] in
  let post := Panel.send_message_async llm_client save_chat message st in
  strip message <> [] ->
  Panel.is_streaming st = false ->
  backend (Ollama.stream_payload req) = Ollama.Lines lines tail ->
  gateway.2.2 = Returned ->
  (forall f, f ∈ gateway.2.1 -> loads (dumps f) = LLMClient.Object (data_of f)) ->
  llm_client (Panel.request message st)
  = (LLMClient.chat_stream loads base_url false
       (LLMClient.Body (sse_lines dumps gateway.2.1) LLMClient.Complete)).1 ->
  save_chat turn = None ->
  Panel.messages post.1 = turn
  /\ Panel.is_streaming post.1 = false
  /\ (forall now obj, done_object lines = Some (now, obj) ->
        exists m,
          done_metrics gateway.2.1 = Some m
          /\ Panel.last post.1 = Panel.read_metrics m
          /\ Panel.last_output_tokens (Panel.last post.1)
             = default 0 (Ollama.count_field
                            (default (len (fragments lines))
                               (Ollama.o_eval_count obj)))
          /\ post.2 = [Panel.SaveChat turn])
  /\ (done_object lines = None ->
        Panel.last post.1 = Panel.last st /\ post.2 = []).
Proof.
  intros gateway turn post Hmsg Hidle Hb _ Hcodec Hclient Hsave.
  destruct (ollama_sse_events backend start_time req lines tail dumps loads
              base_url false Hb Hcodec) as (final & Hev & Hdone & Hnone).
  fold gateway in Hev, Hdone. rewrite <- Hclient in Hev.
  subst post. rewrite send_message_async_runs by assumption.
  rewrite Hev. cbv zeta.
  pose proof (handle_client_events save_chat (fragments lines) final
                (Panel.messages st
                 ++ [ {| Panel.role := lit "user"; Panel.content := message |} ])
                (Panel.last st)) as Hrun.
  cbv zeta in Hrun. rewrite <- concat_str_concat in Hrun. fold turn in Hrun.
  destruct Hrun as (Hrun0 & _ & _ & Hrun1 & _).
  destruct (done_object lines) as [[now obj] |] eqn:Hd.
  - destruct (Hdone now obj eq_refl) as (m & Hm & Hout & ->).
    specialize (Hrun1 _ m eq_refl Hsave). injection Hrun1 as -> -> ->.
    simpl. repeat split; [| discriminate | discriminate].
    intros now' obj' [= <- <-]. exists m.
    now rewrite Hout.
  - rewrite (Hnone eq_refl) in *. specialize (Hrun0 eq_refl).
    injection Hrun0 as -> -> ->.
    simpl. repeat split; discriminate.
Qed.

Lemma backend_text_reaches_panel_witness :
  Panel.messages
    (Panel.send_message_async
       (fun _ =>
          (LLMClient.chat_stream toy_loads (lit "http://127.0.0.1:8000") false
             (LLMClient.Body
                (sse_lines toy_dumps
                   (Ollama.event_gen hello_backend 0 hi_request).2.1)
                LLMClient.Complete)).1)
       (fun _ => None) (lit "Hi again") Panel.greeted).1
  = (Panel.messages Panel.greeted
     ++ [ {| Panel.role := lit "user"; Panel.content := lit "Hi again" |} ])
    ++ [ {| Panel.role := lit "assistant";
            Panel.content :=
              concat_str
                (fragments [ (1%Q, fragment "Hel"); (2%Q, fragment "lo");
                             (3%Q, done_marker (Some 3) (Some 2)) ]) |} ].
Proof.
  refine (proj1 (backend_text_reaches_panel hello_backend 0 hi_request
                   [ (1%Q, fragment "Hel"); (2%Q, fragment "lo");
                     (3%Q, done_marker (Some 3) (Some 2)) ] Ollama.Eof
                   toy_dumps toy_loads (lit "http://127.0.0.1:8000")
                   _ (fun _ => None) (lit "Hi again") Panel.greeted
                   ltac:(discriminate) eq_refl eq_refl eq_refl _ eq_refl eq_refl)).
  intros f Hf.
  repeat (apply elem_of_cons in Hf as [-> | Hf]; [reflexivity |]).
  now apply elem_of_nil in Hf.
Defined.

(** The events of the client, whatever the upstream does. *)
Lemma chat_stream_shape (loads : str -> LLMClient.Loaded) (base_url : str)
    (callback : bool) (upstream : LLMClient.Upstream) :
  exists tokens final,
    (LLMClient.chat_stream loads base_url callback upstream).1
    = token_events [] tokens ++ final
    /\ (final = []
        \/ (exists text m, final = [LLMClient.DoneEvent text m])
        \/ (exists e, final = [LLMClient.ErrorEvent e])).
Proof.
  destruct upstream as [e | e | lines ending]; simpl.
  - exists [], [LLMClient.ErrorEvent
                  (lit "Cannot connect to LLM API at " ++ base_url ++ lit ". " ++ e)].
    split; [reflexivity | eauto].
  - exists [], [LLMClient.ErrorEvent (lit "HTTP error from LLM API: " ++ e)].
    split; [reflexivity | eauto].
  - destruct (read_lines_shape loads callback lines ending [])
      as (tokens & final & -> & _ & Hfin).
    exists tokens, final. split; [reflexivity |].
    destruct Hfin as [[-> _] | [[m ->] | H]]; eauto.
Qed.

(** X24. The Panel chat never loses history to the client. Whatever the
    upstream does, a call of [send_message_async] whose events come from
    [chat_stream] leaves the streaming flag as it found it; a blank
    message, or a call while another one streams, changes nothing and
    has no effect; and any other call appends the user's message to the
    unchanged history, followed by at most one assistant message. *)
Theorem panel_keeps_history (loads : str -> LLMClient.Loaded) (base_url : str)
    (upstream : LLMClient.Payload -> LLMClient.Upstream)
    (save_chat : list Panel.ChatMessage -> option str)
    (message : str) (st : Panel.ChatState) :
  let llm_client := fun p =>
    (LLMClient.chat_stream loads base_url false (upstream p)).1 in
  let post := Panel.send_message_async llm_client save_chat message st in
  let user_msg := {| Panel.role := lit "user"; Panel.content := message |} in
  Panel.is_streaming post.1 = Panel.is_streaming st
  /\ (strip message = [] \/ Panel.is_streaming st = true -> post = (st, []))
  /\ (strip message <> [] -> Panel.is_streaming st = false ->
        Panel.messages post.1 = Panel.messages st ++ [user_msg]
        \/ exists text,
             Panel.messages post.1
             = Panel.messages st
               ++ [user_msg; {| Panel.role := lit "assistant";
                                Panel.content := text |}]).
Proof.
  intros llm_client post user_msg.
  assert (Hskip : strip message = [] \/ Panel.is_streaming st = true ->
                  post = (st, [])).
  { subst post. unfold Panel.send_message_async.
    intros [-> | ->]; [reflexivity |]. now rewrite orb_true_r. }
  assert (Hrun : strip message <> [] -> Panel.is_streaming st = false ->
                 Panel.is_streaming post.1 = false
                 /\ (Panel.messages post.1 = Panel.messages st ++ [user_msg]
                     \/ exists text,
                          Panel.messages post.1
                          = Panel.messages st
                            ++ [user_msg; {| Panel.role := lit "assistant";
                                             Panel.content := text |}])).
  { intros Hmsg Hidle. subst post user_msg.
    rewrite send_message_async_runs by assumption.
    split; [reflexivity |]. subst llm_client. cbv beta.
    destruct (chat_stream_shape loads base_url false
                (upstream (Panel.request message st)))
      as (tokens & final & -> & Hfin).
    cbv zeta. cbn [fst Panel.after_call Panel.messages].
    pose proof (handle_client_events save_chat tokens final
                  (Panel.messages st
                   ++ [ {| Panel.role := lit "user"; Panel.content := message |} ])
                  (Panel.last st)) as H.
    cbv zeta in H. destruct H as (H0 & Herr & Hnone & Hok & Hbad).
    destruct Hfin as [-> | [(text & m & ->) | (e & ->)]].
    - specialize (H0 eq_refl). injection H0 as -> _ _.
      right. eexists. now rewrite <- app_assoc.
    - destruct m as [m |].
      + destruct (save_chat ((Panel.messages st
                              ++ [ {| Panel.role := lit "user";
                                      Panel.content := message |} ])
                             ++ [ {| Panel.role := lit "assistant";
                                     Panel.content := concat tokens |} ]))
          as [e |] eqn:Hs.
        * specialize (Hbad text m e eq_refl eq_refl). injection Hbad as -> _ _.
          now left.
        * specialize (Hok text m eq_refl eq_refl). injection Hok as -> _ _.
          right. eexists. now rewrite <- app_assoc.
      + specialize (Hnone text eq_refl). injection Hnone as -> _ _. now left.
    - specialize (Herr e eq_refl). injection Herr as -> _ _. now left. }
  split; [| split; [exact Hskip |]].
  - destruct (Panel.is_streaming st) eqn:Hs.
    + now rewrite Hskip by now right.
    + destruct (strip message) as [| c s] eqn:Hm.
      * rewrite Hskip by now left. exact Hs.
      * now apply Hrun.
  - intros Hmsg Hidle. now apply Hrun.
Qed.

(** ** The Reflex chat state *)

(** X25. The Reflex chat sends a window of the conversation: the last
    ten messages of the history with the user's new message appended,
    in order, so the new message is always the last one sent and older
    messages are dropped without notice once the history holds ten. In
    thinking mode the system instruction comes first and is not counted
    in the ten, so at most eleven messages are sent. The content of the
    new message is the input as typed, not trimmed. *)
Theorem reflex_context_window (st : Reflex.ChatState) :
  let user_msg := {| Reflex.role := lit "user";
                     Reflex.content := Reflex.current_input st |} in
  let history := Reflex.messages st ++ [user_msg] in
  let sent := LLMClient.p_messages (Reflex.request st) in
  exists kept,
    sent
    = (if Reflex.thinking_mode st
       then [Reflex.api_message (lit "system")
               (lit "Think step by step and show your reasoning process.")]
       else [])
      ++ ((fun msg => Reflex.api_message (Reflex.role msg) (Reflex.content msg))
            <$> kept)
    /\ kept `suffix_of` history
    /\ length kept = Nat.min 10 (length history)
    /\ last kept = Some user_msg
    /\ (length sent <= 11)%nat.
Proof.
  intros user_msg history sent.
  exists (Reflex.last_ten history). subst sent. simpl.
  fold user_msg. fold history.
  assert (Hlen : length (Reflex.last_ten history) = Nat.min 10 (length history)).
  { unfold Reflex.last_ten. rewrite length_drop. lia. }
  split; [reflexivity |]. split; [apply suffix_drop |]. split; [exact Hlen |].
  split.
  - assert (Hn : (length history - 10 <= length (Reflex.messages st))%nat)
      by (unfold history; rewrite length_app; simpl; lia).
    pose proof (drop_app_le (Reflex.messages st) [user_msg] _ Hn) as E.
    fold history in E. unfold Reflex.last_ten. rewrite E.
    apply last_snoc.
  - unfold Reflex.api_messages. rewrite length_app, length_fmap, Hlen.
    pose proof (Nat.le_min_l 10 (length history)).
    destruct (Reflex.thinking_mode st); cbn [length]; lia.
Qed.

Lemma chunks_cons (loads : str -> LLMClient.Loaded) (x : str) (rest : list str) :
  Reflex.chunks loads ((lit "data: " ++ x) :: [] :: rest)
  = match loads x with
    | LLMClient.JSONDecodeError => Reflex.chunks loads rest
    | LLMClient.NotAnObject err => Reflex.Value err :: Reflex.chunks loads rest
    | LLMClient.Object data => Reflex.Dict data :: Reflex.chunks loads rest
    end.
Proof.
  cbn [Reflex.chunks]. destruct (startswith_data x) as [E1 E2].
  rewrite E1, E2. simpl startswith. now destruct (loads x).
Qed.

(** The Reflex client on the lines of the gateway's frames. *)
Lemma chunks_sse (dumps : Frame -> str) (loads : str -> LLMClient.Loaded)
    (frames : list Frame) :
  (forall f, f ∈ frames -> loads (dumps f) = LLMClient.Object (data_of f)) ->
  Reflex.chunks loads (sse_lines dumps frames)
  = (fun f => Reflex.Dict (data_of f)) <$> frames.
Proof.
  induction frames as [| f frames IH]; intros Hcodec; [reflexivity |].
  rewrite sse_lines_cons, chunks_cons, Hcodec by left.
  rewrite IH by (intros g Hg; apply Hcodec; now right).
  reflexivity.
Qed.

(** The loop of [send_message] over token chunks. *)
Lemma consume_tokens (tokens : list str) (rest : list Reflex.Chunk)
    (raised : option str) :
  forall st : Reflex.ChatState,
    Reflex.consume
      (((fun f => Reflex.Dict (data_of f)) <$> (TokenFrame <$> tokens)) ++ rest)
      raised st
    = Reflex.consume rest raised
        (Reflex.update st (Reflex.messages st) (Reflex.current_input st)
           (Reflex.is_streaming st)
           (Reflex.current_response st ++ concat tokens)
           (Reflex.last_metrics st) (Reflex.error_message st)).
Proof.
  induction tokens as [| t tokens IH]; intros st.
  - simpl. rewrite app_nil_r. now destruct st.
  - cbn [fmap list_fmap app Reflex.consume data_of LLMClient.d_done
         LLMClient.d_token default].
    change (list_fmap _ _ (fun f => Reflex.Dict (data_of f))
              (list_fmap _ _ TokenFrame tokens))
      with ((fun f => Reflex.Dict (data_of f)) <$> (TokenFrame <$> tokens)).
    rewrite IH. unfold Reflex.update. simpl. now rewrite <- app_assoc.
Qed.

(** X26. From the backend to the Reflex chat. When the Ollama gateway's
    generator returns and every frame arrives as one line of JSON that
    the client reads back, a stream that reaches the backend's done
    object ends the turn with the user's message and an assistant
    message holding the concatenation of the backend's non-empty
    fragments, the gateway's metrics, an empty response buffer and the
    streaming flag down. A stream that ends without a done object
    leaves the streaming flag up: the fragments stay in the response
    buffer, no assistant message is added and no error is reported. *)
Theorem backend_text_reaches_reflex
    (backend : Ollama.Payload -> Ollama.StreamResult) (start_time : Q)
    (req : ChatRequest) (lines : list (Q * Ollama.Line)) (tail : Ollama.StreamEnd)
    (dumps : Frame -> str) (loads : str -> LLMClient.Loaded)
    (upstream : LLMClient.Payload -> LLMClient.Upstream)
    (st : Reflex.ChatState) :
  let gateway := Ollama.event_gen backend start_time req in
  let sent :=
    Reflex.messages st
    ++ [ {| Reflex.role := lit "user";
            Reflex.content := Reflex.current_input st |} ] in
  let post := Reflex.send_message loads upstream st in
  strip (Reflex.current_input st) <> [] ->
  backend (Ollama.stream_payload req) = Ollama.Lines lines tail ->
  gateway.2.2 = Returned ->
  (forall f, f ∈ gateway.2.1 -> loads (dumps f) = LLMClient.Object (data_of f)) ->
  upstream (Reflex.request st)
  = LLMClient.Body (sse_lines dumps gateway.2.1) LLMClient.Complete ->
  (forall now obj, done_object lines = Some (now, obj) ->
     exists m,
       done_metrics gateway.2.1 = Some m
       /\ post
          = Reflex.update st
              (sent ++ [ {| Reflex.role := lit "assistant";
                            Reflex.content := concat_str (fragments lines) |} ])
              [] false [] (Some m) [])
  /\ (done_object lines = None ->
        post = Reflex.update st sent [] true (concat_str (fragments lines))
                 (Reflex.last_metrics st) []).
Proof.
  intros gateway sent post Hmsg Hb _ Hcodec Hup.
  subst post. unfold Reflex.send_message. rewrite Hup.
  destruct (strip (Reflex.current_input st)) as [| c s]; [contradiction |].
  cbn [Reflex.chat_stream]. rewrite (chunks_sse dumps loads _ Hcodec).
  subst gateway. unfold Ollama.event_gen. simpl snd. rewrite Hb.
  rewrite concat_str_concat.
  split.
  - intros now obj Hdone.
    destruct (relay_done req start_time lines tail now obj Hdone) as (m & -> & _).
    exists m. simpl fst. unfold done_metrics. rewrite last_snoc.
    split; [reflexivity |].
    rewrite fmap_app, consume_tokens. reflexivity.
  - intros Hdone. rewrite (relay_no_done req start_time lines tail Hdone).
    simpl fst.
    rewrite <- (app_nil_r (_ <$> (TokenFrame <$> fragments lines))).
    rewrite consume_tokens. reflexivity.
Qed.

Lemma backend_text_reaches_reflex_witness :
  Reflex.messages
    (Reflex.send_message toy_loads
       (fun _ =>
          LLMClient.Body
            (sse_lines toy_dumps
               (Ollama.event_gen truncated_backend 0 hi_request).2.1)
            LLMClient.Complete)
       Reflex.greeted)
  = Reflex.messages Reflex.greeted
    ++ [ {| Reflex.role := lit "user"; Reflex.content := lit "Hi again" |} ]
  /\ Reflex.is_streaming
       (Reflex.send_message toy_loads
          (fun _ =>
             LLMClient.Body
               (sse_lines toy_dumps
                  (Ollama.event_gen truncated_backend 0 hi_request).2.1)
               LLMClient.Complete)
          Reflex.greeted)
     = true.
Proof.
  assert (Hcodec : forall f,
            f ∈ (Ollama.event_gen truncated_backend 0 hi_request).2.1 ->
            toy_loads (toy_dumps f) = LLMClient.Object (data_of f)).
  { intros f Hf.
    repeat (apply elem_of_cons in Hf as [-> | Hf]; [reflexivity |]).
    now apply elem_of_nil in Hf. }
  rewrite (proj2 (backend_text_reaches_reflex truncated_backend 0 hi_request
                    [ (1%Q, fragment "Hel") ] Ollama.Eof toy_dumps toy_loads
                    (fun _ =>
                       LLMClient.Body
                         (sse_lines toy_dumps
                            (Ollama.event_gen truncated_backend 0 hi_request).2.1)
                         LLMClient.Complete)
                    Reflex.greeted ltac:(discriminate) eq_refl eq_refl Hcodec
                    eq_refl) eq_refl).
  split; reflexivity.
Defined.


(** ** The client's events, line by line *)

Lemma data_items_cons (loads : str -> LLMClient.Loaded) (line : str)
    (rest : list str) :
  data_items loads (line :: rest)
  = (if startswith line (lit "data: ")
     then match loads (drop 6 line) with
          | LLMClient.JSONDecodeError => []
          | item => [item]
          end
     else []) ++ data_items loads rest.
Proof.
  unfold data_items at 1. cbn [omap list_omap].
  fold (data_items loads rest).
  destruct (startswith line (lit "data: ")); [| reflexivity].
  now destruct (loads (drop 6 line)).
Qed.

(** The loop of [chat_stream] from any accumulated text, read off the
    items of the body. *)
Lemma read_lines_items (loads : str -> LLMClient.Loaded) (callback : bool)
    (lines : list str) (ending : LLMClient.BodyEnd) :
  forall full_content : str,
    LLMClient.read_lines loads callback full_content lines ending
    = (token_events full_content (streamed_tokens (data_items loads lines))
       ++ closing_events
            (full_content ++ concat (streamed_tokens (data_items loads lines)))
            (final_item (data_items loads lines)) ending,
       if callback then streamed_tokens (data_items loads lines) else []).
Proof.
  induction lines as [| line rest IH]; intros full_content.
  - simpl. destruct ending, callback; reflexivity.
  - rewrite read_lines_cons, data_items_cons.
    destruct (startswith line (lit "data: ")); cbn [negb]; [| apply IH].
    destruct (loads (drop 6 line)) as [| err | data]; cbn [app].
    + apply IH.
    + simpl. now destruct callback.
    + cbn [streamed_tokens final_item].
      destruct (LLMClient.d_done data).
      * simpl. rewrite app_nil_r. now destruct callback.
      * destruct (default [] (LLMClient.d_token data)) as [| c t]; [apply IH |].
        cbv zeta. rewrite IH. cbn [fst snd token_events concat app].
        rewrite <- !app_assoc. now destruct callback.
Qed.

Lemma streamed_tokens_nonempty (items : list LLMClient.Loaded) :
  Forall (fun t : str => t <> []) (streamed_tokens items).
Proof.
  induction items as [| [| err | data] rest IH]; simpl; try constructor.
  destruct (LLMClient.d_done data); [constructor |].
  destruct (default [] (LLMClient.d_token data)) as [| c t]; [exact IH |].
  constructor; [discriminate | exact IH].
Qed.

Lemma streamed_text_tokens (items : list LLMClient.Loaded) :
  streamed_text items = concat (streamed_tokens items).
Proof.
  induction items as [| [| err | data] rest IH]; simpl; try reflexivity.
  destruct (LLMClient.d_done data); [reflexivity |].
  destruct (default [] (LLMClient.d_token data)) as [| c t]; simpl;
    [exact IH | now rewrite IH].
Qed.

(** X16. The events of [chat_stream] are determined by the data lines
    of the body. Lines that do not start with [data: ] or whose data is
    no JSON are skipped. Every object before the first final line that
    has a non-empty token yields one token event, with that token and
    the text accumulated so far, and a callback receives each such
    token once, in order. The first object whose [done] is true ends
    the stream with one [done] event that carries the concatenation of
    the tokens and the metrics of that object; a value that is no
    object ends it with one [error] event; nothing after either is
    read. A body that ends without them gives no final event when it
    ends normally and one [error] event when the transport fails. A
    refused connection and an error status give one [error] event and
    nothing else. The generator never raises. *)
Theorem client_events_accumulate (loads : str -> LLMClient.Loaded)
    (base_url : str) (callback : bool) (upstream : LLMClient.Upstream) :
  match upstream with
  | LLMClient.ConnectError e =>
      LLMClient.chat_stream loads base_url callback upstream
      = ([LLMClient.ErrorEvent
            (lit "Cannot connect to LLM API at " ++ base_url ++ lit ". " ++ e)],
         [])
  | LLMClient.StatusError e =>
      LLMClient.chat_stream loads base_url callback upstream
      = ([LLMClient.ErrorEvent (lit "HTTP error from LLM API: " ++ e)], [])
  | LLMClient.Body lines ending =>
      let items := data_items loads lines in
      let tokens := streamed_tokens items in
      LLMClient.chat_stream loads base_url callback upstream
      = (token_events [] tokens
         ++ closing_events (concat tokens) (final_item items) ending,
         if callback then tokens else [])
      /\ Forall (fun t : str => t <> []) tokens
      /\ concat tokens = streamed_text items
  end.
Proof.
  destruct upstream as [e | e | lines ending]; [reflexivity | reflexivity |].
  cbv zeta. split; [apply read_lines_items |].
  split; [apply streamed_tokens_nonempty |].
  symmetry. apply streamed_text_tokens.
Qed.

(** ** The Reflex turn, chunk by chunk *)

Lemma chunks_items (loads : str -> LLMClient.Loaded) (lines : list str) :
  item_of <$> Reflex.chunks loads lines = data_items loads lines.
Proof.
  induction lines as [| line rest IH]; [reflexivity |].
  rewrite data_items_cons. cbn [Reflex.chunks].
  destruct (startswith line (lit "data: ")); [| exact IH].
  destruct (loads (drop 6 line)) as [| err | data]; simpl; [exact IH | |];
    now rewrite <- IH.
Qed.

(** The loop of [send_message] from any state, read off the chunks. *)
Lemma consume_items (chunks : list Reflex.Chunk) (raised : option str) :
  forall st : Reflex.ChatState,
    Reflex.consume chunks raised st
    = match final_item (item_of <$> chunks) with
      | Some (LLMClient.Object data) =>
          Reflex.update st
            (Reflex.messages st
             ++ [ {| Reflex.role := lit "assistant";
                     Reflex.content :=
                       Reflex.current_response st
                       ++ streamed_text (item_of <$> chunks) |} ])
            (Reflex.current_input st) false [] (LLMClient.d_metrics data)
            (Reflex.error_message st)
      | Some (LLMClient.NotAnObject err) => Reflex.on_exception err st
      | _ =>
          match raised with
          | Some e => Reflex.on_exception e st
          | None =>
              Reflex.update st (Reflex.messages st) (Reflex.current_input st)
                (Reflex.is_streaming st)
                (Reflex.current_response st
                 ++ streamed_text (item_of <$> chunks))
                (Reflex.last_metrics st) (Reflex.error_message st)
          end
      end.
Proof.
  induction chunks as [| [err | data] rest IH]; intros st.
  - simpl. destruct raised; [reflexivity |].
    rewrite app_nil_r. now destruct st.
  - reflexivity.
  - cbn [Reflex.consume fmap list_fmap item_of final_item streamed_text].
    change (list_fmap _ _ item_of rest) with (item_of <$> rest).
    destruct (LLMClient.d_done data).
    + now rewrite app_nil_r.
    + rewrite IH.
      destruct (final_item (item_of <$> rest)) as [[| err | d] |];
        try destruct raised;
        unfold Reflex.update, Reflex.on_exception; simpl;
        rewrite <- ?app_assoc; reflexivity.
Qed.

(** X27. A turn of the Reflex chat is determined by the chunks of the
    client, whatever the upstream does; in every case the user's
    message has been appended to the unchanged history and the input
    field is empty. The first chunk whose [done] is true adds one
    assistant message holding the tokens of the chunks before it,
    joined, takes the metrics of that chunk and lowers the streaming
    flag. A chunk that is no JSON object before any such chunk, or an
    exception of the transport after the chunks, sets the error message,
    drops the text received so far and lowers the flag. A stream that
    ends with neither leaves the flag up and the text in the response
    buffer, which happens only when the body ends normally. The chunks
    are what the data lines of the body load to; a refused connection
    and an error status give no chunk and the error. An input that is
    blank after trimming changes nothing. *)
Theorem reflex_turn_ends (loads : str -> LLMClient.Loaded)
    (upstream : LLMClient.Payload -> LLMClient.Upstream)
    (st : Reflex.ChatState) :
  let sent :=
    Reflex.messages st
    ++ [ {| Reflex.role := lit "user";
            Reflex.content := Reflex.current_input st |} ] in
  let post := Reflex.send_message loads upstream st in
  let stream := Reflex.chat_stream loads (upstream (Reflex.request st)) in
  let items := item_of <$> stream.1 in
  (strip (Reflex.current_input st) = [] -> post = st)
  /\ (strip (Reflex.current_input st) <> [] ->
      post
      = match final_item items with
        | Some (LLMClient.Object data) =>
            Reflex.update st
              (sent ++ [ {| Reflex.role := lit "assistant";
                            Reflex.content := streamed_text items |} ])
              [] false [] (LLMClient.d_metrics data) []
        | Some (LLMClient.NotAnObject err) =>
            Reflex.update st sent [] false [] (Reflex.last_metrics st)
              (lit "Error: " ++ err)
        | _ =>
            match stream.2 with
            | Some e =>
                Reflex.update st sent [] false [] (Reflex.last_metrics st)
                  (lit "Error: " ++ e)
            | None =>
                Reflex.update st sent [] true (streamed_text items)
                  (Reflex.last_metrics st) []
            end
        end)
  /\ match upstream (Reflex.request st) with
     | LLMClient.ConnectError e | LLMClient.StatusError e =>
         stream = ([], Some e)
     | LLMClient.Body lines ending =>
         items = data_items loads lines
         /\ (stream.2 = None <-> ending = LLMClient.Complete)
     end.
Proof.
  intros sent post stream items. subst post. unfold Reflex.send_message.
  split; [now intros -> |]. split.
  - intros Hmsg.
    destruct (strip (Reflex.current_input st)) as [| c s]; [contradiction |].
    subst items. fold stream.
    destruct stream as [chunks raised]. simpl fst. simpl snd.
    rewrite consume_items.
    destruct (final_item (item_of <$> chunks)) as [[| err | d] |];
      try destruct raised; reflexivity.
  - subst items stream. unfold Reflex.chat_stream.
    destruct (upstream (Reflex.request st)) as [e | e | lines ending];
      [reflexivity | reflexivity |].
    simpl fst. simpl snd. split; [apply chunks_items |].
    destruct ending; split; intros H; try reflexivity; discriminate.
Qed.

(** ** Binary64 rounding *)

Lemma digits2_pos_bounds (p : positive) :
  2 ^ (Zpos (digits2_pos p) - 1) <= Zpos p < 2 ^ Zpos (digits2_pos p).
Proof.
  induction p as [p IH | p IH |]; cbn [digits2_pos].
  - rewrite Pos2Z.inj_succ.
    replace (Z.succ (Zpos (digits2_pos p)) - 1) with (Z.succ (Zpos (digits2_pos p) - 1)) by lia.
    rewrite !Z.pow_succ_r by lia. lia.
  - rewrite Pos2Z.inj_succ.
    replace (Z.succ (Zpos (digits2_pos p)) - 1) with (Z.succ (Zpos (digits2_pos p) - 1)) by lia.
    rewrite !Z.pow_succ_r by lia. lia.
  - simpl. lia.
Qed.

Lemma Zdigits2_bounds (m : Z) :
  0 < m -> 2 ^ (Zdigits2 m - 1) <= m < 2 ^ Zdigits2 m.
Proof.
  destruct m as [| p | p]; try lia. intros _. apply digits2_pos_bounds.
Qed.

Lemma Zdigits2_pos (m : Z) : 0 < m -> 0 < Zdigits2 m.
Proof. destruct m; simpl; lia. Qed.

Lemma Zdigits2_le (m k : Z) : 0 < m -> m < 2 ^ k -> Zdigits2 m <= k.
Proof.
  intros Hm Hk. pose proof (Zdigits2_bounds m Hm) as [Hlo _].
  destruct (Z_le_gt_dec (Zdigits2 m) k) as [H | H]; [exact H | exfalso].
  assert (0 <= k).
  { destruct (Z_le_gt_dec 0 k); [assumption |].
    rewrite Z.pow_neg_r in Hk by lia. lia. }
  assert (2 ^ k <= 2 ^ (Zdigits2 m - 1)) by (apply Z.pow_le_mono_r; lia).
  lia.
Qed.

Lemma Zdigits2_ge (m k : Z) : 0 < m -> 2 ^ (k - 1) <= m -> k <= Zdigits2 m.
Proof.
  intros Hm Hk. pose proof (Zdigits2_bounds m Hm) as [_ Hhi].
  pose proof (Zdigits2_pos m Hm) as Hd.
  destruct (Z_le_gt_dec k (Zdigits2 m)) as [H | H]; [exact H | exfalso].
  assert (2 ^ Zdigits2 m <= 2 ^ (k - 1)) by (apply Z.pow_le_mono_r; lia).
  lia.
Qed.

Lemma Zdigits2_mono (a b : Z) : 0 < a -> a <= b -> Zdigits2 a <= Zdigits2 b.
Proof.
  intros Ha Hab. apply Zdigits2_le; [exact Ha |].
  pose proof (Zdigits2_bounds b ltac:(lia)). lia.
Qed.

Lemma Zdigits2_succ (a : Z) : 0 < a -> Zdigits2 (a + 1) <= Zdigits2 a + 1.
Proof.
  intros Ha. apply Zdigits2_le; [lia |].
  pose proof (Zdigits2_bounds a Ha) as [_ H].
  pose proof (Zdigits2_pos a Ha).
  replace (Zdigits2 a + 1) with (Z.succ (Zdigits2 a)) by lia.
  rewrite Z.pow_succ_r by lia. lia.
Qed.

(** Dropping [n] low bits of a number of more than [n] bits. *)
Lemma Zdigits2_shift (m n : Z) :
  0 < m -> 0 <= n < Zdigits2 m ->
  0 < m / 2 ^ n /\ Zdigits2 (m / 2 ^ n) = Zdigits2 m - n.
Proof.
  intros Hm Hn. pose proof (Zdigits2_bounds m Hm) as [Hlo Hhi].
  assert (Hp : 0 < 2 ^ n) by (apply Z.pow_pos_nonneg; lia).
  assert (Hlow : 2 ^ (Zdigits2 m - n - 1) <= m / 2 ^ n).
  { apply Z.div_le_lower_bound; [exact Hp |].
    rewrite <- Z.pow_add_r by lia.
    replace (n + (Zdigits2 m - n - 1)) with (Zdigits2 m - 1) by lia. exact Hlo. }
  assert (Hup : m / 2 ^ n < 2 ^ (Zdigits2 m - n)).
  { apply Z.div_lt_upper_bound; [exact Hp |].
    rewrite <- Z.pow_add_r by lia.
    replace (n + (Zdigits2 m - n)) with (Zdigits2 m) by lia. exact Hhi. }
  assert (Hpos : 0 < m / 2 ^ n).
  { assert (0 < 2 ^ (Zdigits2 m - n - 1)) by (apply Z.pow_pos_nonneg; lia). lia. }
  split; [exact Hpos |].
  apply Z.le_antisymm.
  - now apply Zdigits2_le.
  - now apply Zdigits2_ge.
Qed.

Lemma shr_1_div (mrs : shr_record) :
  0 <= shr_m mrs -> shr_m (shr_1 mrs) = shr_m mrs / 2.
Proof.
  destruct mrs as [m r s]. cbn [shr_m].
  destruct m as [| [p | p |] | p]; intros H; try lia; cbn [shr_1 shr_m].
  - reflexivity.
  - rewrite Pos2Z.inj_xI.
    apply (Z.div_unique_pos _ _ _ 1); lia.
  - rewrite Pos2Z.inj_xO.
    apply (Z.div_unique_pos _ _ _ 0); lia.
  - reflexivity.
Qed.

Lemma pow2_xO (p : positive) : 2 ^ Zpos p~0 = 2 ^ Zpos p * 2 ^ Zpos p.
Proof. rewrite Pos2Z.inj_xO, <- Z.pow_add_r by lia. f_equal. lia. Qed.

Lemma pow2_xI (p : positive) : 2 ^ Zpos p~1 = 2 * (2 ^ Zpos p * 2 ^ Zpos p).
Proof.
  rewrite Pos2Z.inj_xI, <- Z.pow_add_r by lia.
  replace (2 * Zpos p + 1) with (Z.succ (Zpos p + Zpos p)) by lia.
  now rewrite Z.pow_succ_r by lia.
Qed.

Lemma iter_shr_1_div (p : positive) :
  forall mrs : shr_record,
    0 <= shr_m mrs ->
    shr_m (SpecFloat.iter_pos shr_1 p mrs) = shr_m mrs / 2 ^ Zpos p.
Proof.
  induction p as [p IH | p IH |]; intros mrs H; cbn [SpecFloat.iter_pos].
  - assert (Hp : 0 < 2 ^ Zpos p) by (apply Z.pow_pos_nonneg; lia).
    assert (H1 : 0 <= shr_m (shr_1 mrs)).
    { rewrite shr_1_div by exact H. apply Z.div_pos; lia. }
    assert (H2 : 0 <= shr_m (SpecFloat.iter_pos shr_1 p (shr_1 mrs))).
    { rewrite IH by exact H1. now apply Z.div_pos. }
    rewrite IH by exact H2. rewrite IH by exact H1.
    rewrite shr_1_div by exact H.
    rewrite !Z.div_div by lia. now rewrite pow2_xI.
  - assert (Hp : 0 < 2 ^ Zpos p) by (apply Z.pow_pos_nonneg; lia).
    assert (H2 : 0 <= shr_m (SpecFloat.iter_pos shr_1 p mrs)).
    { rewrite IH by exact H. now apply Z.div_pos. }
    rewrite IH by exact H2. rewrite IH by exact H.
    rewrite !Z.div_div by lia. now rewrite pow2_xO.
  - rewrite shr_1_div by exact H. reflexivity.
Qed.

Lemma shr_record_of_loc_m (m : Z) (l : location) :
  shr_m (shr_record_of_loc m l) = m.
Proof. destruct l as [| []]; reflexivity. Qed.

(** The exponent that the format gives to a number of magnitude
    [2^(d-1) .. 2^d]. *)
Lemma fexp64 (d : Z) : fexp Binary64.prec Binary64.emax d = Z.max (d - 53) (-1074).
Proof. reflexivity. Qed.

(** The mantissa and exponent after [shr_fexp]. *)
Lemma shr_fexp_spec (m e : Z) (l : location) :
  0 <= m ->
  let n := fexp Binary64.prec Binary64.emax (Zdigits2 m + e) - e in
  let r := shr_fexp Binary64.prec Binary64.emax m e l in
  (n <= 0 -> shr_m r.1 = m /\ r.2 = e)
  /\ (0 < n -> shr_m r.1 = m / 2 ^ n /\ r.2 = e + n).
Proof.
  intros Hm n r. subst r. unfold shr_fexp. fold n. unfold shr.
  destruct n as [| p | p]; simpl fst; simpl snd.
  - split; [| lia]. intros _. now rewrite shr_record_of_loc_m.
  - split; [lia |]. intros _.
    rewrite iter_shr_1_div by (rewrite shr_record_of_loc_m; exact Hm).
    now rewrite shr_record_of_loc_m.
  - split; [| lia]. intros _. now rewrite shr_record_of_loc_m.
Qed.

Lemma round_nearest_even_bounds (m : Z) (l : location) :
  m <= round_nearest_even m l <= m + 1.
Proof.
  unfold round_nearest_even. destruct l as [| []]; try lia.
  destruct (Z.even m); lia.
Qed.

(** [shr_fexp] on a positive mantissa whose magnitude is above the
    smallest subnormal: the mantissa stays positive and the magnitude is
    kept. *)
Lemma shr_fexp_pos (m e : Z) (l : location) :
  0 < m -> -1074 < Zdigits2 m + e ->
  let r := shr_fexp Binary64.prec Binary64.emax m e l in
  0 < shr_m r.1
  /\ Zdigits2 (shr_m r.1) + r.2 = Zdigits2 m + e
  /\ (r.2 = e \/ r.2 = fexp Binary64.prec Binary64.emax (Zdigits2 m + e)).
Proof.
  intros Hm HD r.
  destruct (shr_fexp_spec m e l ltac:(lia)) as [H0 H1]. fold r in H0, H1.
  set (n := fexp Binary64.prec Binary64.emax (Zdigits2 m + e) - e) in *.
  destruct (Z_le_gt_dec n 0) as [Hn | Hn].
  - destruct (H0 Hn) as [-> ->]. repeat split; [exact Hm | now left].
  - destruct (H1 ltac:(lia)) as [-> ->].
    assert (Hlt : n < Zdigits2 m).
    { subst n. rewrite fexp64. lia. }
    destruct (Zdigits2_shift m n Hm ltac:(lia)) as [Hpos Hd].
    repeat split; [exact Hpos | lia | right; subst n; lia].
Qed.

(** The result of rounding a positive mantissa whose magnitude is above
    the smallest subnormal is a finite number of at least that
    magnitude, or an infinity: never a zero, never NaN. It is an
    infinity only when the magnitude or the exponent is out of range. *)
Lemma binary_round_aux_pos (s : bool) (m e : Z) (l : location) :
  0 < m -> -1074 < Zdigits2 m + e ->
  (binary_round_aux Binary64.prec Binary64.emax s m e l = S754_infinity s
   /\ (1023 < Zdigits2 m + e \/ 971 < e))
  \/ exists m' e',
       binary_round_aux Binary64.prec Binary64.emax s m e l = S754_finite s m' e'
       /\ Zdigits2 m + e <= Zpos (digits2_pos m') + e'.
Proof.
  intros Hm HD. unfold binary_round_aux.
  destruct (shr_fexp_pos m e l Hm HD) as (H1 & H2 & H3).
  destruct (shr_fexp Binary64.prec Binary64.emax m e l) as [mrs1 e1].
  simpl fst in *. simpl snd in *.
  pose proof (round_nearest_even_bounds (shr_m mrs1) (loc_of_shr_record mrs1)) as Hr.
  set (m2 := round_nearest_even (shr_m mrs1) (loc_of_shr_record mrs1)) in *.
  assert (Hm2 : 0 < m2) by lia.
  assert (Hd2 : Zdigits2 (shr_m mrs1) <= Zdigits2 m2 <= Zdigits2 (shr_m mrs1) + 1).
  { split; [apply Zdigits2_mono; lia |].
    destruct (Z.eq_dec m2 (shr_m mrs1)) as [-> | Hne]; [lia |].
    replace m2 with (shr_m mrs1 + 1) by lia. now apply Zdigits2_succ. }
  destruct (shr_fexp_pos m2 e1 loc_Exact Hm2 ltac:(lia)) as (K1 & K2 & K3).
  destruct (shr_fexp Binary64.prec Binary64.emax m2 e1 loc_Exact) as [mrs2 e2].
  simpl fst in *. simpl snd in *.
  destruct (shr_m mrs2) as [| m3 | m3] eqn:E3; [lia | | lia].
  change (Z.sub Binary64.emax Binary64.prec) with 971.
  change (Zdigits2 (Zpos m3)) with (Zpos (digits2_pos m3)) in K2.
  destruct (Z.leb e2 971) eqn:Efit.
  - right. exists m3, e2. split; [reflexivity | lia].
  - left. split; [reflexivity |]. apply Z.leb_gt in Efit.
    rewrite !fexp64 in *. lia.
Qed.

(** Rounding a mantissa that is not negative gives a zero, a finite
    number or an infinity of the given sign. *)
Lemma binary_round_aux_nonneg (s : bool) (m e : Z) (l : location) :
  0 <= m ->
  match binary_round_aux Binary64.prec Binary64.emax s m e l with
  | S754_zero s' | S754_infinity s' | S754_finite s' _ _ => s' = s
  | S754_nan => False
  end.
Proof.
  intros Hm. unfold binary_round_aux.
  destruct (shr_fexp_spec m e l Hm) as [H0 H1].
  destruct (shr_fexp Binary64.prec Binary64.emax m e l) as [mrs1 e1].
  simpl fst in *. simpl snd in *.
  assert (Hm1 : 0 <= shr_m mrs1).
  { destruct (Z_le_gt_dec (fexp Binary64.prec Binary64.emax (Zdigits2 m + e) - e) 0) as [Hn | Hn].
    - destruct (H0 Hn) as [-> _]. exact Hm.
    - destruct (H1 ltac:(lia)) as [-> _]. apply Z.div_pos; [exact Hm |].
      apply Z.pow_pos_nonneg; lia. }
  pose proof (round_nearest_even_bounds (shr_m mrs1) (loc_of_shr_record mrs1)) as Hr.
  set (m2 := round_nearest_even (shr_m mrs1) (loc_of_shr_record mrs1)) in *.
  destruct (shr_fexp_spec m2 e1 loc_Exact ltac:(lia)) as [K0 K1].
  destruct (shr_fexp Binary64.prec Binary64.emax m2 e1 loc_Exact) as [mrs2 e2].
  simpl fst in *. simpl snd in *.
  assert (Hm3 : 0 <= shr_m mrs2).
  { destruct (Z_le_gt_dec (fexp Binary64.prec Binary64.emax (Zdigits2 m2 + e1) - e1) 0) as [Hn | Hn].
    - destruct (K0 Hn) as [-> _]. lia.
    - destruct (K1 ltac:(lia)) as [-> _]. apply Z.div_pos; [lia |].
      apply Z.pow_pos_nonneg; lia. }
  destruct (shr_m mrs2) as [| m3 | m3]; [reflexivity | | lia].
  now destruct (Z.leb e2 _).
Qed.

(** ** Python's number operations *)

Lemma finite_gt0 (x : Binary64.float) :
  Binary64.finite x = true -> Binary64.gt0 x = true ->
  exists m e, x = S754_finite false m e /\ Zpos (digits2_pos m) + e <= 1024.
Proof.
  destruct x as [s | s | | s m e]; try discriminate.
  unfold Binary64.finite, bounded, canonical_mantissa. intros Hb Hpos.
  destruct s; [discriminate |].
  apply andb_prop in Hb as [Hc He].
  apply Z.eqb_eq in Hc. apply Z.leb_le in He.
  change (Z.sub Binary64.emax Binary64.prec) with 971 in He.
  rewrite fexp64 in Hc. exists m, e. split; [reflexivity | lia].
Qed.

Lemma digits2_pos_iter_xO (p d : positive) :
  Zpos (digits2_pos (Pos.iter xO p d)) = Zpos (digits2_pos p) + Zpos d.
Proof.
  induction d as [| d IH] using Pos.peano_ind.
  - simpl. lia.
  - rewrite Pos.iter_succ. cbn [digits2_pos]. lia.
Qed.

Lemma shl_align_digits (p : positive) (e e' : Z) :
  Zpos (digits2_pos (shl_align p e e').1) + (shl_align p e e').2
  = Zpos (digits2_pos p) + e
  /\ (shl_align p e e').2 <= e.
Proof.
  unfold shl_align. destruct (e' - e) as [| d | d] eqn:E; simpl; try lia.
  rewrite digits2_pos_iter_xO. lia.
Qed.

(** An [int] that is not zero converts to a float that is not zero,
    or the conversion raises. *)
Lemma binary_round_pos (s : bool) (p : positive) :
  (binary_round Binary64.prec Binary64.emax s p 0 = S754_infinity s
   /\ 1023 < Zpos (digits2_pos p))
  \/ exists m e,
       binary_round Binary64.prec Binary64.emax s p 0 = S754_finite s m e
       /\ 1 <= Zpos (digits2_pos m) + e.
Proof.
  unfold binary_round.
  destruct (shl_align_digits p 0
              (fexp Binary64.prec Binary64.emax (Zpos (digits2_pos p) + 0)))
    as [Hd He].
  destruct (shl_align p 0 _) as [mz ez]. simpl fst in *. simpl snd in *.
  destruct (binary_round_aux_pos s (Zpos mz) ez loc_Exact ltac:(lia))
    as [[-> Hbig] | (m & e & -> & Hm)].
  - simpl Zdigits2. lia.
  - left. split; [reflexivity |]. simpl Zdigits2 in Hbig. lia.
  - right. exists m, e. split; [reflexivity |]. simpl Zdigits2 in Hm. lia.
Qed.

Lemma of_int_pos (n : Z) (x : Binary64.float) :
  0 < n -> Binary64.of_int n = Binary64.Ok x ->
  exists m e, x = S754_finite false m e /\ 1 <= Zpos (digits2_pos m) + e.
Proof.
  destruct n as [| p | p]; try lia. intros _.
  unfold Binary64.of_int, binary_normalize.
  destruct (binary_round_pos false p) as [[-> _] | (m & e & -> & Hm)];
    [discriminate |].
  intros [= <-]. now exists m, e.
Qed.

(** An [int] below [2^1023] in magnitude converts. *)
Lemma of_int_total (n : Z) :
  Z.abs n < 2 ^ 1023 -> exists x, Binary64.of_int n = Binary64.Ok x.
Proof.
  intros Hn. unfold Binary64.of_int, binary_normalize.
  destruct n as [| p | p]; [now eexists | |].
  - destruct (binary_round_pos false p) as [[_ Hbig] | (m & e & -> & _)];
      [| now eexists].
    assert (Zdigits2 (Zpos p) <= 1023) by (apply Zdigits2_le; lia).
    simpl Zdigits2 in *. lia.
  - destruct (binary_round_pos true p) as [[_ Hbig] | (m & e & -> & _)];
      [| now eexists].
    assert (Zdigits2 (Zpos p) <= 1023) by (apply Zdigits2_le; lia).
    simpl Zdigits2 in *. lia.
Qed.

(** The quotient that the division hands to the rounding. *)
Lemma SFdiv_core_binary_spec (m1 e1 m2 e2 : Z) :
  0 < m1 -> 0 < m2 ->
  let E := (Zdigits2 m1 + e1) - (Zdigits2 m2 + e2) in
  let r := SFdiv_core_binary Binary64.prec Binary64.emax m1 e1 m2 e2 in
  -1074 < E ->
  0 < r.1.1
  /\ E <= Zdigits2 r.1.1 + r.1.2 <= E + 1
  /\ r.1.2 <= e1 - e2.
Proof.
  intros Hm1 Hm2 E r HE. subst r. unfold SFdiv_core_binary.
  fold E. rewrite fexp64.
  set (e' := Z.min (Z.max (E - 53) (-1074)) (e1 - e2)).
  set (s := e1 - e2 - e').
  assert (Hs : 0 <= s) by (subst s e'; lia).
  set (m' := match s with Zpos _ => Z.shiftl m1 s | 0 => m1 | Zneg _ => 0 end).
  assert (Hm' : m' = m1 * 2 ^ s).
  { subst m'. destruct s as [| p | p] eqn:Es; [simpl; lia | | lia].
    now rewrite Z.shiftl_mul_pow2 by lia. }
  pose proof (Z_div_mod m' m2 ltac:(lia)) as Hdm.
  assert (Hq : (Z.div_eucl m' m2).1 = m' / m2) by reflexivity.
  destruct (Z.div_eucl m' m2) as [q r]. simpl fst in *. simpl snd.
  pose proof (Zdigits2_bounds m1 Hm1) as [Hlo1 Hhi1].
  pose proof (Zdigits2_bounds m2 Hm2) as [Hlo2 Hhi2].
  pose proof (Zdigits2_pos m1 Hm1) as Hd1.
  pose proof (Zdigits2_pos m2 Hm2) as Hd2.
  set (d1 := Zdigits2 m1) in *. set (d2 := Zdigits2 m2) in *.
  assert (Hp : 0 < 2 ^ s) by (apply Z.pow_pos_nonneg; lia).
  set (k := d1 - 1 + s - d2).
  assert (Hk : 0 <= k) by (subst k s e' E; lia).
  assert (Hlow : 2 ^ k <= q).
  { rewrite Hq. apply Z.div_le_lower_bound; [lia |].
    assert (m2 * 2 ^ k <= 2 ^ d2 * 2 ^ k).
    { apply Z.mul_le_mono_nonneg_r; [apply Z.pow_nonneg; lia | lia]. }
    assert (2 ^ d2 * 2 ^ k = 2 ^ (d1 - 1) * 2 ^ s).
    { rewrite <- !Z.pow_add_r by lia. f_equal. subst k. lia. }
    assert (2 ^ (d1 - 1) * 2 ^ s <= m1 * 2 ^ s).
    { apply Z.mul_le_mono_nonneg_r; lia. }
    lia. }
  assert (Hup : q < 2 ^ (k + 2)).
  { rewrite Hq. apply Z.div_lt_upper_bound; [lia |].
    assert (m1 * 2 ^ s < 2 ^ d1 * 2 ^ s).
    { apply Z.mul_lt_mono_pos_r; lia. }
    assert (2 ^ d1 * 2 ^ s = 2 ^ (d2 - 1) * 2 ^ (k + 2)).
    { rewrite <- !Z.pow_add_r by lia. f_equal. subst k. lia. }
    assert (2 ^ (d2 - 1) * 2 ^ (k + 2) <= m2 * 2 ^ (k + 2)).
    { apply Z.mul_le_mono_nonneg_r; [apply Z.pow_nonneg; lia | lia]. }
    lia. }
  assert (H2k : 0 < 2 ^ k) by (apply Z.pow_pos_nonneg; lia).
  assert (Hqpos : 0 < q) by lia.
  split; [exact Hqpos |].
  assert (k + 1 <= Zdigits2 q).
  { apply Zdigits2_ge; [exact Hqpos |]. now replace (k + 1 - 1) with k by lia. }
  assert (Zdigits2 q <= k + 2) by (apply Zdigits2_le; assumption).
  subst k s. split; [| subst e'; lia]. lia.
Qed.

(** A positive float divided by a positive finite float is a positive
    float or an infinity: never a zero, never NaN. *)
Lemma div_pos_finite (m1 m2 : positive) (e1 e2 : Z) :
  1 <= Zpos (digits2_pos m1) + e1 ->
  Zpos (digits2_pos m2) + e2 <= 1024 ->
  Binary64.div (S754_finite false m1 e1) (S754_finite false m2 e2)
  = S754_infinity false
  \/ exists m e,
       Binary64.div (S754_finite false m1 e1) (S754_finite false m2 e2)
       = S754_finite false m e.
Proof.
  intros H1 H2. unfold Binary64.div, SFdiv.
  destruct (SFdiv_core_binary_spec (Zpos m1) e1 (Zpos m2) e2
              ltac:(lia) ltac:(lia)) as (Hq & Hd & _);
    [simpl Zdigits2; lia |].
  simpl Zdigits2 in Hd.
  destruct (SFdiv_core_binary Binary64.prec Binary64.emax (Zpos m1) e1 (Zpos m2) e2)
    as [[q e'] l].
  simpl fst in *. simpl snd in *.
  destruct (binary_round_aux_pos (xorb false false) q e' l Hq ltac:(lia))
    as [[-> _] | (m & e & -> & _)]; [now left | right; now exists m, e].
Qed.

(** The nearest double to a quotient of positive integers carries the
    given sign and is no NaN. *)
Lemma nearest_sign (s : bool) (a b : Z) :
  0 <= a -> 0 < b ->
  match Binary64.nearest s a b with
  | S754_zero s' | S754_infinity s' | S754_finite s' _ _ => s' = s
  | S754_nan => False
  end.
Proof.
  intros Ha Hb. unfold Binary64.nearest, SFdiv_core_binary.
  match goal with
  | |- context [Z.div_eucl ?x ?y] =>
      pose proof (Z_div_mod x y ltac:(lia)) as Hdm;
      assert (Hq : (Z.div_eucl x y).1 = x / y) by reflexivity;
      assert (Hx : 0 <= x);
      [| destruct (Z.div_eucl x y) as [q r] ]
  end.
  { destruct (_ - _ - _) as [| p | p]; [exact Ha | | lia].
    apply Z.shiftl_nonneg. exact Ha. }
  simpl fst in Hq. apply binary_round_aux_nonneg.
  rewrite Hq. apply Z.div_pos; lia.
Qed.

Lemma round_not_nan (x : Binary64.float) (ndigits : nat) :
  Binary64.is_nan x = false -> Binary64.is_nan (Binary64.round x ndigits) = false.
Proof.
  destruct x as [s | s | | s m e]; try (intros; reflexivity || discriminate).
  intros _. unfold Binary64.round.
  destruct (round_half_even _) as [| n | n]; try reflexivity.
  pose proof (nearest_sign s (Zpos n) (10 ^ Z.of_nat ndigits) ltac:(lia)
                ltac:(apply Z.pow_pos_nonneg; lia)) as H.
  now destruct (Binary64.nearest _ _ _).
Qed.

(** An integer count over a positive finite time: the division is
    performed when the count converts, and the quotient is a positive
    float or [inf]. *)
Lemma int_truediv_float_pos (n : Z) (y a : Binary64.float) :
  0 < n -> Binary64.finite y = true -> Binary64.gt0 y = true ->
  Binary64.of_int n = Binary64.Ok a ->
  Binary64.int_truediv_float n y = Binary64.Ok (Binary64.div a y)
  /\ Binary64.truthy (Binary64.div a y) = true
  /\ Binary64.is_nan (Binary64.div a y) = false
  /\ Binary64.gt0 (Binary64.div a y) = true.
Proof.
  intros Hn Hfin Hpos Ha.
  destruct (finite_gt0 y Hfin Hpos) as (m2 & e2 & -> & H2).
  destruct (of_int_pos n a Hn Ha) as (m1 & e1 & -> & H1).
  unfold Binary64.int_truediv_float. rewrite Ha. simpl Binary64.bind.
  unfold Binary64.truediv. simpl Binary64.truthy at 1. cbv iota.
  split; [reflexivity |].
  destruct (div_pos_finite m1 m2 e1 e2 H1 H2) as [-> | (m & e & ->)];
    repeat split.
Qed.

(** ** The binary64 handlers *)

Lemma gt0_truthy (y : Binary64.float) :
  Binary64.gt0 y = true -> Binary64.truthy y = true.
Proof. destruct y as [s | s | | s m e]; try reflexivity. discriminate. Qed.

Lemma of_int_truthy (n : Z) (x : Binary64.float) :
  0 < n -> Binary64.of_int n = Binary64.Ok x -> Binary64.truthy x = true.
Proof.
  intros Hn Hx. now destruct (of_int_pos n x Hn Hx) as (m & e & -> & _).
Qed.

(** The overall rate of both handlers, once the latency is positive. *)
Lemma overall_rate64 (total_latency : Binary64.float) (total_tokens : Z)
    (tps : option Binary64.float) :
  Binary64.finite total_latency = true ->
  Binary64.gt0 total_latency = true ->
  (if 0 <? total_tokens
   then Some <$> Binary64.int_truediv_float total_tokens total_latency
   else mret None) = Binary64.Ok tps ->
  throughput_guarded64 total_latency total_tokens (Binary64.round_if tps 2).
Proof.
  intros Hfin Hpos. destruct (0 <? total_tokens) eqn:Ht.
  - apply Z.ltb_lt in Ht. unfold Binary64.int_truediv_float.
    destruct (Binary64.of_int total_tokens) as [a | err] eqn:Ha; [| discriminate].
    destruct (int_truediv_float_pos total_tokens total_latency a Ht Hfin Hpos Ha)
      as (_ & Htruthy & Hnan & _).
    simpl. unfold Binary64.truediv. rewrite (gt0_truthy _ Hpos).
    intros [= <-]. simpl. rewrite Htruthy. split.
    + split; [now intros _ | intros _; now eexists].
    + intros v [= <-]. exists a. split; [exact Ha |]. split; [reflexivity |].
      split; [exact Hnan | now apply round_not_nan].
  - apply Z.ltb_ge in Ht. intros [= <-]. simpl. split.
    + split; [intros [v Hv]; discriminate | intros [_ H]; lia].
    + discriminate.
Qed.

(** With a latency that is not positive the field is absent. *)
Lemma overall_rate64_absent (total_latency : Binary64.float) (total_tokens : Z) :
  Binary64.gt0 total_latency = false ->
  throughput_guarded64 total_latency total_tokens None.
Proof.
  intros Hpos. split.
  - split; [intros [v Hv]; discriminate | intros [H _]; congruence].
  - discriminate.
Qed.

Ltac result_simpl :=
  cbn [mbind mret fmap Result_bind Result_ret Result_fmap Binary64.bind
       Ollama64.number Ollama64.count_field].

Lemma stream_metrics_guarded (req : ChatRequest)
    (start_time end_time : Binary64.float) (st : Ollama64.Relay)
    (obj : Ollama64.StreamObj) (m : Ollama64.PerformanceMetrics) :
  Binary64.finite (Binary64.sub end_time start_time) = true ->
  Ollama64.stream_metrics req start_time end_time st obj = Binary64.Ok m ->
  exists input output,
    Ollama64.get (Ollama64.o_prompt_eval_count obj)
      (Ollama64.r_prompt_eval_count st) = Some input
    /\ Ollama64.get (Ollama64.o_eval_count obj) (Ollama64.token_count st)
       = Some output
    /\ throughput_guarded64 (Binary64.sub end_time start_time)
         (input + output) (Ollama64.tokens_per_second m).
Proof.
  intros Hfin. unfold Ollama64.stream_metrics, Ollama64.stream_rates.
  set (lat := Binary64.sub end_time start_time) in *.
  destruct (Ollama64.get (Ollama64.o_prompt_eval_count obj) _) as [p |];
    destruct (Ollama64.get (Ollama64.o_eval_count obj) _) as [e |];
    destruct (Binary64.gt0 lat) eqn:Hpos; result_simpl; try discriminate.
  - destruct (if 0 <? p + e then _ else _) as [tps | err] eqn:Htps;
      result_simpl; [| discriminate].
    pose proof (overall_rate64 lat (p + e) tps Hfin Hpos Htps) as Hg.
    intros Hm. exists p, e. split; [reflexivity |]. split; [reflexivity |].
    assert (Hfield : Ollama64.tokens_per_second m = Binary64.round_if tps 2).
    { revert Hm. clear Htps Hg.
      set (gt := Binary64.sub lat (Ollama64.ttft_or_zero (Ollama64.r_ttft st))).
      destruct (0 <? e);
        [destruct (Binary64.gt0 gt);
         [destruct (Binary64.int_truediv_float e gt); result_simpl;
          [destruct (Binary64.float_truediv_int gt e); result_simpl |] |] |];
        result_simpl; try discriminate; now intros [= <-]. }
    now rewrite Hfield.
  - intros [= <-]. exists p, e. split; [reflexivity |]. split; [reflexivity |].
    now apply overall_rate64_absent.
Qed.

Lemma relay64_cons (req : ChatRequest) (start_time : Binary64.float)
    (st : Ollama64.Relay) (now : Binary64.float) (line : Ollama64.Line)
    (rest : list (Binary64.float * Ollama64.Line)) (tail : Ollama.StreamEnd) :
  Ollama64.relay req start_time st ((now, line) :: rest) tail =
  match Ollama64.on_line req start_time st now line with
  | Ollama64.Next st' out =>
      let r := Ollama64.relay req start_time st' rest tail in
      (match out with Some f => f :: r.1 | None => r.1 end, r.2)
  | Ollama64.Break f => ([f], Ollama64.Returned)
  | Ollama64.Throw e => ([], Ollama64.Raised e)
  end.
Proof.
  simpl.
  destruct (Ollama64.on_line req start_time st now line) as [st' out | f | e];
    [| reflexivity | reflexivity].
  now destruct (Ollama64.relay req start_time st' rest tail).
Qed.

(** The binary64 loop from any state: the frames are the backend's
    fragments, in order, closed by the final frame when a done object
    arrives and its metrics can be computed; the state in which the done
    object is handled has counted one token per fragment. *)
Lemma relay64_frames (req : ChatRequest) (start_time : Binary64.float)
    (lines : list (Binary64.float * Ollama64.Line)) (tail : Ollama.StreamEnd) :
  forall st : Ollama64.Relay,
  exists st' : Ollama64.Relay,
    Ollama64.token_count st' = Ollama64.token_count st + len (fragments64 lines)
    /\ Ollama64.r_prompt_eval_count st' = Ollama64.r_prompt_eval_count st
    /\ Ollama64.relay req start_time st lines tail =
       match done_object64 lines with
       | Some (now, obj) =>
           match Ollama64.stream_metrics req start_time now st' obj with
           | Binary64.Ok m =>
               ((Ollama64.TokenFrame <$> fragments64 lines)
                ++ [Ollama64.DoneFrame (lit "[DONE]") m],
                Ollama64.Returned)
           | Binary64.Err e =>
               (Ollama64.TokenFrame <$> fragments64 lines, Ollama64.Raised e)
           end
       | None =>
           (Ollama64.TokenFrame <$> fragments64 lines,
            match tail with
            | Ollama.Eof => Ollama64.Returned
            | Ollama.Dropped => Ollama64.Raised (Binary64.Other ReadError)
            end)
       end.
Proof.
  unfold len.
  induction lines as [| [now line] rest IH]; intros st.
  - exists st. simpl. repeat split; lia.
  - rewrite relay64_cons.
    destruct line as [| | obj]; simpl.
    + destruct (IH st) as (st' & Hc & Hp & ->). exists st'.
      repeat split; try assumption.
      destruct (done_object64 rest) as [[now' obj'] |]; [| reflexivity].
      now destruct (Ollama64.stream_metrics req start_time now' st' obj').
    + destruct (IH st) as (st' & Hc & Hp & ->). exists st'.
      repeat split; try assumption.
      destruct (done_object64 rest) as [[now' obj'] |]; [| reflexivity].
      now destruct (Ollama64.stream_metrics req start_time now' st' obj').
    + destruct (Ollama64.o_done obj) eqn:Hdone.
      * exists st. simpl. split; [lia |]. split; [reflexivity |].
        now destruct (Ollama64.stream_metrics req start_time now st obj).
      * destruct (default [] (Ollama64.o_response obj)) as [| c token] eqn:Htok.
        -- destruct (IH st) as (st' & Hc & Hp & ->). exists st'.
           repeat split; try assumption.
           destruct (done_object64 rest) as [[now' obj'] |]; [| reflexivity].
           now destruct (Ollama64.stream_metrics req start_time now' st' obj').
        -- match goal with
           | |- context [Ollama64.relay req start_time ?s rest tail] =>
               destruct (IH s) as (st' & Hcount & Hprompt & ->)
           end.
           exists st'. simpl in Hcount, Hprompt.
           split; [| split].
           ++ rewrite Hcount. simpl length.
              destruct (Ollama64.first_token_received st); simpl; lia.
           ++ rewrite Hprompt. now destruct (Ollama64.first_token_received st).
           ++ destruct (done_object64 rest) as [[now' obj'] |]; [| reflexivity].
              now destruct (Ollama64.stream_metrics req start_time now' st' obj').
Qed.

Lemma done_metrics64_tokens (tokens : list str) :
  done_metrics64 (Ollama64.TokenFrame <$> tokens) = None.
Proof.
  unfold done_metrics64. rewrite fmap_last. now destruct (last tokens).
Qed.

(** The run of [event_gen] on a stream with a done object. *)
Lemma event_gen64_done (backend : Ollama.Payload -> Ollama64.StreamResult)
    (start_time : Binary64.float) (req : ChatRequest)
    (lines : list (Binary64.float * Ollama64.Line)) (tail : Ollama.StreamEnd)
    (now : Binary64.float) (obj : Ollama64.StreamObj) :
  backend (Ollama.stream_payload req) = Ollama64.Lines lines tail ->
  done_object64 lines = Some (now, obj) ->
  exists st : Ollama64.Relay,
    Ollama64.token_count st = len (fragments64 lines)
    /\ Ollama64.r_prompt_eval_count st = 0
    /\ (Ollama64.event_gen backend start_time req).2 =
       match Ollama64.stream_metrics req start_time now st obj with
       | Binary64.Ok m =>
           ((Ollama64.TokenFrame <$> fragments64 lines)
            ++ [Ollama64.DoneFrame (lit "[DONE]") m],
            Ollama64.Returned)
       | Binary64.Err e =>
           (Ollama64.TokenFrame <$> fragments64 lines, Ollama64.Raised e)
       end.
Proof.
  intros Hb Hdone. unfold Ollama64.event_gen. simpl snd. rewrite Hb.
  destruct (relay64_frames req start_time lines tail Ollama64.relay_init)
    as (st & Hc & Hp & ->).
  rewrite Hdone. exists st. simpl in Hc, Hp. repeat split; assumption.
Qed.

Lemma chat_response_guarded (req : ChatRequest)
    (start_time end_time : Binary64.float) (data : Ollama64.GenerateData)
    (resp : Ollama64.ChatResponse) :
  Binary64.finite (Binary64.sub end_time start_time) = true ->
  Ollama64.chat_response req start_time end_time data = Binary64.Ok resp ->
  exists input output,
    Ollama64.get (Ollama64.g_prompt_eval_count data) 0 = Some input
    /\ Ollama64.get (Ollama64.g_eval_count data) 0 = Some output
    /\ throughput_guarded64 (Binary64.sub end_time start_time)
         (input + output)
         (Ollama64.tokens_per_second (Ollama64.metrics resp)).
Proof.
  intros Hfin. unfold Ollama64.chat_response, Ollama64.chat_rates.
  set (lat := Binary64.sub end_time start_time) in *.
  destruct (Ollama64.get (Ollama64.g_prompt_eval_count data) 0) as [p |];
    destruct (Ollama64.get (Ollama64.g_eval_count data) 0) as [e |];
    destruct (Binary64.gt0 lat) eqn:Hpos; result_simpl; try discriminate.
  - destruct (if 0 <? p + e then _ else _) as [tps | err] eqn:Htps;
      result_simpl; [| discriminate].
    pose proof (overall_rate64 lat (p + e) tps Hfin Hpos Htps) as Hg.
    intros Hm. exists p, e. split; [reflexivity |]. split; [reflexivity |].
    assert (Hfield : Ollama64.tokens_per_second (Ollama64.metrics resp)
                     = Binary64.round_if tps 2).
    { revert Hm. clear Htps Hg.
      destruct (0 <? e); result_simpl; [| now intros [= <-]].
      destruct (Ollama64.generation_time lat data) as [gt | err];
        result_simpl; [| discriminate].
      destruct (Binary64.gt0 gt); result_simpl; [| now intros [= <-]].
      destruct (Binary64.int_truediv_float e gt); result_simpl; [| discriminate].
      destruct (Binary64.float_truediv_int gt e); result_simpl; [| discriminate].
      now intros [= <-]. }
    now rewrite Hfield.
  - intros [= <-]. exists p, e. split; [reflexivity |]. split; [reflexivity |].
    now apply overall_rate64_absent.
Qed.

(** *** No division by zero *)

Lemma int_truediv_float_no_zd (n : Z) (y : Binary64.float) :
  Binary64.gt0 y = true ->
  Binary64.int_truediv_float n y
  <> Binary64.Err (Binary64.Other ZeroDivisionError).
Proof.
  intros Hy. unfold Binary64.int_truediv_float, Binary64.truediv.
  rewrite (gt0_truthy y Hy). unfold Binary64.of_int.
  now destruct (binary_normalize _ _ _ _ _).
Qed.

Lemma float_truediv_int_no_zd (x : Binary64.float) (n : Z) :
  0 < n ->
  Binary64.float_truediv_int x n
  <> Binary64.Err (Binary64.Other ZeroDivisionError).
Proof.
  intros Hn. unfold Binary64.float_truediv_int.
  destruct (Binary64.of_int n) as [y | err] eqn:Hy.
  - simpl. unfold Binary64.truediv. now rewrite (of_int_truthy n y Hn Hy).
  - simpl. unfold Binary64.of_int in Hy.
    destruct (binary_normalize _ _ _ _ _); inversion Hy; discriminate.
Qed.

Lemma int_truediv_no_zd (a b : Z) :
  b <> 0 ->
  Binary64.int_truediv a b <> Binary64.Err (Binary64.Other ZeroDivisionError).
Proof.
  intros Hb. unfold Binary64.int_truediv.
  destruct (b =? 0) eqn:E; [apply Z.eqb_eq in E; contradiction |].
  destruct a; [discriminate | |]; now destruct (Binary64.nearest _ _ _).
Qed.

Lemma generation_time_no_zd (total_latency : Binary64.float)
    (data : Ollama64.GenerateData) :
  Ollama64.generation_time total_latency data
  <> Binary64.Err (Binary64.Other ZeroDivisionError).
Proof.
  unfold Ollama64.generation_time.
  destruct (Ollama64.get (Ollama64.g_total_duration data) 0) as [td |];
    result_simpl; [| discriminate].
  destruct (Binary64.int_truediv td 1000000000) as [tds | err] eqn:Htd;
    result_simpl.
  2:{ intros [= ->]. now apply (int_truediv_no_zd td 1000000000). }
  destruct (Ollama64.get (Ollama64.g_prompt_eval_duration data) 0) as [pd |];
    result_simpl; [| discriminate].
  destruct (Binary64.int_truediv pd 1000000000) as [pds | err] eqn:Hpd;
    result_simpl; [discriminate |].
  intros [= ->]. now apply (int_truediv_no_zd pd 1000000000).
Qed.

(** The two quotients of the output count and the generation time. *)
Lemma output_rates_no_zd {A : Type} (eval_count : Z) (gt : Binary64.float)
    (k : Binary64.float -> Binary64.float -> Binary64.Result A) :
  0 < eval_count -> Binary64.gt0 gt = true ->
  (forall o t, k o t <> Binary64.Err (Binary64.Other ZeroDivisionError)) ->
  (o ← Binary64.int_truediv_float eval_count gt;
   t ← Binary64.float_truediv_int gt eval_count;
   k o t) <> Binary64.Err (Binary64.Other ZeroDivisionError).
Proof.
  intros He Hgt Hk.
  destruct (Binary64.int_truediv_float eval_count gt) as [o | err] eqn:Ho;
    result_simpl.
  2:{ intros [= ->]. now apply (int_truediv_float_no_zd eval_count gt). }
  destruct (Binary64.float_truediv_int gt eval_count) as [t | err] eqn:Ht;
    result_simpl; [apply Hk |].
  intros [= ->]. now apply (float_truediv_int_no_zd gt eval_count).
Qed.

Lemma overall_rate_no_zd (total_latency : Binary64.float) (total_tokens : Z) :
  Binary64.gt0 total_latency = true ->
  (if 0 <? total_tokens
   then Some <$> Binary64.int_truediv_float total_tokens total_latency
   else mret None) <> Binary64.Err (Binary64.Other ZeroDivisionError).
Proof.
  intros Hpos. destruct (0 <? total_tokens); [| discriminate].
  destruct (Binary64.int_truediv_float total_tokens total_latency)
    as [x | err] eqn:Hx; result_simpl; [discriminate |].
  intros [= ->]. now apply (int_truediv_float_no_zd total_tokens total_latency).
Qed.

Lemma stream_metrics_no_zd (req : ChatRequest)
    (start_time end_time : Binary64.float) (st : Ollama64.Relay)
    (obj : Ollama64.StreamObj) :
  Ollama64.stream_metrics req start_time end_time st obj
  <> Binary64.Err (Binary64.Other ZeroDivisionError).
Proof.
  unfold Ollama64.stream_metrics, Ollama64.stream_rates.
  set (lat := Binary64.sub end_time start_time).
  destruct (Ollama64.get (Ollama64.o_prompt_eval_count obj) _) as [p |];
    destruct (Ollama64.get (Ollama64.o_eval_count obj) _) as [e |];
    destruct (Binary64.gt0 lat) eqn:Hpos; result_simpl; try discriminate.
  pose proof (overall_rate_no_zd lat (p + e) Hpos) as Htps.
  destruct (if 0 <? p + e then _ else _) as [tps | err];
    result_simpl; [| intros [= ->]; congruence].
  destruct (0 <? e) eqn:He; result_simpl; [| discriminate].
  apply Z.ltb_lt in He.
  set (gt := Binary64.sub lat (Ollama64.ttft_or_zero (Ollama64.r_ttft st))).
  destruct (Binary64.gt0 gt) eqn:Hgt; result_simpl; [| discriminate].
  pose proof (output_rates_no_zd e gt
                (fun o t => Binary64.Ok (tps, Some o, Some t)) He Hgt
                ltac:(discriminate)) as H.
  cbn [mbind Result_bind Binary64.bind] in H.
  destruct (Binary64.int_truediv_float e gt) as [o | err]; result_simpl;
    [| cbn in H; intros [= ->]; now apply H].
  destruct (Binary64.float_truediv_int gt e) as [t | err]; result_simpl;
    [discriminate | cbn in H; intros [= ->]; now apply H].
Qed.

Lemma chat_response_no_zd (req : ChatRequest)
    (start_time end_time : Binary64.float) (data : Ollama64.GenerateData) :
  Ollama64.chat_response req start_time end_time data
  <> Binary64.Err (Binary64.Other ZeroDivisionError).
Proof.
  unfold Ollama64.chat_response, Ollama64.chat_rates.
  set (lat := Binary64.sub end_time start_time).
  destruct (Ollama64.get (Ollama64.g_prompt_eval_count data) 0) as [p |];
    destruct (Ollama64.get (Ollama64.g_eval_count data) 0) as [e |];
    destruct (Binary64.gt0 lat) eqn:Hpos; result_simpl; try discriminate.
  pose proof (overall_rate_no_zd lat (p + e) Hpos) as Htps.
  destruct (if 0 <? p + e then _ else _) as [tps | err];
    result_simpl; [| intros [= ->]; congruence].
  destruct (0 <? e) eqn:He; result_simpl; [| discriminate].
  apply Z.ltb_lt in He.
  pose proof (generation_time_no_zd lat data) as Hgen.
  destruct (Ollama64.generation_time lat data) as [gt | err];
    result_simpl; [| intros [= ->]; congruence].
  destruct (Binary64.gt0 gt) eqn:Hgt; result_simpl; [| discriminate].
  pose proof (output_rates_no_zd e gt
                (fun o t => Binary64.Ok (tps, Some o, Some t)) He Hgt
                ltac:(discriminate)) as H.
  cbn [mbind Result_bind Binary64.bind] in H.
  destruct (Binary64.int_truediv_float e gt) as [o | err]; result_simpl;
    [| cbn in H; intros [= ->]; now apply H].
  destruct (Binary64.float_truediv_int gt e) as [t | err]; result_simpl;
    [discriminate | cbn in H; intros [= ->]; now apply H].
Qed.

(** *** Completion *)

Lemma nearest_total (s : bool) (a b : Z) :
  0 < a < 2 ^ 1023 -> 0 < b < 2 ^ 1000 ->
  exists m e, Binary64.nearest s a b = S754_finite s m e.
Proof.
  intros Ha Hb. unfold Binary64.nearest.
  assert (Hda : Zdigits2 a <= 1023) by (apply Zdigits2_le; lia).
  assert (Hdb : Zdigits2 b <= 1000) by (apply Zdigits2_le; lia).
  pose proof (Zdigits2_pos a ltac:(lia)) as Hpa.
  pose proof (Zdigits2_pos b ltac:(lia)) as Hpb.
  destruct (SFdiv_core_binary_spec a 0 b 0 ltac:(lia) ltac:(lia) ltac:(lia))
    as (Hq & Hd & He).
  destruct (SFdiv_core_binary Binary64.prec Binary64.emax a 0 b 0) as [[q e'] l].
  simpl fst in *. simpl snd in *.
  destruct (binary_round_aux_pos s q e' l Hq ltac:(lia))
    as [[_ Hbig] | (m & e & -> & _)]; [lia | now exists m, e].
Qed.

Lemma int_truediv_total (a : Z) :
  Z.abs a < 2 ^ 1023 -> exists x, Binary64.int_truediv a 1000000000 = Binary64.Ok x.
Proof.
  intros Ha. unfold Binary64.int_truediv. simpl Z.eqb. cbv iota.
  destruct a as [| p | p]; [now eexists | |].
  - destruct (nearest_total (xorb (Zpos p <? 0) (1000000000 <? 0))
                (Z.abs (Zpos p)) (Z.abs 1000000000)) as (m & e & ->);
      [lia | split; [reflexivity | now apply Z.ltb_lt] | now eexists].
  - destruct (nearest_total (xorb (Zneg p <? 0) (1000000000 <? 0))
                (Z.abs (Zneg p)) (Z.abs 1000000000)) as (m & e & ->);
      [lia | split; [reflexivity | now apply Z.ltb_lt] | now eexists].
Qed.

Lemma int_truediv_float_total (n : Z) (y : Binary64.float) :
  Z.abs n < 2 ^ 1023 -> Binary64.gt0 y = true ->
  exists x, Binary64.int_truediv_float n y = Binary64.Ok x.
Proof.
  intros Hn Hy. unfold Binary64.int_truediv_float.
  destruct (of_int_total n Hn) as (a & ->). simpl.
  unfold Binary64.truediv. rewrite (gt0_truthy y Hy). now eexists.
Qed.

Lemma float_truediv_int_total (x : Binary64.float) (n : Z) :
  0 < n < 2 ^ 1023 -> exists y, Binary64.float_truediv_int x n = Binary64.Ok y.
Proof.
  intros Hn. unfold Binary64.float_truediv_int.
  destruct (of_int_total n ltac:(lia)) as (b & Hb). rewrite Hb. simpl.
  unfold Binary64.truediv. rewrite (of_int_truthy n b ltac:(lia) Hb).
  now eexists.
Qed.

Lemma in_range_get (f : Ollama64.Field) (d : Z) :
  in_range f = true -> Z.abs d < 2 ^ 1022 ->
  exists n, Ollama64.get f d = Some n /\ Z.abs n < 2 ^ 1022.
Proof.
  destruct f as [| | n]; simpl; intros H Hd; try discriminate.
  - now exists d.
  - apply Z.ltb_lt in H. now exists n.
Qed.

Lemma pow2_1023 : 2 ^ 1023 = 2 * 2 ^ 1022.
Proof. now rewrite <- Z.pow_succ_r. Qed.

Lemma generation_time_total (total_latency : Binary64.float)
    (data : Ollama64.GenerateData) :
  in_range (Ollama64.g_total_duration data) = true ->
  in_range (Ollama64.g_prompt_eval_duration data) = true ->
  exists w, Ollama64.generation_time total_latency data = Binary64.Ok w.
Proof.
  intros Htd Hpd. unfold Ollama64.generation_time.
  assert (Hz : Z.abs 0 < 2 ^ 1022) by (simpl; now apply Z.pow_pos_nonneg).
  pose proof pow2_1023 as P.
  destruct (in_range_get _ 0 Htd Hz) as (td & -> & Btd).
  destruct (in_range_get _ 0 Hpd Hz) as (pd & -> & Bpd).
  result_simpl.
  destruct (int_truediv_total td ltac:(lia)) as (tds & ->). result_simpl.
  destruct (int_truediv_total pd ltac:(lia)) as (pds & ->). result_simpl.
  now eexists.
Qed.

(** The rates of the output count, once they are reached. *)
Lemma output_rates_total (eval_count : Z) (gt : Binary64.float) :
  0 < eval_count < 2 ^ 1023 -> Binary64.gt0 gt = true ->
  exists o t,
    Binary64.int_truediv_float eval_count gt = Binary64.Ok o
    /\ Binary64.float_truediv_int gt eval_count = Binary64.Ok t.
Proof.
  intros He Hgt.
  destruct (int_truediv_float_total eval_count gt ltac:(lia) Hgt) as (o & ->).
  destruct (float_truediv_int_total gt eval_count He) as (t & ->).
  now exists o, t.
Qed.

Lemma overall_rate_total (total_latency : Binary64.float) (total_tokens : Z) :
  Z.abs total_tokens < 2 ^ 1023 -> Binary64.gt0 total_latency = true ->
  exists tps,
    (if 0 <? total_tokens
     then Some <$> Binary64.int_truediv_float total_tokens total_latency
     else mret None) = Binary64.Ok tps.
Proof.
  intros Ht Hpos. destruct (0 <? total_tokens); [| now eexists].
  destruct (int_truediv_float_total total_tokens total_latency Ht Hpos)
    as (x & ->).
  now eexists.
Qed.

Lemma stream_metrics_total64 (req : ChatRequest)
    (start_time end_time : Binary64.float) (st : Ollama64.Relay)
    (obj : Ollama64.StreamObj) (input output : Z) :
  Ollama64.get (Ollama64.o_prompt_eval_count obj)
    (Ollama64.r_prompt_eval_count st) = Some input ->
  Ollama64.get (Ollama64.o_eval_count obj) (Ollama64.token_count st)
  = Some output ->
  Z.abs input < 2 ^ 1022 -> Z.abs output < 2 ^ 1022 ->
  exists m,
    Ollama64.stream_metrics req start_time end_time st obj = Binary64.Ok m.
Proof.
  intros Ei Eo Hi Ho. pose proof pow2_1023 as P.
  unfold Ollama64.stream_metrics, Ollama64.stream_rates. rewrite Ei, Eo.
  set (lat := Binary64.sub end_time start_time).
  destruct (Binary64.gt0 lat) eqn:Hpos; result_simpl; [| now eexists].
  destruct (overall_rate_total lat (input + output) ltac:(lia) Hpos)
    as (tps & ->).
  result_simpl.
  destruct (0 <? output) eqn:He; result_simpl; [| now eexists].
  apply Z.ltb_lt in He.
  set (gt := Binary64.sub lat (Ollama64.ttft_or_zero (Ollama64.r_ttft st))).
  destruct (Binary64.gt0 gt) eqn:Hgt; result_simpl; [| now eexists].
  destruct (output_rates_total output gt ltac:(lia) Hgt) as (o & t & -> & ->).
  result_simpl. now eexists.
Qed.

Lemma chat_response_total64 (req : ChatRequest)
    (start_time end_time : Binary64.float) (data : Ollama64.GenerateData) :
  in_range (Ollama64.g_prompt_eval_count data) = true ->
  in_range (Ollama64.g_eval_count data) = true ->
  in_range (Ollama64.g_total_duration data) = true ->
  in_range (Ollama64.g_prompt_eval_duration data) = true ->
  exists resp,
    Ollama64.chat_response req start_time end_time data = Binary64.Ok resp.
Proof.
  intros Hp He Htd Hpd. pose proof pow2_1023 as P.
  assert (Hz : Z.abs 0 < 2 ^ 1022) by (simpl; now apply Z.pow_pos_nonneg).
  destruct (in_range_get _ 0 Hp Hz) as (input & Ei & Hi).
  destruct (in_range_get _ 0 He Hz) as (output & Eo & Ho).
  unfold Ollama64.chat_response, Ollama64.chat_rates. rewrite Ei, Eo.
  set (lat := Binary64.sub end_time start_time).
  destruct (Binary64.gt0 lat) eqn:Hpos; result_simpl; [| now eexists].
  destruct (overall_rate_total lat (input + output) ltac:(lia) Hpos)
    as (tps & ->).
  result_simpl.
  destruct (0 <? output) eqn:Hout; result_simpl; [| now eexists].
  apply Z.ltb_lt in Hout.
  destruct (generation_time_total lat data Htd Hpd) as (gt & ->). result_simpl.
  destruct (Binary64.gt0 gt) eqn:Hgt; result_simpl; [| now eexists].
  destruct (output_rates_total output gt ltac:(lia) Hgt) as (o & t & -> & ->).
  result_simpl. now eexists.
Qed.

(** ** The throughput guard in binary64 *)

(** C5. In the Ollama gateway, for every request that completes (the
    non-streaming handler returns, or the stream sends its final frame)
    with a finite measured latency, [tokens_per_second] is present
    exactly when the latency and the sum of the two token counts are
    positive; it is then the double quotient of the sum by the latency,
    rounded to two decimals as [round] does, and it is never NaN; it is
    absent otherwise. Neither handler ever divides by zero. A request
    whose counts are integers below [2^1022] in magnitude, or are left
    out, completes. The value need not be finite. *)
Theorem throughput_guard_binary64 :
  (forall backend req start_time end_time data resp,
     backend (Ollama.chat_payload req) = Ollama64.Success data ->
     Binary64.finite (Binary64.sub end_time start_time) = true ->
     (Ollama64.chat backend start_time end_time req).2 = Binary64.Ok resp ->
     exists input output,
       Ollama64.get (Ollama64.g_prompt_eval_count data) 0 = Some input
       /\ Ollama64.get (Ollama64.g_eval_count data) 0 = Some output
       /\ throughput_guarded64 (Binary64.sub end_time start_time)
            (input + output)
            (Ollama64.tokens_per_second (Ollama64.metrics resp)))
  /\ (forall backend req start_time lines tail now obj m,
        backend (Ollama.stream_payload req) = Ollama64.Lines lines tail ->
        done_object64 lines = Some (now, obj) ->
        Binary64.finite (Binary64.sub now start_time) = true ->
        done_metrics64 (Ollama64.event_gen backend start_time req).2.1 = Some m ->
        exists input output,
          Ollama64.get (Ollama64.o_prompt_eval_count obj) 0 = Some input
          /\ Ollama64.get (Ollama64.o_eval_count obj) (len (fragments64 lines))
             = Some output
          /\ throughput_guarded64 (Binary64.sub now start_time)
               (input + output) (Ollama64.tokens_per_second m))
  /\ (forall backend req start_time end_time,
        (Ollama64.chat backend start_time end_time req).2
        <> Binary64.Err (Binary64.Other ZeroDivisionError))
  /\ (forall backend req start_time,
        (Ollama64.event_gen backend start_time req).2.2
        <> Ollama64.Raised (Binary64.Other ZeroDivisionError))
  /\ (forall backend req start_time end_time data,
        backend (Ollama.chat_payload req) = Ollama64.Success data ->
        in_range (Ollama64.g_prompt_eval_count data) = true ->
        in_range (Ollama64.g_eval_count data) = true ->
        in_range (Ollama64.g_total_duration data) = true ->
        in_range (Ollama64.g_prompt_eval_duration data) = true ->
        exists resp,
          (Ollama64.chat backend start_time end_time req).2 = Binary64.Ok resp)
  /\ (forall backend req start_time lines tail now obj,
        backend (Ollama.stream_payload req) = Ollama64.Lines lines tail ->
        done_object64 lines = Some (now, obj) ->
        in_range (Ollama64.o_prompt_eval_count obj) = true ->
        in_range (Ollama64.o_eval_count obj) = true ->
        len (fragments64 lines) < 2 ^ 1022 ->
        exists m,
          (Ollama64.event_gen backend start_time req).2
          = ((Ollama64.TokenFrame <$> fragments64 lines)
             ++ [Ollama64.DoneFrame (lit "[DONE]") m], Ollama64.Returned)).
Proof.
  repeat split.
  - intros backend req start_time end_time data resp Hb Hfin.
    unfold Ollama64.chat. simpl snd. rewrite Hb.
    now apply chat_response_guarded.
  - intros backend req start_time lines tail now obj m Hb Hdone Hfin.
    destruct (event_gen64_done backend start_time req lines tail now obj Hb Hdone)
      as (st & Hc & Hp & ->).
    destruct (Ollama64.stream_metrics req start_time now st obj) as [m' | e] eqn:Hm;
      simpl fst.
    + unfold done_metrics64. rewrite last_snoc. intros [= <-].
      rewrite <- Hc, <- Hp. now apply (stream_metrics_guarded req).
    + now rewrite done_metrics64_tokens.
  - intros backend req start_time end_time. unfold Ollama64.chat. simpl snd.
    destruct (backend (Ollama.chat_payload req)) as [| status | data];
      [discriminate | discriminate | apply chat_response_no_zd].
  - intros backend req start_time. unfold Ollama64.event_gen. simpl snd.
    destruct (backend (Ollama.stream_payload req)) as [| status | lines tail];
      [discriminate | discriminate |].
    destruct (relay64_frames req start_time lines tail Ollama64.relay_init)
      as (st & _ & _ & ->).
    destruct (done_object64 lines) as [[now obj] |].
    + pose proof (stream_metrics_no_zd req start_time now st obj) as H.
      destruct (Ollama64.stream_metrics req start_time now st obj) as [m | e];
        [discriminate |].
      simpl. intros [= ->]. now apply H.
    + now destruct tail.
  - intros backend req start_time end_time data Hb Hp He Htd Hpd.
    unfold Ollama64.chat. simpl snd. rewrite Hb.
    now apply chat_response_total64.
  - intros backend req start_time lines tail now obj Hb Hdone Hp He Hlen.
    destruct (event_gen64_done backend start_time req lines tail now obj Hb Hdone)
      as (st & Hc & Hq & ->).
    assert (Hz : Z.abs 0 < 2 ^ 1022) by (simpl; now apply Z.pow_pos_nonneg).
    assert (Hl : Z.abs (len (fragments64 lines)) < 2 ^ 1022).
    { unfold len in *. lia. }
    destruct (in_range_get _ 0 Hp Hz) as (input & Ei & Hi).
    destruct (in_range_get _ _ He Hl) as (output & Eo & Ho).
    rewrite <- Hq in Ei. rewrite <- Hc in Eo.
    destruct (stream_metrics_total64 req start_time now st obj input output
                Ei Eo Hi Ho) as (m & ->).
    now exists m.
Qed.

Lemma throughput_guard_binary64_witness :
  exists input output,
    Ollama64.get (Ollama64.Int 3) 0 = Some input
    /\ Ollama64.get (Ollama64.Int 2)
         (len (fragments64
                 [ (Binary64.decimal 25 2,
                    Ollama64.Obj
                      {| Ollama64.o_done := false;
                         Ollama64.o_response := Some (lit "Hi");
                         Ollama64.o_prompt_eval_count := Ollama64.Missing;
                         Ollama64.o_eval_count := Ollama64.Missing |});
                   (Binary64.decimal 5 1,
                    Ollama64.Obj
                      {| Ollama64.o_done := true;
                         Ollama64.o_response := None;
                         Ollama64.o_prompt_eval_count := Ollama64.Int 3;
                         Ollama64.o_eval_count := Ollama64.Int 2 |}) ]))
       = Some output
    /\ throughput_guarded64 (Binary64.sub (Binary64.decimal 5 1) Binary64.zero)
         (input + output)
         (Some (Binary64.decimal 10 0)).
Proof.
  exact (proj1 (proj2 throughput_guard_binary64) (counted_stream 2) hi_request
           Binary64.zero _ Ollama.Eof (Binary64.decimal 5 1) _ _
           eq_refl eq_refl eq_refl eq_refl).
Defined.

(** A backend that reports 10^308 output tokens half a second after
    the start makes the final frame carry [inf], which [json.dumps]
    writes as [Infinity]. *)
Lemma huge_count_sends_infinity :
  exists m,
    done_metrics64 (Ollama64.event_gen (counted_stream (10 ^ 308))
                      Binary64.zero hi_request).2.1 = Some m
    /\ Ollama64.tokens_per_second m = Some (S754_infinity false)
    /\ Binary64.gt0 (Binary64.sub (Binary64.decimal 5 1) Binary64.zero) = true
    /\ Binary64.finite (Binary64.sub (Binary64.decimal 5 1) Binary64.zero) = true.
Proof.
  eexists. split; [vm_compute; reflexivity |]. now vm_compute.
Qed.

(** A count too large for a double makes the handler raise instead. *)
Lemma larger_count_raises :
  (Ollama64.event_gen (counted_stream (10 ^ 400)) Binary64.zero hi_request).2
  = ([Ollama64.TokenFrame (lit "Hi")], Ollama64.Raised Binary64.OverflowError).
Proof. now vm_compute. Qed.

(** The rate is the rounded double, not the rounded rational: 107
    tokens in 40 seconds give 2.67, although 107/40 = 2.675. *)
Lemma rate_rounds_the_double :
  exists resp,
    (Ollama64.chat plain_backend Binary64.zero (Binary64.decimal 40 0)
       hi_request).2 = Binary64.Ok resp
    /\ Ollama64.tokens_per_second (Ollama64.metrics resp)
       = Some (Binary64.decimal 267 2)
    /\ Ollama64.output_tokens_per_second (Ollama64.metrics resp)
       = Some (Binary64.decimal 17 2).
Proof. eexists. split; [vm_compute; reflexivity |]. now vm_compute. Qed.

(** ** The non-streaming handler in binary64 *)








(** A reply with a [null] output count: the handler raises
    [TypeError]. *)
Lemma null_count_raises :
  (Ollama64.chat null_count_backend Binary64.zero (Binary64.decimal 40 0)
     hi_request).2 = Binary64.Err Binary64.TypeError.
Proof. reflexivity. Qed.
